(** * Clinical data extractors: response normalizer, taxonomy, scheduler, accumulator

    A shallow embedding of the Python extraction scripts
    ([PostOP/AS_PostOP_DataExtractor_Claude.py],
    [AS_PreOP_DataExtractor_Gemini.py],
    [Disease Course/AS_DisCourse_DataExtractor_local.py]).

    Python [str] values are sequences of Unicode code points and are modelled
    as [list N]; dictionaries are finite maps ([gmap]); the regular
    expressions of the scripts are kept as syntax trees and run by a
    backtracking matcher with the priorities of Python's [re] module.  Letter
    case and word characters follow the tables of the Unicode Character
    Database.  A workbook is kept as the frame it was written from; what
    [pd.read_excel] makes of it, and whether it can be written, come from
    the environment of a run. *)

From Stdlib Require Import NArith ZArith String Ascii List Bool Lia.
From Stdlib Require Import DecimalString DecimalNat.
From stdpp Require Import base option list gmap strings.
Import ListNotations.

Local Open Scope N_scope.

(** ** Unicode data

    The character tables are those of the Unicode Character Database,
    version 14.0, which CPython 3.11 is built with; each is a list of ranges
    of code points in ascending order. *)

Module Unicode.

(** [c] lies in one of the ranges. *)
Fixpoint in_ranges (c : N) (ranges : list (N * N)) : bool :=
  match ranges with
  | [] => false
  | (lo, hi) :: ranges' =>
      if c <? lo then false
      else if c <=? hi then true
      else in_ranges c ranges'
  end.

(** The code points [str.isalnum] is true of, and the underscore: the class
    [\w] of [re] for [str] patterns. *)
Definition word_ranges : list (N * N) :=
  [
    (48, 57); (65, 90); (95, 95); (97, 122); (170, 170); (178, 179);
    (181, 181); (185, 186); (188, 190); (192, 214); (216, 246); (248, 705);
    (710, 721); (736, 740); (748, 748); (750, 750); (880, 884); (886, 887);
    (890, 893); (895, 895); (902, 902); (904, 906); (908, 908); (910, 929);
    (931, 1013); (1015, 1153); (1162, 1327); (1329, 1366); (1369, 1369); (1376, 1416);
    (1488, 1514); (1519, 1522); (1568, 1610); (1632, 1641); (1646, 1647); (1649, 1747);
    (1749, 1749); (1765, 1766); (1774, 1788); (1791, 1791); (1808, 1808); (1810, 1839);
    (1869, 1957); (1969, 1969); (1984, 2026); (2036, 2037); (2042, 2042); (2048, 2069);
    (2074, 2074); (2084, 2084); (2088, 2088); (2112, 2136); (2144, 2154); (2160, 2183);
    (2185, 2190); (2208, 2249); (2308, 2361); (2365, 2365); (2384, 2384); (2392, 2401);
    (2406, 2415); (2417, 2432); (2437, 2444); (2447, 2448); (2451, 2472); (2474, 2480);
    (2482, 2482); (2486, 2489); (2493, 2493); (2510, 2510); (2524, 2525); (2527, 2529);
    (2534, 2545); (2548, 2553); (2556, 2556); (2565, 2570); (2575, 2576); (2579, 2600);
    (2602, 2608); (2610, 2611); (2613, 2614); (2616, 2617); (2649, 2652); (2654, 2654);
    (2662, 2671); (2674, 2676); (2693, 2701); (2703, 2705); (2707, 2728); (2730, 2736);
    (2738, 2739); (2741, 2745); (2749, 2749); (2768, 2768); (2784, 2785); (2790, 2799);
    (2809, 2809); (2821, 2828); (2831, 2832); (2835, 2856); (2858, 2864); (2866, 2867);
    (2869, 2873); (2877, 2877); (2908, 2909); (2911, 2913); (2918, 2927); (2929, 2935);
    (2947, 2947); (2949, 2954); (2958, 2960); (2962, 2965); (2969, 2970); (2972, 2972);
    (2974, 2975); (2979, 2980); (2984, 2986); (2990, 3001); (3024, 3024); (3046, 3058);
    (3077, 3084); (3086, 3088); (3090, 3112); (3114, 3129); (3133, 3133); (3160, 3162);
    (3165, 3165); (3168, 3169); (3174, 3183); (3192, 3198); (3200, 3200); (3205, 3212);
    (3214, 3216); (3218, 3240); (3242, 3251); (3253, 3257); (3261, 3261); (3293, 3294);
    (3296, 3297); (3302, 3311); (3313, 3314); (3332, 3340); (3342, 3344); (3346, 3386);
    (3389, 3389); (3406, 3406); (3412, 3414); (3416, 3425); (3430, 3448); (3450, 3455);
    (3461, 3478); (3482, 3505); (3507, 3515); (3517, 3517); (3520, 3526); (3558, 3567);
    (3585, 3632); (3634, 3635); (3648, 3654); (3664, 3673); (3713, 3714); (3716, 3716);
    (3718, 3722); (3724, 3747); (3749, 3749); (3751, 3760); (3762, 3763); (3773, 3773);
    (3776, 3780); (3782, 3782); (3792, 3801); (3804, 3807); (3840, 3840); (3872, 3891);
    (3904, 3911); (3913, 3948); (3976, 3980); (4096, 4138); (4159, 4169); (4176, 4181);
    (4186, 4189); (4193, 4193); (4197, 4198); (4206, 4208); (4213, 4225); (4238, 4238);
    (4240, 4249); (4256, 4293); (4295, 4295); (4301, 4301); (4304, 4346); (4348, 4680);
    (4682, 4685); (4688, 4694); (4696, 4696); (4698, 4701); (4704, 4744); (4746, 4749);
    (4752, 4784); (4786, 4789); (4792, 4798); (4800, 4800); (4802, 4805); (4808, 4822);
    (4824, 4880); (4882, 4885); (4888, 4954); (4969, 4988); (4992, 5007); (5024, 5109);
    (5112, 5117); (5121, 5740); (5743, 5759); (5761, 5786); (5792, 5866); (5870, 5880);
    (5888, 5905); (5919, 5937); (5952, 5969); (5984, 5996); (5998, 6000); (6016, 6067);
    (6103, 6103); (6108, 6108); (6112, 6121); (6128, 6137); (6160, 6169); (6176, 6264);
    (6272, 6276); (6279, 6312); (6314, 6314); (6320, 6389); (6400, 6430); (6470, 6509);
    (6512, 6516); (6528, 6571); (6576, 6601); (6608, 6618); (6656, 6678); (6688, 6740);
    (6784, 6793); (6800, 6809); (6823, 6823); (6917, 6963); (6981, 6988); (6992, 7001);
    (7043, 7072); (7086, 7141); (7168, 7203); (7232, 7241); (7245, 7293); (7296, 7304);
    (7312, 7354); (7357, 7359); (7401, 7404); (7406, 7411); (7413, 7414); (7418, 7418);
    (7424, 7615); (7680, 7957); (7960, 7965); (7968, 8005); (8008, 8013); (8016, 8023);
    (8025, 8025); (8027, 8027); (8029, 8029); (8031, 8061); (8064, 8116); (8118, 8124);
    (8126, 8126); (8130, 8132); (8134, 8140); (8144, 8147); (8150, 8155); (8160, 8172);
    (8178, 8180); (8182, 8188); (8304, 8305); (8308, 8313); (8319, 8329); (8336, 8348);
    (8450, 8450); (8455, 8455); (8458, 8467); (8469, 8469); (8473, 8477); (8484, 8484);
    (8486, 8486); (8488, 8488); (8490, 8493); (8495, 8505); (8508, 8511); (8517, 8521);
    (8526, 8526); (8528, 8585); (9312, 9371); (9450, 9471); (10102, 10131); (11264, 11492);
    (11499, 11502); (11506, 11507); (11517, 11517); (11520, 11557); (11559, 11559); (11565, 11565);
    (11568, 11623); (11631, 11631); (11648, 11670); (11680, 11686); (11688, 11694); (11696, 11702);
    (11704, 11710); (11712, 11718); (11720, 11726); (11728, 11734); (11736, 11742); (11823, 11823);
    (12293, 12295); (12321, 12329); (12337, 12341); (12344, 12348); (12353, 12438); (12445, 12447);
    (12449, 12538); (12540, 12543); (12549, 12591); (12593, 12686); (12690, 12693); (12704, 12735);
    (12784, 12799); (12832, 12841); (12872, 12879); (12881, 12895); (12928, 12937); (12977, 12991);
    (13312, 19903); (19968, 42124); (42192, 42237); (42240, 42508); (42512, 42539); (42560, 42606);
    (42623, 42653); (42656, 42735); (42775, 42783); (42786, 42888); (42891, 42954); (42960, 42961);
    (42963, 42963); (42965, 42969); (42994, 43009); (43011, 43013); (43015, 43018); (43020, 43042);
    (43056, 43061); (43072, 43123); (43138, 43187); (43216, 43225); (43250, 43255); (43259, 43259);
    (43261, 43262); (43264, 43301); (43312, 43334); (43360, 43388); (43396, 43442); (43471, 43481);
    (43488, 43492); (43494, 43518); (43520, 43560); (43584, 43586); (43588, 43595); (43600, 43609);
    (43616, 43638); (43642, 43642); (43646, 43695); (43697, 43697); (43701, 43702); (43705, 43709);
    (43712, 43712); (43714, 43714); (43739, 43741); (43744, 43754); (43762, 43764); (43777, 43782);
    (43785, 43790); (43793, 43798); (43808, 43814); (43816, 43822); (43824, 43866); (43868, 43881);
    (43888, 44002); (44016, 44025); (44032, 55203); (55216, 55238); (55243, 55291); (63744, 64109);
    (64112, 64217); (64256, 64262); (64275, 64279); (64285, 64285); (64287, 64296); (64298, 64310);
    (64312, 64316); (64318, 64318); (64320, 64321); (64323, 64324); (64326, 64433); (64467, 64829);
    (64848, 64911); (64914, 64967); (65008, 65019); (65136, 65140); (65142, 65276); (65296, 65305);
    (65313, 65338); (65345, 65370); (65382, 65470); (65474, 65479); (65482, 65487); (65490, 65495);
    (65498, 65500); (65536, 65547); (65549, 65574); (65576, 65594); (65596, 65597); (65599, 65613);
    (65616, 65629); (65664, 65786); (65799, 65843); (65856, 65912); (65930, 65931); (66176, 66204);
    (66208, 66256); (66273, 66299); (66304, 66339); (66349, 66378); (66384, 66421); (66432, 66461);
    (66464, 66499); (66504, 66511); (66513, 66517); (66560, 66717); (66720, 66729); (66736, 66771);
    (66776, 66811); (66816, 66855); (66864, 66915); (66928, 66938); (66940, 66954); (66956, 66962);
    (66964, 66965); (66967, 66977); (66979, 66993); (66995, 67001); (67003, 67004); (67072, 67382);
    (67392, 67413); (67424, 67431); (67456, 67461); (67463, 67504); (67506, 67514); (67584, 67589);
    (67592, 67592); (67594, 67637); (67639, 67640); (67644, 67644); (67647, 67669); (67672, 67702);
    (67705, 67742); (67751, 67759); (67808, 67826); (67828, 67829); (67835, 67867); (67872, 67897);
    (67968, 68023); (68028, 68047); (68050, 68096); (68112, 68115); (68117, 68119); (68121, 68149);
    (68160, 68168); (68192, 68222); (68224, 68255); (68288, 68295); (68297, 68324); (68331, 68335);
    (68352, 68405); (68416, 68437); (68440, 68466); (68472, 68497); (68521, 68527); (68608, 68680);
    (68736, 68786); (68800, 68850); (68858, 68899); (68912, 68921); (69216, 69246); (69248, 69289);
    (69296, 69297); (69376, 69415); (69424, 69445); (69457, 69460); (69488, 69505); (69552, 69579);
    (69600, 69622); (69635, 69687); (69714, 69743); (69745, 69746); (69749, 69749); (69763, 69807);
    (69840, 69864); (69872, 69881); (69891, 69926); (69942, 69951); (69956, 69956); (69959, 69959);
    (69968, 70002); (70006, 70006); (70019, 70066); (70081, 70084); (70096, 70106); (70108, 70108);
    (70113, 70132); (70144, 70161); (70163, 70187); (70272, 70278); (70280, 70280); (70282, 70285);
    (70287, 70301); (70303, 70312); (70320, 70366); (70384, 70393); (70405, 70412); (70415, 70416);
    (70419, 70440); (70442, 70448); (70450, 70451); (70453, 70457); (70461, 70461); (70480, 70480);
    (70493, 70497); (70656, 70708); (70727, 70730); (70736, 70745); (70751, 70753); (70784, 70831);
    (70852, 70853); (70855, 70855); (70864, 70873); (71040, 71086); (71128, 71131); (71168, 71215);
    (71236, 71236); (71248, 71257); (71296, 71338); (71352, 71352); (71360, 71369); (71424, 71450);
    (71472, 71483); (71488, 71494); (71680, 71723); (71840, 71922); (71935, 71942); (71945, 71945);
    (71948, 71955); (71957, 71958); (71960, 71983); (71999, 71999); (72001, 72001); (72016, 72025);
    (72096, 72103); (72106, 72144); (72161, 72161); (72163, 72163); (72192, 72192); (72203, 72242);
    (72250, 72250); (72272, 72272); (72284, 72329); (72349, 72349); (72368, 72440); (72704, 72712);
    (72714, 72750); (72768, 72768); (72784, 72812); (72818, 72847); (72960, 72966); (72968, 72969);
    (72971, 73008); (73030, 73030); (73040, 73049); (73056, 73061); (73063, 73064); (73066, 73097);
    (73112, 73112); (73120, 73129); (73440, 73458); (73648, 73648); (73664, 73684); (73728, 74649);
    (74752, 74862); (74880, 75075); (77712, 77808); (77824, 78894); (82944, 83526); (92160, 92728);
    (92736, 92766); (92768, 92777); (92784, 92862); (92864, 92873); (92880, 92909); (92928, 92975);
    (92992, 92995); (93008, 93017); (93019, 93025); (93027, 93047); (93053, 93071); (93760, 93846);
    (93952, 94026); (94032, 94032); (94099, 94111); (94176, 94177); (94179, 94179); (94208, 100343);
    (100352, 101589); (101632, 101640); (110576, 110579); (110581, 110587); (110589, 110590); (110592, 110882);
    (110928, 110930); (110948, 110951); (110960, 111355); (113664, 113770); (113776, 113788); (113792, 113800);
    (113808, 113817); (119520, 119539); (119648, 119672); (119808, 119892); (119894, 119964); (119966, 119967);
    (119970, 119970); (119973, 119974); (119977, 119980); (119982, 119993); (119995, 119995); (119997, 120003);
    (120005, 120069); (120071, 120074); (120077, 120084); (120086, 120092); (120094, 120121); (120123, 120126);
    (120128, 120132); (120134, 120134); (120138, 120144); (120146, 120485); (120488, 120512); (120514, 120538);
    (120540, 120570); (120572, 120596); (120598, 120628); (120630, 120654); (120656, 120686); (120688, 120712);
    (120714, 120744); (120746, 120770); (120772, 120779); (120782, 120831); (122624, 122654); (123136, 123180);
    (123191, 123197); (123200, 123209); (123214, 123214); (123536, 123565); (123584, 123627); (123632, 123641);
    (124896, 124902); (124904, 124907); (124909, 124910); (124912, 124926); (124928, 125124); (125127, 125135);
    (125184, 125251); (125259, 125259); (125264, 125273); (126065, 126123); (126125, 126127); (126129, 126132);
    (126209, 126253); (126255, 126269); (126464, 126467); (126469, 126495); (126497, 126498); (126500, 126500);
    (126503, 126503); (126505, 126514); (126516, 126519); (126521, 126521); (126523, 126523); (126530, 126530);
    (126535, 126535); (126537, 126537); (126539, 126539); (126541, 126543); (126545, 126546); (126548, 126548);
    (126551, 126551); (126553, 126553); (126555, 126555); (126557, 126557); (126559, 126559); (126561, 126562);
    (126564, 126564); (126567, 126570); (126572, 126578); (126580, 126583); (126585, 126588); (126590, 126590);
    (126592, 126601); (126603, 126619); (126625, 126627); (126629, 126633); (126635, 126651); (127232, 127244);
    (130032, 130041); (131072, 173791); (173824, 177976); (177984, 178205); (178208, 183969); (183984, 191456);
    (194560, 195101); (196608, 201546) ].

(** The cased code points that are not case-ignorable. *)
Definition cased_ranges : list (N * N) :=
  [
    (65, 90); (97, 122); (170, 170); (181, 181); (186, 186); (192, 214);
    (216, 246); (248, 442); (444, 447); (452, 659); (661, 687); (880, 883);
    (886, 887); (891, 893); (895, 895); (902, 902); (904, 906); (908, 908);
    (910, 929); (931, 1013); (1015, 1153); (1162, 1327); (1329, 1366); (1376, 1416);
    (4256, 4293); (4295, 4295); (4301, 4301); (4304, 4346); (4349, 4351); (5024, 5109);
    (5112, 5117); (7296, 7304); (7312, 7354); (7357, 7359); (7424, 7467); (7531, 7543);
    (7545, 7578); (7680, 7957); (7960, 7965); (7968, 8005); (8008, 8013); (8016, 8023);
    (8025, 8025); (8027, 8027); (8029, 8029); (8031, 8061); (8064, 8116); (8118, 8124);
    (8126, 8126); (8130, 8132); (8134, 8140); (8144, 8147); (8150, 8155); (8160, 8172);
    (8178, 8180); (8182, 8188); (8450, 8450); (8455, 8455); (8458, 8467); (8469, 8469);
    (8473, 8477); (8484, 8484); (8486, 8486); (8488, 8488); (8490, 8493); (8495, 8500);
    (8505, 8505); (8508, 8511); (8517, 8521); (8526, 8526); (8544, 8575); (8579, 8580);
    (9398, 9449); (11264, 11387); (11390, 11492); (11499, 11502); (11506, 11507); (11520, 11557);
    (11559, 11559); (11565, 11565); (42560, 42605); (42624, 42651); (42786, 42863); (42865, 42887);
    (42891, 42894); (42896, 42954); (42960, 42961); (42963, 42963); (42965, 42969); (42997, 42998);
    (43002, 43002); (43824, 43866); (43872, 43880); (43888, 43967); (64256, 64262); (64275, 64279);
    (65313, 65338); (65345, 65370); (66560, 66639); (66736, 66771); (66776, 66811); (66928, 66938);
    (66940, 66954); (66956, 66962); (66964, 66965); (66967, 66977); (66979, 66993); (66995, 67001);
    (67003, 67004); (68736, 68786); (68800, 68850); (71840, 71903); (93760, 93823); (119808, 119892);
    (119894, 119964); (119966, 119967); (119970, 119970); (119973, 119974); (119977, 119980); (119982, 119993);
    (119995, 119995); (119997, 120003); (120005, 120069); (120071, 120074); (120077, 120084); (120086, 120092);
    (120094, 120121); (120123, 120126); (120128, 120132); (120134, 120134); (120138, 120144); (120146, 120485);
    (120488, 120512); (120514, 120538); (120540, 120570); (120572, 120596); (120598, 120628); (120630, 120654);
    (120656, 120686); (120688, 120712); (120714, 120744); (120746, 120770); (120772, 120779); (122624, 122633);
    (122635, 122654); (125184, 125251); (127280, 127305); (127312, 127337); (127344, 127369) ].

(** The case-ignorable code points. *)
Definition case_ignorable_ranges : list (N * N) :=
  [
    (39, 39); (46, 46); (58, 58); (94, 94); (96, 96); (168, 168);
    (173, 173); (175, 175); (180, 180); (183, 184); (688, 879); (884, 885);
    (890, 890); (900, 901); (903, 903); (1155, 1161); (1369, 1369); (1375, 1375);
    (1425, 1469); (1471, 1471); (1473, 1474); (1476, 1477); (1479, 1479); (1524, 1524);
    (1536, 1541); (1552, 1562); (1564, 1564); (1600, 1600); (1611, 1631); (1648, 1648);
    (1750, 1757); (1759, 1768); (1770, 1773); (1807, 1807); (1809, 1809); (1840, 1866);
    (1958, 1968); (2027, 2037); (2042, 2042); (2045, 2045); (2070, 2093); (2137, 2139);
    (2184, 2184); (2192, 2193); (2200, 2207); (2249, 2306); (2362, 2362); (2364, 2364);
    (2369, 2376); (2381, 2381); (2385, 2391); (2402, 2403); (2417, 2417); (2433, 2433);
    (2492, 2492); (2497, 2500); (2509, 2509); (2530, 2531); (2558, 2558); (2561, 2562);
    (2620, 2620); (2625, 2626); (2631, 2632); (2635, 2637); (2641, 2641); (2672, 2673);
    (2677, 2677); (2689, 2690); (2748, 2748); (2753, 2757); (2759, 2760); (2765, 2765);
    (2786, 2787); (2810, 2815); (2817, 2817); (2876, 2876); (2879, 2879); (2881, 2884);
    (2893, 2893); (2901, 2902); (2914, 2915); (2946, 2946); (3008, 3008); (3021, 3021);
    (3072, 3072); (3076, 3076); (3132, 3132); (3134, 3136); (3142, 3144); (3146, 3149);
    (3157, 3158); (3170, 3171); (3201, 3201); (3260, 3260); (3263, 3263); (3270, 3270);
    (3276, 3277); (3298, 3299); (3328, 3329); (3387, 3388); (3393, 3396); (3405, 3405);
    (3426, 3427); (3457, 3457); (3530, 3530); (3538, 3540); (3542, 3542); (3633, 3633);
    (3636, 3642); (3654, 3662); (3761, 3761); (3764, 3772); (3782, 3782); (3784, 3789);
    (3864, 3865); (3893, 3893); (3895, 3895); (3897, 3897); (3953, 3966); (3968, 3972);
    (3974, 3975); (3981, 3991); (3993, 4028); (4038, 4038); (4141, 4144); (4146, 4151);
    (4153, 4154); (4157, 4158); (4184, 4185); (4190, 4192); (4209, 4212); (4226, 4226);
    (4229, 4230); (4237, 4237); (4253, 4253); (4348, 4348); (4957, 4959); (5906, 5908);
    (5938, 5939); (5970, 5971); (6002, 6003); (6068, 6069); (6071, 6077); (6086, 6086);
    (6089, 6099); (6103, 6103); (6109, 6109); (6155, 6159); (6211, 6211); (6277, 6278);
    (6313, 6313); (6432, 6434); (6439, 6440); (6450, 6450); (6457, 6459); (6679, 6680);
    (6683, 6683); (6742, 6742); (6744, 6750); (6752, 6752); (6754, 6754); (6757, 6764);
    (6771, 6780); (6783, 6783); (6823, 6823); (6832, 6862); (6912, 6915); (6964, 6964);
    (6966, 6970); (6972, 6972); (6978, 6978); (7019, 7027); (7040, 7041); (7074, 7077);
    (7080, 7081); (7083, 7085); (7142, 7142); (7144, 7145); (7149, 7149); (7151, 7153);
    (7212, 7219); (7222, 7223); (7288, 7293); (7376, 7378); (7380, 7392); (7394, 7400);
    (7405, 7405); (7412, 7412); (7416, 7417); (7468, 7530); (7544, 7544); (7579, 7679);
    (8125, 8125); (8127, 8129); (8141, 8143); (8157, 8159); (8173, 8175); (8189, 8190);
    (8203, 8207); (8216, 8217); (8228, 8228); (8231, 8231); (8234, 8238); (8288, 8292);
    (8294, 8303); (8305, 8305); (8319, 8319); (8336, 8348); (8400, 8432); (11388, 11389);
    (11503, 11505); (11631, 11631); (11647, 11647); (11744, 11775); (11823, 11823); (12293, 12293);
    (12330, 12333); (12337, 12341); (12347, 12347); (12441, 12446); (12540, 12542); (40981, 40981);
    (42232, 42237); (42508, 42508); (42607, 42610); (42612, 42621); (42623, 42623); (42652, 42655);
    (42736, 42737); (42752, 42785); (42864, 42864); (42888, 42890); (42994, 42996); (43000, 43001);
    (43010, 43010); (43014, 43014); (43019, 43019); (43045, 43046); (43052, 43052); (43204, 43205);
    (43232, 43249); (43263, 43263); (43302, 43309); (43335, 43345); (43392, 43394); (43443, 43443);
    (43446, 43449); (43452, 43453); (43471, 43471); (43493, 43494); (43561, 43566); (43569, 43570);
    (43573, 43574); (43587, 43587); (43596, 43596); (43632, 43632); (43644, 43644); (43696, 43696);
    (43698, 43700); (43703, 43704); (43710, 43711); (43713, 43713); (43741, 43741); (43756, 43757);
    (43763, 43764); (43766, 43766); (43867, 43871); (43881, 43883); (44005, 44005); (44008, 44008);
    (44013, 44013); (64286, 64286); (64434, 64450); (65024, 65039); (65043, 65043); (65056, 65071);
    (65106, 65106); (65109, 65109); (65279, 65279); (65287, 65287); (65294, 65294); (65306, 65306);
    (65342, 65342); (65344, 65344); (65392, 65392); (65438, 65439); (65507, 65507); (65529, 65531);
    (66045, 66045); (66272, 66272); (66422, 66426); (67456, 67461); (67463, 67504); (67506, 67514);
    (68097, 68099); (68101, 68102); (68108, 68111); (68152, 68154); (68159, 68159); (68325, 68326);
    (68900, 68903); (69291, 69292); (69446, 69456); (69506, 69509); (69633, 69633); (69688, 69702);
    (69744, 69744); (69747, 69748); (69759, 69761); (69811, 69814); (69817, 69818); (69821, 69821);
    (69826, 69826); (69837, 69837); (69888, 69890); (69927, 69931); (69933, 69940); (70003, 70003);
    (70016, 70017); (70070, 70078); (70089, 70092); (70095, 70095); (70191, 70193); (70196, 70196);
    (70198, 70199); (70206, 70206); (70367, 70367); (70371, 70378); (70400, 70401); (70459, 70460);
    (70464, 70464); (70502, 70508); (70512, 70516); (70712, 70719); (70722, 70724); (70726, 70726);
    (70750, 70750); (70835, 70840); (70842, 70842); (70847, 70848); (70850, 70851); (71090, 71093);
    (71100, 71101); (71103, 71104); (71132, 71133); (71219, 71226); (71229, 71229); (71231, 71232);
    (71339, 71339); (71341, 71341); (71344, 71349); (71351, 71351); (71453, 71455); (71458, 71461);
    (71463, 71467); (71727, 71735); (71737, 71738); (71995, 71996); (71998, 71998); (72003, 72003);
    (72148, 72151); (72154, 72155); (72160, 72160); (72193, 72202); (72243, 72248); (72251, 72254);
    (72263, 72263); (72273, 72278); (72281, 72283); (72330, 72342); (72344, 72345); (72752, 72758);
    (72760, 72765); (72767, 72767); (72850, 72871); (72874, 72880); (72882, 72883); (72885, 72886);
    (73009, 73014); (73018, 73018); (73020, 73021); (73023, 73029); (73031, 73031); (73104, 73105);
    (73109, 73109); (73111, 73111); (73459, 73460); (78896, 78904); (92912, 92916); (92976, 92982);
    (92992, 92995); (94031, 94031); (94095, 94111); (94176, 94177); (94179, 94180); (110576, 110579);
    (110581, 110587); (110589, 110590); (113821, 113822); (113824, 113827); (118528, 118573); (118576, 118598);
    (119143, 119145); (119155, 119170); (119173, 119179); (119210, 119213); (119362, 119364); (121344, 121398);
    (121403, 121452); (121461, 121461); (121476, 121476); (121499, 121503); (121505, 121519); (122880, 122886);
    (122888, 122904); (122907, 122913); (122915, 122916); (122918, 122922); (123184, 123197); (123566, 123566);
    (123628, 123631); (125136, 125142); (125252, 125259); (127995, 127999); (917505, 917505); (917536, 917631);
    (917760, 917999) ].

(** The lower-case mapping above U+00FF, U+0130 apart: of the code points
    from [lo] to [hi], every [stride]-th one maps to [target] plus its
    distance from [lo]. *)
Definition lower_runs : list (N * N * N * N) :=
  [
    (256, 302, 2, 257); (306, 310, 2, 307); (313, 327, 2, 314); (330, 374, 2, 331);
    (376, 376, 1, 255); (377, 381, 2, 378); (385, 385, 1, 595); (386, 388, 2, 387);
    (390, 390, 1, 596); (391, 391, 1, 392); (393, 394, 1, 598); (395, 395, 1, 396);
    (398, 398, 1, 477); (399, 399, 1, 601); (400, 400, 1, 603); (401, 401, 1, 402);
    (403, 403, 1, 608); (404, 404, 1, 611); (406, 406, 1, 617); (407, 407, 1, 616);
    (408, 408, 1, 409); (412, 412, 1, 623); (413, 413, 1, 626); (415, 415, 1, 629);
    (416, 420, 2, 417); (422, 422, 1, 640); (423, 423, 1, 424); (425, 425, 1, 643);
    (428, 428, 1, 429); (430, 430, 1, 648); (431, 431, 1, 432); (433, 434, 1, 650);
    (435, 437, 2, 436); (439, 439, 1, 658); (440, 440, 1, 441); (444, 444, 1, 445);
    (452, 452, 1, 454); (453, 453, 1, 454); (455, 455, 1, 457); (456, 456, 1, 457);
    (458, 458, 1, 460); (459, 475, 2, 460); (478, 494, 2, 479); (497, 497, 1, 499);
    (498, 500, 2, 499); (502, 502, 1, 405); (503, 503, 1, 447); (504, 542, 2, 505);
    (544, 544, 1, 414); (546, 562, 2, 547); (570, 570, 1, 11365); (571, 571, 1, 572);
    (573, 573, 1, 410); (574, 574, 1, 11366); (577, 577, 1, 578); (579, 579, 1, 384);
    (580, 580, 1, 649); (581, 581, 1, 652); (582, 590, 2, 583); (880, 882, 2, 881);
    (886, 886, 1, 887); (895, 895, 1, 1011); (902, 902, 1, 940); (904, 906, 1, 941);
    (908, 908, 1, 972); (910, 911, 1, 973); (913, 929, 1, 945); (931, 939, 1, 963);
    (975, 975, 1, 983); (984, 1006, 2, 985); (1012, 1012, 1, 952); (1015, 1015, 1, 1016);
    (1017, 1017, 1, 1010); (1018, 1018, 1, 1019); (1021, 1023, 1, 891); (1024, 1039, 1, 1104);
    (1040, 1071, 1, 1072); (1120, 1152, 2, 1121); (1162, 1214, 2, 1163); (1216, 1216, 1, 1231);
    (1217, 1229, 2, 1218); (1232, 1326, 2, 1233); (1329, 1366, 1, 1377); (4256, 4293, 1, 11520);
    (4295, 4295, 1, 11559); (4301, 4301, 1, 11565); (5024, 5103, 1, 43888); (5104, 5109, 1, 5112);
    (7312, 7354, 1, 4304); (7357, 7359, 1, 4349); (7680, 7828, 2, 7681); (7838, 7838, 1, 223);
    (7840, 7934, 2, 7841); (7944, 7951, 1, 7936); (7960, 7965, 1, 7952); (7976, 7983, 1, 7968);
    (7992, 7999, 1, 7984); (8008, 8013, 1, 8000); (8025, 8031, 2, 8017); (8040, 8047, 1, 8032);
    (8072, 8079, 1, 8064); (8088, 8095, 1, 8080); (8104, 8111, 1, 8096); (8120, 8121, 1, 8112);
    (8122, 8123, 1, 8048); (8124, 8124, 1, 8115); (8136, 8139, 1, 8050); (8140, 8140, 1, 8131);
    (8152, 8153, 1, 8144); (8154, 8155, 1, 8054); (8168, 8169, 1, 8160); (8170, 8171, 1, 8058);
    (8172, 8172, 1, 8165); (8184, 8185, 1, 8056); (8186, 8187, 1, 8060); (8188, 8188, 1, 8179);
    (8486, 8486, 1, 969); (8490, 8490, 1, 107); (8491, 8491, 1, 229); (8498, 8498, 1, 8526);
    (8544, 8559, 1, 8560); (8579, 8579, 1, 8580); (9398, 9423, 1, 9424); (11264, 11311, 1, 11312);
    (11360, 11360, 1, 11361); (11362, 11362, 1, 619); (11363, 11363, 1, 7549); (11364, 11364, 1, 637);
    (11367, 11371, 2, 11368); (11373, 11373, 1, 593); (11374, 11374, 1, 625); (11375, 11375, 1, 592);
    (11376, 11376, 1, 594); (11378, 11378, 1, 11379); (11381, 11381, 1, 11382); (11390, 11391, 1, 575);
    (11392, 11490, 2, 11393); (11499, 11501, 2, 11500); (11506, 11506, 1, 11507); (42560, 42604, 2, 42561);
    (42624, 42650, 2, 42625); (42786, 42798, 2, 42787); (42802, 42862, 2, 42803); (42873, 42875, 2, 42874);
    (42877, 42877, 1, 7545); (42878, 42886, 2, 42879); (42891, 42891, 1, 42892); (42893, 42893, 1, 613);
    (42896, 42898, 2, 42897); (42902, 42920, 2, 42903); (42922, 42922, 1, 614); (42923, 42923, 1, 604);
    (42924, 42924, 1, 609); (42925, 42925, 1, 620); (42926, 42926, 1, 618); (42928, 42928, 1, 670);
    (42929, 42929, 1, 647); (42930, 42930, 1, 669); (42931, 42931, 1, 43859); (42932, 42946, 2, 42933);
    (42948, 42948, 1, 42900); (42949, 42949, 1, 642); (42950, 42950, 1, 7566); (42951, 42953, 2, 42952);
    (42960, 42960, 1, 42961); (42966, 42968, 2, 42967); (42997, 42997, 1, 42998); (65313, 65338, 1, 65345);
    (66560, 66599, 1, 66600); (66736, 66771, 1, 66776); (66928, 66938, 1, 66967); (66940, 66954, 1, 66979);
    (66956, 66962, 1, 66995); (66964, 66965, 1, 67003); (68736, 68786, 1, 68800); (71840, 71871, 1, 71872);
    (93760, 93791, 1, 93792); (125184, 125217, 1, 125218) ].

Fixpoint lower_in (runs : list (N * N * N * N)) (c : N) : N :=
  match runs with
  | [] => c
  | (lo, hi, stride, target) :: runs' =>
      if c <? lo then c
      else if (c <=? hi) && ((c - lo) mod stride =? 0) then target + (c - lo)
      else lower_in runs' c
  end.

Definition is_word (c : N) : bool := in_ranges c word_ranges.
Definition cased (c : N) : bool := in_ranges c cased_ranges.
Definition case_ignorable (c : N) : bool := in_ranges c case_ignorable_ranges.

End Unicode.

(** ** Python strings *)

Abbreviation str := (list N).

Module Py.

(** A literal of the source made of ASCII characters. *)
Definition cps (s : string) : str :=
  List.map N_of_ascii (list_ascii_of_string s).

Definition between (lo hi c : N) : bool := (lo <=? c) && (c <=? hi).

(** [str.isspace] on one code point, which is also the class [\s] of [re]
    for [str] patterns: the complete list of Unicode white space. *)
Definition isspace (c : N) : bool :=
  between 9 13 c || between 28 32 c || (c =? 133) || (c =? 160)
  || (c =? 5760) || between 8192 8202 c || (c =? 8232) || (c =? 8233)
  || (c =? 8239) || (c =? 8287) || (c =? 12288).

Definition ascii_upper (c : N) : bool := between 65 90 c.
Definition ascii_lower (c : N) : bool := between 97 122 c.

(** Some character of [s] is an ASCII capital. *)
Definition has_upper (s : str) : bool := existsb ascii_upper s.

(** Upper-case letters of the Latin-1 supplement (U+00C0..U+00DE without the
    multiplication sign U+00D7). *)
Definition latin1_upper (c : N) : bool := between 192 222 c && negb (c =? 215).

(** [str.lower] on one code point other than a capital sigma in final
    position: the Unicode lower-case mapping, which has two code points for
    U+0130 ([i] followed by U+0307). *)
Definition lower_cp (c : N) : list N :=
  if ascii_upper c then [c + 32]
  else if latin1_upper c then [c + 32]
  else if c =? 304 then [105; 775]
  else if c =? 8490 then [107]
  else if c <? 256 then [c]
  else [Unicode.lower_in Unicode.lower_runs c].

(** No cased letter follows, case-ignorable characters set aside. *)
Fixpoint final_here (rest : str) : bool :=
  match rest with
  | [] => true
  | c :: rest' =>
      if Unicode.case_ignorable c then final_here rest'
      else negb (Unicode.cased c)
  end.

(** [after_cased]: a cased letter comes before, case-ignorable characters
    set aside.  A capital sigma (U+03A3) after a cased letter and with none
    following becomes the final sigma (U+03C2). *)
Fixpoint lower_from (after_cased : bool) (s : str) : str :=
  match s with
  | [] => []
  | c :: rest =>
      (if (c =? 931) && after_cased && final_here rest then [962] else lower_cp c)
      ++ lower_from (if Unicode.case_ignorable c then after_cased else Unicode.cased c)
           rest
  end.

(** [s.lower()] *)
Definition lower (s : str) : str := lower_from false s.

Fixpoint lstrip (s : str) : str :=
  match s with
  | c :: s' => if isspace c then lstrip s' else s
  | [] => []
  end.

Definition rstrip (s : str) : str := List.rev (lstrip (List.rev s)).

(** [s.strip()] *)
Definition strip (s : str) : str := rstrip (lstrip s).

Fixpoint startswith (p s : str) : bool :=
  match p, s with
  | [], _ => true
  | a :: p', b :: s' => (a =? b) && startswith p' s'
  | _ :: _, [] => false
  end.

(** [frag in s] *)
Fixpoint contains (frag s : str) : bool :=
  startswith frag s ||
  match s with
  | [] => false
  | _ :: s' => contains frag s'
  end.

Definition eqb (a b : str) : bool := bool_decide (a = b).

(** [s.split('\n')]: the pieces between line feeds; never empty. *)
Fixpoint split_lines (s : str) : list str :=
  match s with
  | [] => [[]]
  | c :: s' =>
      if c =? 10 then [] :: split_lines s'
      else match split_lines s' with
           | l :: ls => (c :: l) :: ls
           | [] => [[c]]
           end
  end.

(** Truth value of a string: empty strings are false. *)
Definition truthy (s : str) : bool :=
  match s with [] => false | _ :: _ => true end.

End Py.

Notation "'u{' s '}'" := (Py.cps s%string) (at level 0, s at level 200, format "'u{' s '}'").

(** ** Regular expressions, as Python's [re] runs them *)

Module Re.

(** One-character matchers. *)
Inductive item : Type :=
  | IChr (c : N)            (* a character of a set *)
  | IRng (lo hi : N)        (* a range [lo-hi] of a set *)
  | ISpc.                   (* \s inside a set *)

Inductive atom : Type :=
  | Lit (c : N)                          (* a literal character *)
  | Any                                  (* .  (no DOTALL) *)
  | Spc                                  (* \s *)
  | Cls (negated : bool) (items : list item).   (* [...] and [^...] *)

Inductive regex : Type :=
  | Eps
  | One (a : atom)
  | Bol                                  (* ^ *)
  | Wb                                   (* \b *)
  | Seq (r1 r2 : regex)
  | Alt (r1 r2 : regex)                  (* r1|r2, r1 tried first *)
  | Rep (greedy : bool) (r : regex)      (* r* and r*? *)
  | Grp (n : nat) (r : regex).           (* capturing group number n *)

Definition plus (greedy : bool) (r : regex) : regex := Seq r (Rep greedy r).
Definition opt (r : regex) : regex := Alt r Eps.

(** A run of literal characters. *)
Fixpoint word (s : str) : regex :=
  match s with
  | [] => Eps
  | [c] => One (Lit c)
  | c :: s' => Seq (One (Lit c)) (word s')
  end.

(** Simple case folding as the engine applies it under [re.IGNORECASE]:
    the lower case of the character, with dotless i (U+0131) and long s
    (U+017F) identified with [i] and [s]. *)
Definition fold (c : N) : N :=
  if Py.ascii_upper c then c + 32
  else if Py.latin1_upper c then c + 32
  else if (c =? 304) || (c =? 305) then 105
  else if c =? 383 then 115
  else if c =? 8490 then 107
  else c.

(** Word characters ([\w]). *)
Definition is_word (c : N) : bool := Unicode.is_word c.

Section Matcher.

(** [re.IGNORECASE] *)
Variable ignorecase : bool.

Definition chr_eq (p c : N) : bool :=
  if ignorecase then fold p =? fold c else p =? c.

Definition in_range (lo hi c : N) : bool :=
  if ignorecase
  then Py.between lo hi c || Py.between lo hi (fold c)
       || (Py.ascii_lower (fold c) && Py.between lo hi (fold c - 32))
  else Py.between lo hi c.

Definition item_matches (i : item) (c : N) : bool :=
  match i with
  | IChr p => chr_eq p c
  | IRng lo hi => in_range lo hi c
  | ISpc => Py.isspace c
  end.

Definition atom_matches (a : atom) (c : N) : bool :=
  match a with
  | Lit p => chr_eq p c
  | Any => negb (c =? 10)
  | Spc => Py.isspace c
  | Cls neg items => xorb neg (existsb (fun i => item_matches i c) items)
  end.

(** A position in the subject: the character before it (none at the start of
    the string) and what is left. *)
Definition position : Type := option N * str.

(** Captured groups, the most recent binding of a number first. *)
Definition captures : Type := list (nat * str).

Definition word_before (p : position) : bool :=
  match fst p with Some c => is_word c | None => false end.
Definition word_after (p : position) : bool :=
  match snd p with c :: _ => is_word c | [] => false end.

(** The text consumed between two positions of one subject. *)
Definition consumed (p q : position) : str :=
  take (length (snd p) - length (snd q))%nat (snd p).

(** Backtracking matcher in continuation-passing style: [k] is what remains to
    be matched; the first success in priority order is returned.  A
    repetition must consume input at every round, and cannot run for more
    rounds than there are characters left. *)
Fixpoint run (r : regex) (p : position) (cs : captures)
    (k : position -> captures -> option captures) : option captures :=
  match r with
  | Eps => k p cs
  | One a =>
      match snd p with
      | c :: rest => if atom_matches a c then k (Some c, rest) cs else None
      | [] => None
      end
  | Bol => match fst p with None => k p cs | Some _ => None end
  | Wb => if xorb (word_before p) (word_after p) then k p cs else None
  | Seq r1 r2 => run r1 p cs (fun p' cs' => run r2 p' cs' k)
  | Alt r1 r2 =>
      match run r1 p cs k with
      | Some res => Some res
      | None => run r2 p cs k
      end
  | Grp n r1 => run r1 p cs (fun p' cs' => k p' ((n, consumed p p') :: cs'))
  | Rep greedy r1 =>
      (fix rounds (fuel : nat) (p : position) (cs : captures) : option captures :=
         match fuel with
         | O => k p cs
         | S fuel' =>
             let again :=
               run r1 p cs (fun p' cs' =>
                 if (length (snd p') <? length (snd p))%nat
                 then rounds fuel' p' cs' else None) in
             if greedy
             then match again with Some res => Some res | None => k p cs end
             else match k p cs with Some res => Some res | None => again end
         end) (S (length (snd p))) p cs
  end.

(** [pattern.match(s)]: a match that starts at the beginning of [s]. *)
Definition re_match (r : regex) (s : str) : option captures :=
  run r (None, s) [] (fun _ cs => Some cs).

(** [pattern.search(s)]: the leftmost match. *)
Fixpoint search_from (r : regex) (prev : option N) (s : str) : option captures :=
  match run r (prev, s) [] (fun _ cs => Some cs) with
  | Some cs => Some cs
  | None =>
      match s with
      | c :: rest => search_from r (Some c) rest
      | [] => None
      end
  end.

End Matcher.

Definition re_search (ignorecase : bool) (r : regex) (s : str) : option captures :=
  search_from ignorecase r None s.

(** [m.group(n)] of a group that took part in the match. *)
Fixpoint group (n : nat) (cs : captures) : str :=
  match cs with
  | [] => []
  | (i, s) :: cs' => if Nat.eqb i n then s else group n cs'
  end.

End Re.

(** ** The patterns of the scripts *)

Module Patterns.
Import Re.

Definition chr (a : ascii) : regex := One (Lit (N_of_ascii a)).
Definition lit (s : string) : regex := word (Py.cps s).
Definition star (r : regex) : regex := Rep true r.

(** Concatenation and alternation of several pieces, in the order written. *)
Fixpoint cat (rs : list regex) : regex :=
  match rs with
  | [] => Eps
  | [r] => r
  | r :: rs' => Seq r (cat rs')
  end.

Fixpoint alts (rs : list regex) : regex :=
  match rs with
  | [] => Eps
  | [r] => r
  | r :: rs' => Alt r (alts rs')
  end.

(** Any white space, and any run of asterisks. *)
Definition spaces : regex := star (One Spc).
Definition stars : regex := star (chr "*").
(** An optional single (U+0027) or double (U+0022) quotation mark. *)
Definition quote : regex := opt (alts [One (Lit 39); One (Lit 34)]).

(** The leading bullet or numbering token, five alternatives in this order:
    an asterisk and white space; three asterisks; asterisks, white space and
    one or two asterisks; a bullet U+2022 or a hyphen; a digit 1 to 5 and a
    full stop. *)
Definition bullet_token : regex :=
  alts [ cat [chr "*"; spaces];
         lit "***";
         cat [plus true (chr "*"); spaces; chr "*"; opt (chr "*")];
         One (Cls false [IChr 8226; IChr 45]);
         cat [One (Cls false [IRng 49 53]); chr "."] ].

(** The bullet shape for a given alternation of value tokens: start of the
    line, white space, the bullet token, white space, asterisks, white space,
    group 1 (one or more characters other than a colon, as few as possible),
    asterisks, white space, a colon, white space, an optional quotation mark,
    group 2 (one of the tokens), an optional quotation mark, the rest of the
    line. *)
Definition bullet_pattern_for (tokens : list string) : regex :=
  cat [ Bol; spaces; bullet_token; spaces; stars; spaces;
        Grp 1 (plus false (One (Cls true [IChr 58])));
        stars; spaces; chr ":"; spaces; quote;
        Grp 2 (alts (List.map lit tokens));
        quote; star (One Any) ].

(** The standalone shape: start of the line, white space, group 1 (one or
    more ASCII letters or white space, as many as possible), a colon, white
    space, group 2 (one of the tokens). *)
Definition standalone_pattern_for (tokens : list string) : regex :=
  cat [ Bol; spaces;
        Grp 1 (plus true (One (Cls false [IRng 65 90; IRng 97 122; ISpc])));
        chr ":"; spaces;
        Grp 2 (alts (List.map lit tokens)) ].

(** The words final answer between two word boundaries. *)
Definition final_answer_pattern : regex := cat [Wb; lit "final answer"; Wb].

End Patterns.

(** ** The response normalizer of the pre- and post-operative scripts

    [extract_bullet_points] is the same text in
    [PostOP/AS_PostOP_DataExtractor_Claude.py] and in
    [AS_PreOP_DataExtractor_Gemini.py]; the two differ in the taxonomy
    [standardize_variable_name] it calls. *)

Module Normalizer.

(** The loop variables of [extract_bullet_points]. *)
Record state : Type := State {
  relevant_points : gmap (list N) (list N);
  current_variable : option (list N);
  in_final_answer_section : bool
}.

Definition initial : state :=
  {| relevant_points := ∅; current_variable := None;
     in_final_answer_section := false |}.

(** The lines joined by line feeds. *)
Fixpoint join_lines (ls : list str) : str :=
  match ls with
  | [] => []
  | [l] => l
  | l :: ls' => l ++ 10 :: join_lines ls'
  end.

Definition bullet_point_pattern : Re.regex :=
  Patterns.bullet_pattern_for ["Yes"; "No"; "Ja"; "Nein"]%string.

Definition standalone_answer_pattern : Re.regex :=
  Patterns.standalone_pattern_for ["Yes"; "No"; "Ja"; "Nein"]%string.

(** [final_answer_pattern.search(line)] as a truth value. *)
Definition is_final_answer_line (line : str) : bool :=
  bool_decide (is_Some (Re.re_search true Patterns.final_answer_pattern line)).

(** The German answers are turned into the English ones. *)
Definition normalize_german (value : str) : str :=
  if Py.eqb (Py.lower value) u{"ja"} then u{"Yes"}
  else if Py.eqb (Py.lower value) u{"nein"} then u{"No"}
  else value.

(** [if normalized_variable: relevant_points[normalized_variable] = value] *)
Definition store (normalized_variable : option str) (value : str)
    (points : gmap (list N) (list N)) : gmap (list N) (list N) :=
  match normalized_variable with
  | Some name => if Py.truthy name then <[name := value]> points else points
  | None => points
  end.

(** [if current_variable in relevant_points]: the line is appended to the
    entry of [current_variable] after a blank, a hyphen and a blank. *)
Definition explain (variable line : str)
    (points : gmap (list N) (list N)) : gmap (list N) (list N) :=
  match points !! variable with
  | Some old => <[variable := old ++ u{" - "} ++ line]> points
  | None => points
  end.

(** The line, stripped, contains the final-answer marker. *)
Definition is_marker (raw_line : str) : bool :=
  is_final_answer_line (Py.strip raw_line).

(** What the loop keeps true when every canonical name has an ASCII capital:
    the keys are such names, and [current_variable] is lower-cased. *)
Definition invariant (st : state) : Prop :=
  (forall k, is_Some (relevant_points st !! k) -> Py.has_upper k = true) /\
  (forall v, current_variable st = Some v -> Py.has_upper v = false).

Section Task.

Variable standardize_variable_name : str -> option str.

(** The body of [for line in lines]. *)
Definition step (st : state) (raw_line : str) : state :=
  let line := Py.strip raw_line in
  if is_final_answer_line line then
    {| relevant_points := relevant_points st;
       current_variable := current_variable st;
       in_final_answer_section := true |}
  else
    match Re.re_match true bullet_point_pattern line with
    | Some m =>
        let variable := Py.lower (Py.strip (Re.group 1 m)) in
        let value := normalize_german (Py.strip (Re.group 2 m)) in
        {| relevant_points :=
             store (standardize_variable_name variable) value (relevant_points st);
           current_variable := Some variable;
           in_final_answer_section := in_final_answer_section st |}
    | None =>
        if in_final_answer_section st then
          match Re.re_match true standalone_answer_pattern line with
          | Some m =>
              let variable := Py.lower (Py.strip (Re.group 1 m)) in
              let value := normalize_german (Py.strip (Re.group 2 m)) in
              {| relevant_points :=
                   store (standardize_variable_name variable) value (relevant_points st);
                 current_variable := current_variable st;
                 in_final_answer_section := true |}
          | None => st
          end
        else
          match current_variable st with
          | Some variable =>
              if Py.truthy variable && Py.truthy line then
                {| relevant_points := explain variable line (relevant_points st);
                   current_variable := current_variable st;
                   in_final_answer_section := in_final_answer_section st |}
              else st
          | None => st
          end
    end.

(** The state after the loop has gone through [lines]. *)
Definition loop (st : state) (lines : list str) : state :=
  fold_left step lines st.

Definition extract_bullet_points (response_text : str) : gmap (list N) (list N) :=
  relevant_points (loop initial (Py.split_lines response_text)).

End Task.
End Normalizer.

(** ** Paths and tables *)

Module Os.

(** [str(n)] for a natural number. *)
Definition str_of_nat (n : nat) : str :=
  Py.cps (NilEmpty.string_of_uint (Nat.to_uint n)).

(** [os.path.join(a, b)] on a POSIX system. *)
Definition path_join (a b : str) : str :=
  match b with
  | 47 :: _ => b
  | _ =>
      match List.rev a with
      | [] => b
      | 47 :: _ => a ++ b
      | _ :: _ => a ++ 47 :: b
      end
  end.

(** [os.path.basename(p)]: what follows the last slash. *)
Fixpoint basename (p : str) : str :=
  match p with
  | [] => []
  | c :: p' => if existsb (N.eqb 47) p then basename p' else p
  end.

End Os.

Module Pandas.

(** What a cell holds: a string, or one of the values [pd.read_excel] makes
    of the text of a cell, a number (given as Python prints it) or a truth
    value. *)
Inductive content : Type :=
  | Text (s : list N)
  | Number (printed : list N)
  | Truth (b : bool).

(** A cell holds a value or is empty ([None], read back as NaN). *)
Definition cell : Type := option content.

Record DataFrame : Type := Frame {
  columns : list (list N);
  rows : list (list cell)
}.

(** [pd.DataFrame(columns=columns)] *)
Definition empty (cols : list str) : DataFrame :=
  {| columns := cols; rows := [] |}.

(** [pd.DataFrame([data], columns=columns)]: one row, the value of [data] at
    each column, empty where [data] has no such key. *)
Definition of_record (data : gmap (list N) cell) (cols : list str) : DataFrame :=
  {| columns := cols;
     rows := [List.map (fun c => default None (data !! c)) cols] |}.

(** The value of a row, laid out along [cols], at column [c]. *)
Fixpoint at_column (cols : list str) (row : list cell) (c : str) : cell :=
  match cols, row with
  | c' :: cols', v :: row' => if Py.eqb c' c then v else at_column cols' row' c
  | _, _ => None
  end.

Definition reindex (cols new_cols : list str) (row : list cell) : list cell :=
  List.map (at_column cols row) new_cols.

(** [pd.concat([a, b], ignore_index=True)]: the columns of [a] followed by the
    new ones of [b]; the rows of [a] then those of [b], empty where a frame
    lacks a column. *)
Definition concat (a b : DataFrame) : DataFrame :=
  let cols :=
    columns a ++
    List.filter (fun c => negb (existsb (Py.eqb c) (columns a))) (columns b) in
  {| columns := cols;
     rows := List.map (reindex (columns a) cols) (rows a)
             ++ List.map (reindex (columns b) cols) (rows b) |}.

(** Rows that give a value to each column of [cols]. *)
Definition laid_out (cols : list str) (row : list cell) : Prop :=
  exists f, row = List.map f cols.

(** The texts [pd.read_excel] takes for a missing value when it is called
    with no argument but the path. *)
Definition default_na_values : list str :=
  [ []; u{"#N/A"}; u{"#N/A N/A"}; u{"#NA"}; u{"-1.#IND"}; u{"-1.#QNAN"};
    u{"-NaN"}; u{"-nan"}; u{"1.#IND"}; u{"1.#QNAN"}; u{"<NA>"}; u{"N/A"};
    u{"NA"}; u{"NULL"}; u{"NaN"}; u{"None"}; u{"n/a"}; u{"nan"}; u{"null"} ].

(** A reader for the sample runs: a cell whose text is one of these is read
    as empty, every other cell as it was written. *)
Definition read_missing_values (df : DataFrame) : DataFrame :=
  {| columns := columns df;
     rows :=
       List.map
         (List.map
            (fun v : cell =>
               match v with
               | Some (Text s) =>
                   if existsb (Py.eqb s) default_na_values then None else v
               | _ => v
               end))
         (rows df) |}.

End Pandas.

(** ** Post-operative complications, Claude script *)

Module PostOP_Claude.

Definition standardize_variable_name (variable : str) : option str :=
  let variable := Py.lower variable in
  if Py.contains u{"leak"} variable || Py.contains u{"liquor"} variable then
    Some u{"CSF Leak"}
  else if Py.contains u{"infection"} variable || Py.contains u{"infektion"} variable then
    Some u{"Infection"}
  else if Py.contains u{"facial palsy"} variable
          || Py.contains (u{"gesichtsl"} ++ [228] ++ u{"hmung"}) variable then
    Some u{"Facial Palsy"}
  else if Py.contains u{"facial numbness"} variable || Py.contains u{"taub"} variable then
    Some u{"Facial Numbness"}
  else if Py.contains u{"hearing loss"} variable
          || Py.contains (u{"h"} ++ [246] ++ u{"rverlust"}) variable then
    Some u{"Hearing Loss"}
  else None.

Definition extract_bullet_points : str -> gmap (list N) (list N) :=
  Normalizer.extract_bullet_points standardize_variable_name.

(** The raw answer of the scenario, line by line. *)
Definition scenario_answer : str :=
  Normalizer.join_lines
    [ u{"Reasoning..."}; u{"Final answer:"}; u{"CSF Leak: No"};
      u{"Infection: No"}; u{"Facial Palsy: Yes - mild, resolved in days"} ].

End PostOP_Claude.

(** ** The taxonomy as the specification words it

    An ordered list of rules, each a set of fragments and a canonical name:
    the phrase is lower-cased and the first rule one of whose fragments is a
    substring of it gives the name. *)

Module Taxonomy.

Definition rule : Type := list str * str.

Definition rule_matches (phrase : str) (r : rule) : bool :=
  existsb (fun fragment => Py.contains fragment phrase) (fst r).

Definition first_match (rules : list rule) (phrase : str) : option str :=
  snd <$> List.find (rule_matches phrase) rules.

Definition canonicalize (rules : list rule) (phrase : str) : option str :=
  first_match rules (Py.lower phrase).

Definition preop_rules : list rule :=
  [ ([u{"sudden"}; u{"facial pain"}], u{"Trigeminal Pain"});
    ([u{"facial numbness"}; u{"taub"}], u{"Facial Numbness"});
    ([u{"vertigo"}; u{"dizz"}], u{"Vertigo"});
    ([u{"lacrimation"}; u{"tear"}], u{"Lacrimation"});
    ([u{"spasm"}; u{"muscle"}], u{"Facial Muscle Spasm"});
    ([u{"other"}], u{"Other"}) ].

Definition postop_rules : list rule :=
  [ ([u{"leak"}; u{"liquor"}], u{"CSF Leak"});
    ([u{"infection"}; u{"infektion"}], u{"Infection"});
    ([u{"facial palsy"}; u{"gesichtsl"} ++ [228] ++ u{"hmung"}], u{"Facial Palsy"});
    ([u{"facial numbness"}; u{"taub"}], u{"Facial Numbness"});
    ([u{"hearing loss"}; u{"h"} ++ [246] ++ u{"rverlust"}], u{"Hearing Loss"}) ].

(** The substring rules of the disease-course script. *)
Definition discourse_rules : list rule :=
  [ ([u{"improvement"}; u{"betterment"}], u{"Symptom-improvement after 1. surgery"});
    ([u{"free of pain after first"}; u{"painfree after first"};
      u{"painfree after 1"}; u{"free of pain after 1"}],
     u{"Free of pain after first surgery"});
    ([u{"recurrence after first"}; u{"recurrence after 1"}],
     u{"Recurrence after first surgery"});
    ([u{"second surgery"}; u{"2nd surgery"}; u{"2. surgery"};
      u{"a second surgery was carried out"}], u{"Second surgery"});
    ([u{"thermocoag"}; u{"coagulation"}], u{"Thermocoagulation"}) ].

(** The disease-course table read as substring rules throughout, its two
    leading whole-phrase comparisons taken as fragments. *)
Definition discourse_rules_as_fragments : list rule :=
  ([u{"free of pain after second surgery"}], u{"Free of pain after second surgery"})
  :: ([u{"recurrence after second surgery"}], u{"Recurrence after second surgery"})
  :: discourse_rules.

End Taxonomy.

(** ** Pre-operative symptoms, Gemini script: taxonomy and normalizer *)

Module PreOP_Gemini.

Definition standardize_variable_name (variable : str) : option str :=
  let variable := Py.lower variable in
  if Py.contains u{"sudden"} variable || Py.contains u{"facial pain"} variable then
    Some u{"Trigeminal Pain"}
  else if Py.contains u{"facial numbness"} variable || Py.contains u{"taub"} variable then
    Some u{"Facial Numbness"}
  else if Py.contains u{"vertigo"} variable || Py.contains u{"dizz"} variable then
    Some u{"Vertigo"}
  else if Py.contains u{"lacrimation"} variable || Py.contains u{"tear"} variable then
    Some u{"Lacrimation"}
  else if Py.contains u{"spasm"} variable || Py.contains u{"muscle"} variable then
    Some u{"Facial Muscle Spasm"}
  else if Py.contains u{"other"} variable then
    Some u{"Other"}
  else None.

(** The names [standardize_variable_name] can return, in the order of the
    columns of the output table. *)
Definition canonical_names : list str :=
  [ u{"Trigeminal Pain"}; u{"Facial Numbness"}; u{"Vertigo"};
    u{"Lacrimation"}; u{"Facial Muscle Spasm"}; u{"Other"} ].

Definition step : Normalizer.state -> str -> Normalizer.state :=
  Normalizer.step standardize_variable_name.

Definition extract_bullet_points : str -> gmap (list N) (list N) :=
  Normalizer.extract_bullet_points standardize_variable_name.

(** A recognized bullet followed by a line of explanation. *)
Definition explained_answer : str :=
  Normalizer.join_lines [ u{"- Vertigo: Yes"}; u{"only when standing up"} ].

(** *** Orchestration

    The script runs against an environment that is not part of it: the
    folders it lists, the text the document ingestion yields for a folder,
    what the Gemini backend answers to the request made for a folder in a
    given pass, how long that request takes, the frame [pd.read_excel]
    returns for a workbook that [to_excel] wrote from a given frame, and
    whether a workbook can be written at a given path. *)

Record environment : Type := Environment {
  subdirectories : list (list N);
  context_of : list N -> list N;
  generate_content : nat -> list N -> list N + list N;
  latency : nat -> list N -> Z;
  read_back : Pandas.DataFrame -> Pandas.DataFrame;
  writable : list N -> bool
}.

(** The tunable module-level constants. *)
Record config : Type := Config {
  API_KEY : list N;
  model_name : list N;
  llm_nickname : list N;
  rate_limit : nat;
  main_folder : list N;
  output_folder : list N;
  n_subfolders : nat;
  iteration_n : nat
}.

(** The values the script ships with. *)
Definition source_config : config :=
  {| API_KEY := u{"YOUR_GOOGLE_GEMINI_API_KEY_HERE"};
     model_name := u{"gemini-1.5-flash"};
     llm_nickname := u{"geminiflash"};
     rate_limit := 15;
     main_folder := u{"/path/to/your/input/documents"};
     output_folder := u{"/path/to/your/output/files"};
     n_subfolders := 212;
     iteration_n := 1 |}.

Inductive value : Type :=
  | VStr (s : list N)
  | VInt (n : nat)
  | VObject.          (* a module or a function *)

(** The names bound at module level, by the imports, the assignments and the
    function definitions of the script, in source order. *)
Definition module_scope (cfg : config) : gmap string value :=
  list_to_map
    [ ("os", VObject); ("json", VObject); ("requests", VObject);
      ("datetime", VObject); ("mammoth", VObject); ("re", VObject);
      ("pd", VObject); ("time", VObject); ("genai", VObject);
      ("API_KEY", VStr (API_KEY cfg));
      ("model_name", VStr (model_name cfg));
      ("llm_nickname", VStr (llm_nickname cfg));
      ("rate_limit", VInt (rate_limit cfg));
      ("main_folder", VStr (main_folder cfg));
      ("output_folder", VStr (output_folder cfg));
      ("n_subfolders", VInt (n_subfolders cfg));
      ("sections", VStr u{"all_sections"});
      ("iteration_n", VInt (iteration_n cfg));
      ("input_instructions", VObject);
      ("combine_word_documents", VObject); ("extract_section", VObject);
      ("extract_bullet_points", VObject);
      ("standardize_variable_name", VObject); ("save_to_excel", VObject);
      ("process_and_run_llm_for_subfolder", VObject); ("main", VObject) ]%string.

(** The names that are local to [main]: the targets of its assignments and
    of its [for] statements. *)
Definition main_locals : list string :=
  [ "subfolders"; "i"; "output_file"; "start_time"; "j"; "subfolder";
    "subfolder_path"; "elapsed_time"; "remaining_time" ]%string.

(** The names that are local to [process_and_run_llm_for_subfolder]: its
    parameters and the targets of its assignments. *)
Definition process_locals : list string :=
  [ "subfolder_path"; "api_key"; "model_name"; "subfolder_name";
    "combined_text"; "context"; "context_file_path"; "file";
    "formatted_query"; "model"; "response"; "full_response"; "e";
    "relevant_points"; "data" ]%string.

Inductive message : Type :=
  | ErrorProcessing (subfolder_name e : list N)
  | ResponseSaved (subfolder_name : list N)
  | StartingIteration (i n : nat)
  | RateLimitReached (remaining_time : Z)
  | IterationCompleted (i : nat) (output_file : list N).

(** What a run leaves behind, oldest first: the calls of
    [process_and_run_llm_for_subfolder] with pass, position and clock reading,
    the calls of [time.sleep], the lines printed. *)
Inductive event : Type :=
  | Invoke (i j : nat) (t : Z)
  | Sleep (seconds : Z)
  | Print (m : message).

Record world : Type := World {
  now : Z;
  files : gmap (list N) Pandas.DataFrame;
  trace : list event
}.

Inductive exn : Type :=
  | NameError (name : string)
  | TypeError
  | ZeroDivisionError
  | OSError.

Inductive outcome (A : Type) : Type :=
  | Returned (a : A)
  | Raised (e : exn).
Arguments Returned {A} a.
Arguments Raised {A} e.

(** Computations that read and change the world and may raise. *)
Definition M (A : Type) : Type := world -> outcome A * world.

Definition ret {A} (a : A) : M A := fun w => (Returned a, w).
Definition raise {A} (e : exn) : M A := fun w => (Raised e, w).
Definition bind {A B} (m : M A) (k : A -> M B) : M B :=
  fun w =>
    match m w with
    | (Returned a, w') => k a w'
    | (Raised e, w') => (Raised e, w')
    end.

Notation "'let*' x ':=' m 'in' k" := (bind m (fun x => k))
  (at level 10, x name, m at level 100, k at level 200).

Definition emit (e : event) : M unit :=
  fun w => (Returned tt,
            {| now := now w; files := files w; trace := trace w ++ [e] |}).

Definition print (m : message) : M unit := emit (Print m).

(** [time.time()] *)
Definition time : M Z := fun w => (Returned (now w), w).

(** [time.sleep(seconds)] *)
Definition sleep (seconds : Z) : M unit :=
  fun w => (Returned tt,
            {| now := (now w + seconds)%Z; files := files w;
               trace := trace w ++ [Sleep seconds] |}).

(** Reading a name that is not local to the running function: it is looked
    up among the module-level names, and the lookup raises when it is not
    bound there. *)
Definition load_global (cfg : config) (name : string) : M value :=
  match module_scope cfg !! name with
  | Some v => ret v
  | None => raise (NameError name)
  end.

(** The standard column order. *)
Definition columns : list str :=
  [ u{"Patient_ID"}; u{"Trigeminal Pain"}; u{"Facial Numbness"};
    u{"Vertigo"}; u{"Lacrimation"}; u{"Facial Muscle Spasm"}; u{"Other"};
    u{"AI response"}; u{"Parsed Data"} ].

(** [pd.read_excel(output_file)]: what the reader makes of the workbook,
    which [files] holds as the frame it was written from; [None] stands for
    [FileNotFoundError]. *)
Definition read_excel (env : environment) (output_file : str)
    : M (option Pandas.DataFrame) :=
  fun w => (Returned (read_back env <$> files w !! output_file), w).

(** [df.to_excel(output_file, index=False)]: it raises [OSError] when the
    workbook cannot be written, as it does when its folder is missing. *)
Definition to_excel (env : environment) (df : Pandas.DataFrame) (output_file : str)
    : M unit :=
  fun w =>
    if writable env output_file then
      (Returned tt,
       {| now := now w; files := <[output_file := df]> (files w);
          trace := trace w |})
    else (Raised OSError, w).

(** [for col in columns: if col not in data: data[col] = None] *)
Definition fill_missing (data : gmap (list N) Pandas.cell) : gmap (list N) Pandas.cell :=
  fold_left
    (fun data col =>
       match data !! col with
       | Some _ => data
       | None => <[col := None]> data
       end)
    columns data.

Definition save_to_excel (env : environment) (data : gmap (list N) Pandas.cell)
    (output_file : str) : M unit :=
  let* existing := read_excel env output_file in
  let df_existing :=
    match existing with
    | Some df => df
    | None => Pandas.empty columns
    end in
  let data := fill_missing data in
  let df_new := Pandas.of_record data columns in
  let df_combined := Pandas.concat df_existing df_new in
  to_excel env df_combined output_file.

Section Script.

Variable env : environment.
Variable cfg : config.

(** [model.generate_content(formatted_query)] then [response.text]: the
    answer or the exception comes from the environment, and the clock moves
    on by the time the request took. *)
Definition call_generate_content (i : nat) (subfolder_path : str) : M (list N + list N) :=
  fun w => (Returned (generate_content env i subfolder_path),
            {| now := (now w + latency env i subfolder_path)%Z;
               files := files w; trace := trace w |}).

(** The pass number [i] is not a parameter of the Python function; it only
    selects the answer of the backend in the environment. *)
Definition process_and_run_llm_for_subfolder (i : nat)
    (subfolder_path api_key model_name : str) : M unit :=
  let subfolder_name := Os.basename subfolder_path in
  let context := context_of env subfolder_path in
  let* response := call_generate_content i subfolder_path in
  match response with
  | inl e => print (ErrorProcessing subfolder_name e)
  | inr text =>
      let full_response := Py.strip text in
      let relevant_points := extract_bullet_points full_response in
      let data : gmap (list N) Pandas.cell :=
        (fun value => Some (Pandas.Text value)) <$> relevant_points in
      let data := <[u{"Patient_ID"} := Some (Pandas.Text subfolder_name)]> data in
      let data := <[u{"AI response"} := Some (Pandas.Text full_response)]> data in
      let data := <[u{"Parsed Data"} := Some (Pandas.Text context)]> data in
      (* [output_file] is not among [process_locals] *)
      let* output_file := load_global cfg "output_file" in
      let* _ :=
        match output_file with
        | VStr path => save_to_excel env data path
        | _ => raise TypeError
        end in
      print (ResponseSaved subfolder_name)
  end.

(** The rate-limit pause, taken when [j % rate_limit == 0]; the new
    [start_time] is returned. *)
Definition pause (start_time : Z) : M Z :=
  let* t := time in
  let elapsed_time := (t - start_time)%Z in
  let remaining_time := (61 - elapsed_time)%Z in
  let* _ :=
    if (0 <? remaining_time)%Z
    then let* _ := print (RateLimitReached remaining_time) in sleep remaining_time
    else ret tt in
  time.

(** The body of [for j, subfolder in enumerate(subfolders, start=1)]. *)
Definition visit (i : nat) (start_time : Z) (entry : nat * list N) : M Z :=
  let j := fst entry in
  let subfolder_path := Os.path_join (main_folder cfg) (snd entry) in
  let* t := time in
  let* _ := emit (Invoke i j t) in
  let* _ := process_and_run_llm_for_subfolder i subfolder_path
              (API_KEY cfg) (model_name cfg) in
  match rate_limit cfg with
  | O => raise ZeroDivisionError
  | S _ =>
      if (j mod rate_limit cfg =? 0)%nat then pause start_time
      else ret start_time
  end.

Fixpoint for_each {A S : Type} (body : S -> A -> M S) (xs : list A) (s : S) : M S :=
  match xs with
  | [] => ret s
  | x :: xs' => let* s' := body s x in for_each body xs' s'
  end.

(** [enumerate(xs, start=1)] *)
Definition enumerate {A : Type} (xs : list A) : list (nat * A) :=
  combine (seq 1 (length xs)) xs.

Definition output_file_of (i : nat) : str :=
  Os.path_join (output_folder cfg)
    (u{"output_"} ++ llm_nickname cfg ++ u{"_"} ++ Os.str_of_nat i ++ u{".xlsx"}).

(** The body of [for i in range(1, iteration_n + 1)]. *)
Definition iteration (subfolders : list str) (i : nat) : M unit :=
  let output_file := output_file_of i in
  let* start_time := time in
  let* _ := print (StartingIteration i (iteration_n cfg)) in
  let* _ := for_each (visit i) (enumerate subfolders) start_time in
  print (IterationCompleted i output_file).

Definition main : M unit :=
  let subfolders := firstn (n_subfolders cfg) (subdirectories env) in
  for_each (fun _ i => iteration subfolders i) (seq 1 (iteration_n cfg)) tt.

End Script.

(** The first call of a window and the first call of the next one, in one
    pass, are at least 61 units of time apart. *)
Definition gap_respected (quota : nat) (events : list event) : Prop :=
  forall i k t1 t2,
    In (Invoke i (k * quota + 1) t1) events ->
    In (Invoke i ((k + 1) * quota + 1) t2) events ->
    (t1 + 61 <= t2)%Z.

(** Every pause is positive and no longer than 61 units. *)
Definition sleeps_bounded (events : list event) : Prop :=
  forall seconds, In (Sleep seconds) events -> (0 < seconds <= 61)%Z.

(** The frame [save_to_excel] starts from: what [pd.read_excel] returns for
    the workbook at [output_file], or the empty frame with the standard
    columns when there is none. *)
Definition reload (env : environment) (output_file : str) (w : world) : Pandas.DataFrame :=
  match files w !! output_file with
  | Some df => read_back env df
  | None => Pandas.empty columns
  end.


(** The row a record is expected to give: its value at each column, empty
    where it has none. *)
Definition row_of (record : gmap (list N) (list N)) : list Pandas.cell :=
  List.map (fun c => Pandas.Text <$> record !! c) columns.

(** The frame with the standard columns and one row per record. *)
Definition frame_of (records : list (gmap (list N) (list N))) : Pandas.DataFrame :=
  {| Pandas.columns := columns; Pandas.rows := List.map row_of records |}.

(** Every workbook written while [records] are appended to a new one is read
    back as the frame it was written from. *)
Definition read_as_written (env : environment) (records : list (gmap (list N) (list N)))
    : Prop :=
  forall n, (0 < n <= length records)%nat ->
    read_back env (frame_of (firstn n records)) = frame_of (firstn n records).

(** The pause as the specification words it, for a window of [window]
    units of time: the time elapsed since the window began is computed, and
    if it is below the window the scheduler sleeps for the remainder; then a
    new window starts. *)
Definition pause_as_specified (window start_time : Z) : M Z :=
  let* t := time in
  let elapsed_time := (t - start_time)%Z in
  let* _ :=
    if (elapsed_time <? window)%Z
    then let* _ := print (RateLimitReached (window - elapsed_time)) in
         sleep (window - elapsed_time)
    else ret tt in
  time.

(** The calls and the pauses of a trace, in order: what is not a printed
    line. *)
Definition timed (events : list event) : list event :=
  List.filter (fun e => match e with Print _ => false | _ => true end) events.

(** The requests of pass [i]: position of the case and time the request
    takes. *)
Definition requests (env : environment) (cfg : config) (i : nat) : list (nat * Z) :=
  List.map
    (fun entry => (fst entry, latency env i (Os.path_join (main_folder cfg) (snd entry))))
    (enumerate (firstn (n_subfolders cfg) (subdirectories env))).

(** One pass as the specification words it, for a quota of [quota] calls
    per window of [window] units of time.  The cases are called one after
    the other, each as soon as the one before it is over.  [in_window] counts
    the calls of the current window; after the call that makes it [quota] the
    time elapsed since [window_start] is computed, the scheduler sleeps for
    the remainder when that is below [window], and a new window starts.  The
    calls and pauses of the pass are returned with the clock reading at its
    end. *)
Fixpoint pass_as_specified (window : Z) (quota i : nat) (requests : list (nat * Z))
    (in_window : nat) (clock window_start : Z) : list event * Z :=
  match requests with
  | [] => ([], clock)
  | request :: requests' =>
      let after_call := (clock + snd request)%Z in
      if (S in_window =? quota)%nat then
        let elapsed := (after_call - window_start)%Z in
        let remainder := (window - elapsed)%Z in
        let pause := if (elapsed <? window)%Z then [Sleep remainder] else [] in
        let resumed := if (elapsed <? window)%Z then (after_call + remainder)%Z
                       else after_call in
        let rest := pass_as_specified window quota i requests' 0 resumed resumed in
        (Invoke i (fst request) clock :: pause ++ fst rest, snd rest)
      else
        let rest := pass_as_specified window quota i requests' (S in_window)
                      after_call window_start in
        (Invoke i (fst request) clock :: fst rest, snd rest)
  end.

(** The passes one after the other, each with a window of its own that
    starts with the pass. *)
Fixpoint run_as_specified (window : Z) (quota : nat) (requests : nat -> list (nat * Z))
    (passes : list nat) (clock : Z) : list event :=
  match passes with
  | [] => []
  | i :: passes' =>
      let pass := pass_as_specified window quota i (requests i) 0 clock clock in
      fst pass ++ run_as_specified window quota requests passes' (snd pass)
  end.

(** *** Sample runs *)

(** Nothing has happened yet: the clock reads 0 and there is no workbook. *)
Definition initial_world : world :=
  {| now := 0; files := ∅; trace := [] |}.

(** Four cases; the backend refuses every request after 10 units of time. *)
Definition refusing_backend : environment :=
  {| subdirectories := [u{"C1"}; u{"C2"}; u{"C3"}; u{"C4"}];
     context_of := fun _ => u{"Diagnose ... Gruesse"};
     generate_content := fun _ _ => inl u{"429 quota exceeded"};
     latency := fun _ _ => 10%Z;
     read_back := Pandas.read_missing_values;
     writable := fun _ => true |}.

(** Four cases; the backend answers every request after 10 units of time. *)
Definition answering_backend : environment :=
  {| subdirectories := [u{"C1"}; u{"C2"}; u{"C3"}; u{"C4"}];
     context_of := fun _ => u{"Diagnose ... Gruesse"};
     generate_content := fun _ _ => inr u{"- Vertigo: Yes"};
     latency := fun _ _ => 10%Z;
     read_back := Pandas.read_missing_values;
     writable := fun _ => true |}.

(** The shipped configuration with a quota of three requests per window. *)
Definition quota_three : config :=
  {| API_KEY := API_KEY source_config;
     model_name := model_name source_config;
     llm_nickname := llm_nickname source_config;
     rate_limit := 3;
     main_folder := main_folder source_config;
     output_folder := output_folder source_config;
     n_subfolders := n_subfolders source_config;
     iteration_n := 1 |}.



(** The environment of the sample runs with a folder that is missing: no
    workbook can be written. *)
Definition read_only (env : environment) : environment :=
  {| subdirectories := subdirectories env;
     context_of := context_of env;
     generate_content := generate_content env;
     latency := latency env;
     read_back := read_back env;
     writable := fun _ => false |}.

End PreOP_Gemini.

(** ** Disease course, local-model script: taxonomy and normalizer *)

Module DisCourse_local.

Definition standardize_variable_name (variable : str) : option str :=
  let variable := Py.strip (Py.lower variable) in
  if Py.eqb variable u{"free of pain after second surgery"} then
    Some u{"Free of pain after second surgery"}
  else if Py.eqb variable u{"recurrence after second surgery"} then
    Some u{"Recurrence after second surgery"}
  else if Py.contains u{"improvement"} variable || Py.contains u{"betterment"} variable then
    Some u{"Symptom-improvement after 1. surgery"}
  else if Py.contains u{"free of pain after first"} variable
          || Py.contains u{"painfree after first"} variable
          || Py.contains u{"painfree after 1"} variable
          || Py.contains u{"free of pain after 1"} variable then
    Some u{"Free of pain after first surgery"}
  else if Py.contains u{"recurrence after first"} variable
          || Py.contains u{"recurrence after 1"} variable then
    Some u{"Recurrence after first surgery"}
  else if Py.contains u{"second surgery"} variable
          || Py.contains u{"2nd surgery"} variable
          || Py.contains u{"2. surgery"} variable
          || Py.contains u{"a second surgery was carried out"} variable then
    Some u{"Second surgery"}
  else if Py.contains u{"thermocoag"} variable || Py.contains u{"coagulation"} variable then
    Some u{"Thermocoagulation"}
  else None.

Definition normalize_response_value (value : str) : str :=
  let value_lower := Py.lower value in
  if Py.eqb value_lower u{"ja"} then u{"Yes"}
  else if Py.eqb value_lower u{"nein"} then u{"No"}
  else if Py.eqb value_lower u{"provided"} || Py.eqb value_lower u{"know"} then u{"Zero"}
  else value.

Definition bullet_point_pattern : Re.regex :=
  Patterns.bullet_pattern_for ["Yes"; "No"; "Ja"; "Nein"; "provided"; "know"]%string.

Definition standalone_answer_pattern : Re.regex :=
  Patterns.standalone_pattern_for ["Yes"; "No"; "Ja"; "Nein"; "provided"; "know"]%string.

(** The body of [for line in lines]; this script has no branch for lines of
    explanation. *)
Definition step (st : Normalizer.state) (raw_line : str) : Normalizer.state :=
  let line := Py.strip raw_line in
  if Normalizer.is_final_answer_line line then
    {| Normalizer.relevant_points := Normalizer.relevant_points st;
       Normalizer.current_variable := Normalizer.current_variable st;
       Normalizer.in_final_answer_section := true |}
  else
    match Re.re_match true bullet_point_pattern line with
    | Some m =>
        let variable := Py.lower (Py.strip (Re.group 1 m)) in
        let value := normalize_response_value (Py.strip (Re.group 2 m)) in
        {| Normalizer.relevant_points :=
             Normalizer.store (standardize_variable_name variable) value
               (Normalizer.relevant_points st);
           Normalizer.current_variable := Some variable;
           Normalizer.in_final_answer_section := Normalizer.in_final_answer_section st |}
    | None =>
        if Normalizer.in_final_answer_section st then
          match Re.re_match true standalone_answer_pattern line with
          | Some m =>
              let variable := Py.lower (Py.strip (Re.group 1 m)) in
              let value := normalize_response_value (Py.strip (Re.group 2 m)) in
              {| Normalizer.relevant_points :=
                   Normalizer.store (standardize_variable_name variable) value
                     (Normalizer.relevant_points st);
                 Normalizer.current_variable := Normalizer.current_variable st;
                 Normalizer.in_final_answer_section := true |}
          | None => st
          end
        else st
    end.

Definition extract_bullet_points (response_text : str) : gmap (list N) (list N) :=
  Normalizer.relevant_points
    (fold_left step (Py.split_lines response_text) Normalizer.initial).

(** *** Orchestration *)

(** One line of the streamed body of the inference server: empty, not JSON,
    or a JSON object with or without a [response] field. *)
Inductive stream_line : Type :=
  | BlankLine
  | NotJson
  | JsonObject (response : option (list N)).

(** What [requests.post] and the reading of the body come to: the call
    raises; or a response arrives with a status code and its lines, the
    reading of which may break off with an exception. *)
Inductive post_outcome : Type :=
  | PostRaises (e : list N)
  | PostResponse (status_code : Z) (lines : list stream_line)
                 (failure : option (list N)).

Record environment : Type := Environment {
  subdirectories : list (list N);
  context_of : list N -> list N;
  post : nat -> list N -> post_outcome
}.

Record config : Type := Config {
  main_folder : list N;
  output_folder : list N;
  llm_nickname : list N;
  n_subfolders : nat;
  iteration_n : nat
}.

Definition source_config : config :=
  {| main_folder := u{"path/to/your/input/documents"};
     output_folder := u{"path/to/your/output/files"};
     llm_nickname := u{"llama3.3"};
     n_subfolders := 2;
     iteration_n := 2 |}.

Inductive message : Type :=
  | ErrorStatus (status_code : Z)
  | ErrorProcessing (subfolder_name e : list N)
  | ResponseSaved (subfolder_name : list N)
  | StartingIteration (i n : nat)
  | IterationCompleted (i : nat) (output_file : list N).

(** The workbooks, each the list of the records its frame was built from,
    and the lines printed, oldest first. *)
Record world : Type := World {
  files : gmap (list N) (list (gmap (list N) (list N)));
  stdout : list message
}.

Definition M (A : Type) : Type := world -> A * world.

Definition ret {A} (a : A) : M A := fun w => (a, w).
Definition bind {A B} (m : M A) (k : A -> M B) : M B :=
  fun w => let (a, w') := m w in k a w'.

Notation "'let*' x ':=' m 'in' k" := (bind m (fun x => k))
  (at level 10, x name, m at level 100, k at level 200).

Definition print (m : message) : M unit :=
  fun w => (tt, {| files := files w; stdout := stdout w ++ [m] |}).

(** [pd.DataFrame(all_data).to_excel(output_file, index=False)] *)
Definition to_excel (all_data : list (gmap (list N) (list N))) (output_file : str) : M unit :=
  fun w => (tt, {| files := <[output_file := all_data]> (files w);
                   stdout := stdout w |}).

(** The fragments appended to [responses] while the lines are read. *)
Definition responses_of (lines : list stream_line) : list str :=
  List.flat_map
    (fun line =>
       match line with
       | JsonObject (Some response) => [response]
       | _ => []
       end)
    lines.

(** Truth value of a dictionary: empty dictionaries are false. *)
Definition dict_truthy (d : gmap (list N) (list N)) : bool :=
  negb (bool_decide (d = ∅)).

Section Script.

Variable env : environment.
Variable cfg : config.

(** The pass number [i] is not a parameter of the Python function; it only
    selects the outcome of the request in the environment. *)
Definition process_and_run_llm_for_subfolder (i : nat) (subfolder_path : str)
    : M (option (gmap (list N) (list N))) :=
  let subfolder_name := Os.basename subfolder_path in
  let surname := u{"ANONYMIZED"} in
  let name := u{"ANONYMIZED"} in
  let context := context_of env subfolder_path in
  match post env i subfolder_path with
  | PostRaises e =>
      let* _ := print (ErrorProcessing subfolder_name e) in ret None
  | PostResponse status_code lines failure =>
      if negb (status_code =? 200)%Z then
        let* _ := print (ErrorStatus status_code) in ret None
      else
        match failure with
        | Some e =>
            let* _ := print (ErrorProcessing subfolder_name e) in ret None
        | None =>
            let full_response := List.concat (responses_of lines) in
            let relevant_points := extract_bullet_points full_response in
            let data := relevant_points in
            let data := <[u{"Surname"} := surname]> data in
            let data := <[u{"Name"} := name]> data in
            let data := <[u{"AI response"} := full_response]> data in
            let data := <[u{"Parsed Data"} := context]> data in
            let* _ := print (ResponseSaved subfolder_name) in
            ret (Some data)
        end
  end.

Fixpoint for_each {A S : Type} (body : S -> A -> M S) (xs : list A) (s : S) : M S :=
  match xs with
  | [] => ret s
  | x :: xs' => let* s' := body s x in for_each body xs' s'
  end.

(** The body of [for subfolder in subfolders]. *)
Definition visit (i : nat) (all_data : list (gmap (list N) (list N)))
    (subfolder : str) : M (list (gmap (list N) (list N))) :=
  let subfolder_path := Os.path_join (main_folder cfg) subfolder in
  let* result := process_and_run_llm_for_subfolder i subfolder_path in
  match result with
  | Some data => if dict_truthy data then ret (all_data ++ [data]) else ret all_data
  | None => ret all_data
  end.

Definition output_file_of (i : nat) : str :=
  Os.path_join (output_folder cfg)
    (u{"output_"} ++ llm_nickname cfg ++ u{"_"} ++ Os.str_of_nat i ++ u{".xlsx"}).

(** The body of [for i in range(1, iteration_n + 1)]. *)
Definition iteration (subfolders : list str) (i : nat) : M unit :=
  let output_file := output_file_of i in
  let* _ := print (StartingIteration i (iteration_n cfg)) in
  let* all_data := for_each (visit i) subfolders [] in
  match all_data with
  | [] => ret tt
  | _ :: _ =>
      let* _ := to_excel all_data output_file in
      print (IterationCompleted i output_file)
  end.

Definition main : M unit :=
  let subfolders := firstn (n_subfolders cfg) (subdirectories env) in
  for_each (fun _ i => iteration subfolders i) (seq 1 (iteration_n cfg)) tt.

End Script.

(** Nothing printed yet, no workbook. *)
Definition initial_world : world := {| files := ∅; stdout := [] |}.

(** The exception the request ends with, if it ends with one: raised by
    [requests.post], or while the body of a response with status 200 is
    read. *)
Definition raises (o : post_outcome) : option str :=
  match o with
  | PostRaises e => Some e
  | PostResponse status_code _ failure =>
      if (status_code =? 200)%Z then failure else None
  end.

(** What one case adds to [all_data] in pass [i], and what it prints. *)
Definition contribution (env : environment) (cfg : config) (i : nat) (subfolder : str)
    : list (gmap (list N) (list N)) :=
  fst (visit env cfg i [] subfolder initial_world).

Definition messages (env : environment) (cfg : config) (i : nat) (subfolder : str)
    : list message :=
  stdout (snd (visit env cfg i [] subfolder initial_world)).

(** [all_data] at the end of the inner loop of pass [i]. *)
Definition pass_records (env : environment) (cfg : config) (i : nat)
    (subfolders : list str) : list (gmap (list N) (list N)) :=
  fst (for_each (visit env cfg i) subfolders [] initial_world).

(** *** A sample run: three passes over three cases; the request for C7
    fails in the second pass. *)

Definition three_passes : config :=
  {| main_folder := main_folder source_config;
     output_folder := output_folder source_config;
     llm_nickname := llm_nickname source_config;
     n_subfolders := 3;
     iteration_n := 3 |}.

Definition flaky_server : environment :=
  {| subdirectories := [u{"C5"}; u{"C7"}; u{"C9"}];
     context_of := fun path => u{"Diagnose of "} ++ Os.basename path;
     post := fun i path =>
       if Nat.eqb i 2 && Py.eqb (Os.basename path) u{"C7"}
       then PostRaises u{"Connection refused"}
       else PostResponse 200
              [ JsonObject (Some u{"- Any improvement of pain "});
                BlankLine;
                JsonObject (Some u{"after first surgery: Yes"});
                JsonObject None ]
              None |}.

End DisCourse_local.

(** ** Section slicing

    [extract_section] has the same text in the three scripts. *)

Module Sections.

(** The [sections] setting: a string (the scripts ship ["all_sections"]) or a
    list of headings.  A [for] over a string goes through its characters. *)
Definition headings_of (sections : list N + list (list N)) : list str :=
  match sections with
  | inl s => List.map (fun c => [c]) s
  | inr headings => headings
  end.

(** [any(section_heading.lower() in paragraph.lower()
         for section_heading in sections)] *)
Definition mentions (headings : list str) (paragraph : str) : bool :=
  existsb (fun section_heading =>
             Py.contains (Py.lower section_heading) (Py.lower paragraph))
          headings.

(** What the body of [for i, paragraph in enumerate(paragraphs)] appends to
    [section_content]. *)
Definition appended (headings paragraphs : list str) (i : nat) (paragraph : str) : list str :=
  if mentions headings paragraph then
    paragraph ::
    match paragraphs !! (i + 1)%nat with
    | Some next => if Py.truthy (Py.strip next) then [next] else []
    | None => []
    end
  else [].

(** [section_content] after the loop. *)
Definition selected (headings paragraphs : list str) : list str :=
  List.concat (imap (appended headings paragraphs) paragraphs).

Definition extract_section (text : str) (sections : list N + list (list N)) : str :=
  let paragraphs := Py.split_lines text in
  let section_content :=
    match sections with
    | inl s =>
        if Py.eqb s u{"all_sections"} then paragraphs
        else selected (headings_of sections) paragraphs
    | inr _ => selected (headings_of sections) paragraphs
    end in
  Normalizer.join_lines section_content.

End Sections.

(** ** Line endings *)

Module LineEndings.

(** A text with every line feed preceded by a carriage return. *)
Definition crlf (text : str) : str :=
  List.flat_map (fun c => if c =? 10 then [13; 10] else [c]) text.

Definition blank (s : str) : Prop := Forall (fun c => Py.isspace c = true) s.

(** A line with a carriage return at its end, or the line itself. *)
Definition same_line (a b : str) : Prop := a = b \/ a = b ++ [13].

End LineEndings.

(** ** Post-operative complications, Claude script: orchestration *)

Module PostOP_Claude_Run.

(** The folders listed, the text the document ingestion yields for a folder,
    what the Claude backend answers to the request made for a folder (an
    exception, or the text of the first content block), the frame
    [pd.read_excel] returns for a workbook that [to_excel] wrote from a given
    frame, and whether a workbook can be written at a given path. *)
Record environment : Type := Environment {
  subdirectories : list (list N);
  context_of : list N -> list N;
  messages_create : list N -> list N + list N;
  read_back : Pandas.DataFrame -> Pandas.DataFrame;
  writable : list N -> bool
}.

Record config : Type := Config {
  API_KEY : list N;
  model_name : list N;
  main_folder : list N;
  output_file : list N;
  n_subfolders : nat
}.

Definition source_config : config :=
  {| API_KEY := u{"your-anthropic-api-key-here"};
     model_name := u{"claude-3-5-sonnet-20241022"};
     main_folder := u{"path/to/your/input/documents"};
     output_file := u{"path/to/your/output/file.xlsx"};
     n_subfolders := 212 |}.

Inductive message : Type :=
  | ProcessingSubfolder (i n : nat) (subfolder : list N)
  | ErrorProcessing (subfolder_name e : list N)
  | ResponseSaved (subfolder_name : list N)
  | TotalProcessingTime.

(** The workbooks, each as the frame it was written from, and the lines
    printed, oldest first.  The context file written into the folder of each
    case is not a workbook and is not part of [files]; the input folders can
    be listed and written to. *)
Record world : Type := World {
  files : gmap (list N) Pandas.DataFrame;
  stdout : list message
}.

(** The exception no [try] of the script catches: that of [to_excel]. *)
Inductive exn : Type :=
  | OSError.

Inductive outcome (A : Type) : Type :=
  | Returned (a : A)
  | Raised (e : exn).
Arguments Returned {A} a.
Arguments Raised {A} e.

(** Computations that read and change the world and may raise. *)
Definition M (A : Type) : Type := world -> outcome A * world.

Definition ret {A} (a : A) : M A := fun w => (Returned a, w).
Definition raise {A} (e : exn) : M A := fun w => (Raised e, w).
Definition bind {A B} (m : M A) (k : A -> M B) : M B :=
  fun w =>
    match m w with
    | (Returned a, w') => k a w'
    | (Raised e, w') => (Raised e, w')
    end.

Notation "'let*' x ':=' m 'in' k" := (bind m (fun x => k))
  (at level 10, x name, m at level 100, k at level 200).

Definition print (m : message) : M unit :=
  fun w => (Returned tt, {| files := files w; stdout := stdout w ++ [m] |}).

(** The expected columns of the output. *)
Definition columns : list str :=
  [ u{"CSF Leak"}; u{"Infection"}; u{"Facial Palsy"}; u{"Facial Numbness"};
    u{"Hearing Loss"}; u{"AI response"}; u{"Parsed Data"} ].

(** [pd.read_excel(output_file)]: what the reader makes of the workbook,
    which [files] holds as the frame it was written from; [None] stands for
    [FileNotFoundError]. *)
Definition read_excel (env : environment) (path : str) : M (option Pandas.DataFrame) :=
  fun w => (Returned (read_back env <$> files w !! path), w).

(** [df.to_excel(output_file, index=False)]: it raises [OSError] when the
    workbook cannot be written, as it does when its folder is missing; the
    script creates no folder. *)
Definition to_excel (env : environment) (df : Pandas.DataFrame) (path : str) : M unit :=
  fun w =>
    if writable env path then
      (Returned tt, {| files := <[path := df]> (files w); stdout := stdout w |})
    else (Raised OSError, w).

(** [for col in columns: if col not in data: data[col] = None] *)
Definition fill_missing (data : gmap (list N) Pandas.cell) : gmap (list N) Pandas.cell :=
  fold_left
    (fun data col =>
       match data !! col with
       | Some _ => data
       | None => <[col := None]> data
       end)
    columns data.

Definition save_to_excel (env : environment) (data : gmap (list N) Pandas.cell)
    (path : str) : M unit :=
  let* existing := read_excel env path in
  let df_existing :=
    match existing with
    | Some df => df
    | None => Pandas.empty columns
    end in
  let data := fill_missing data in
  let df_new := Pandas.of_record data columns in
  let df_combined := Pandas.concat df_existing df_new in
  to_excel env df_combined path.

Section Script.

Variable env : environment.
Variable cfg : config.

(** The dictionary handed to [save_to_excel] for an answered request. *)
Definition data_of (subfolder_path text : str) : gmap (list N) Pandas.cell :=
  let full_response := Py.strip text in
  let relevant_points := PostOP_Claude.extract_bullet_points full_response in
  let data : gmap (list N) Pandas.cell :=
    (fun value => Some (Pandas.Text value)) <$> relevant_points in
  let data := <[u{"AI response"} := Some (Pandas.Text full_response)]> data in
  <[u{"Parsed Data"} := Some (Pandas.Text (context_of env subfolder_path))]> data.

Definition process_and_run_llm_for_subfolder (subfolder_path api_key model : str) : M unit :=
  let subfolder_name := Os.basename subfolder_path in
  match messages_create env subfolder_path with
  | inl e => print (ErrorProcessing subfolder_name e)
  | inr text =>
      (* [output_file] is a module-level name of this script *)
      let* _ := save_to_excel env (data_of subfolder_path text) (output_file cfg) in
      print (ResponseSaved subfolder_name)
  end.

Fixpoint for_each {A S : Type} (body : S -> A -> M S) (xs : list A) (s : S) : M S :=
  match xs with
  | [] => ret s
  | x :: xs' => let* s' := body s x in for_each body xs' s'
  end.

(** The body of [for i, subfolder in enumerate(subfolders, start=1)]. *)
Definition visit (total : nat) (_ : unit) (entry : nat * list N) : M unit :=
  let* _ := print (ProcessingSubfolder (fst entry) total (snd entry)) in
  process_and_run_llm_for_subfolder
    (Os.path_join (main_folder cfg) (snd entry)) (API_KEY cfg) (model_name cfg).

Definition main : M unit :=
  let subfolders := firstn (n_subfolders cfg) (subdirectories env) in
  let* _ := for_each (visit (length subfolders))
              (combine (seq 1 (length subfolders)) subfolders) tt in
  print TotalProcessingTime.

(** The cases of the run whose request is answered, with the answer. *)
Definition answered (subfolders : list str) : list (list N * list N) :=
  List.flat_map
    (fun subfolder =>
       match messages_create env (Os.path_join (main_folder cfg) subfolder) with
       | inl _ => []
       | inr text => [(Os.path_join (main_folder cfg) subfolder, text)]
       end)
    subfolders.

(** The two lines printed for the case at position [fst entry]. *)
Definition report (total : nat) (entry : nat * list N) : list message :=
  let subfolder_path := Os.path_join (main_folder cfg) (snd entry) in
  [ ProcessingSubfolder (fst entry) total (snd entry);
    match messages_create env subfolder_path with
    | inl e => ErrorProcessing (Os.basename subfolder_path) e
    | inr _ => ResponseSaved (Os.basename subfolder_path)
    end ].

End Script.

(** The frame [save_to_excel] starts from: what [pd.read_excel] returns for
    the workbook at [path], or the empty frame with the expected columns
    when there is none. *)
Definition reload (env : environment) (path : str) (w : world) : Pandas.DataFrame :=
  match files w !! path with
  | Some df => read_back env df
  | None => Pandas.empty columns
  end.

(** The row a dictionary gives: its value at each column. *)
Definition row_of (data : gmap (list N) Pandas.cell) : list Pandas.cell :=
  List.map (fun c => default None (data !! c)) columns.

Definition well_formed (df : Pandas.DataFrame) : Prop :=
  Pandas.columns df = columns /\ Forall (Pandas.laid_out columns) (Pandas.rows df).

Definition initial_world : world := {| files := ∅; stdout := [] |}.

(** Three cases; the request for the second one is refused. *)
Definition sample_backend : environment :=
  {| subdirectories := [u{"P1"}; u{"P2"}; u{"P3"}];
     context_of := fun path => u{"Diagnose of "} ++ Os.basename path;
     messages_create := fun path =>
       if Py.eqb (Os.basename path) u{"P2"} then inl u{"overloaded_error"}
       else inr (Normalizer.join_lines [u{"Final answer:"}; u{" - Infection: Yes "}]);
     read_back := Pandas.read_missing_values;
     writable := fun _ => true |}.

(** The same environment with the folder of the workbook missing. *)
Definition read_only (env : environment) : environment :=
  {| subdirectories := subdirectories env;
     context_of := context_of env;
     messages_create := messages_create env;
     read_back := read_back env;
     writable := fun _ => false |}.

(** The rows of the answered cases among [subfolders], in order. *)
Definition rows_of (env : environment) (cfg : config) (subfolders : list str)
    : list (list Pandas.cell) :=
  List.map (fun answer => row_of (data_of env (fst answer) (snd answer)))
    (answered env cfg subfolders).

(** Every workbook written by a run that starts from the rows [old] is read
    back as the frame it was written from. *)
Definition read_as_written (env : environment) (cfg : config)
    (old : list (list Pandas.cell)) (subfolders : list str) : Prop :=
  forall n, (0 < n <= length (rows_of env cfg subfolders))%nat ->
    read_back env {| Pandas.columns := columns;
                     Pandas.rows := old ++ firstn n (rows_of env cfg subfolders) |}
    = {| Pandas.columns := columns;
         Pandas.rows := old ++ firstn n (rows_of env cfg subfolders) |}.

End PostOP_Claude_Run.

(** ** The records of the disease-course script *)

Module DisCourse_Records.
Import DisCourse_local.

(** The columns [save_to_excel] of the disease-course script lays out. *)
Definition columns : list str :=
  [ u{"Surname"}; u{"Name"}; u{"Symptom-improvement after 1. surgery"};
    u{"Free of pain after first surgery"}; u{"Recurrence after first surgery"};
    u{"Second surgery"}; u{"Free of pain after second surgery"};
    u{"Recurrence after second surgery"}; u{"Thermocoagulation"};
    u{"AI response"}; u{"Parsed Data"} ].

(** The keys [process_and_run_llm_for_subfolder] sets itself. *)
Definition provenance : list str :=
  [ u{"Surname"}; u{"Name"}; u{"AI response"}; u{"Parsed Data"} ].

(** The text of an answered request: status 200 and a body read to its end,
    the [response] fields joined. *)
Definition full_response_of (o : post_outcome) : option str :=
  match o with
  | PostResponse status_code lines None =>
      if (status_code =? 200)%Z then Some (List.concat (responses_of lines)) else None
  | _ => None
  end.

End DisCourse_Records.

(** ** Answers in two parts *)

Module Composition.

(** Some line of the text holds the final-answer marker. *)
Definition has_marker (text : str) : bool :=
  existsb Normalizer.is_marker (Py.split_lines text).

(** What the first part of an answer hands on to the lines after it: a
    marker line when it holds one, nothing otherwise. *)
Definition carried (text : str) : str :=
  if has_marker text then u{"Final answer"} ++ [10] else [].

(** The loop state with the record emptied. *)
Definition forget (st : Normalizer.state) : Normalizer.state :=
  {| Normalizer.relevant_points := ∅;
     Normalizer.current_variable := None;
     Normalizer.in_final_answer_section := Normalizer.in_final_answer_section st |}.

End Composition.

(** ** The pre-operative schedule *)

Module Schedule.

(** The calls of a trace, as pass and position, in order. *)
Definition invocations (events : list PreOP_Gemini.event) : list (nat * nat) :=
  List.flat_map
    (fun e =>
       match e with
       | PreOP_Gemini.Invoke i j _ => [(i, j)]
       | _ => []
       end)
    events.

(** An event that does not report a saved response. *)
Definition not_saved (e : PreOP_Gemini.event) : Prop :=
  forall name, e <> PreOP_Gemini.Print (PreOP_Gemini.ResponseSaved name).

(** From [w] to [w'] no workbook changes, and the trace grows by [events]. *)
Definition grows_by (events : list PreOP_Gemini.event) (w w' : PreOP_Gemini.world) : Prop :=
  PreOP_Gemini.files w' = PreOP_Gemini.files w
  /\ PreOP_Gemini.trace w' = PreOP_Gemini.trace w ++ events.

(** One call per case and pass: pass 1 over all cases, then pass 2, ... *)
Definition schedule (passes cases : nat) : list (nat * nat) :=
  List.flat_map (fun i => List.map (fun j => (i, j)) (seq 1 cases)) (seq 1 passes).

(** The shipped configuration with one pass and a quota of zero. *)
Definition quota_zero : PreOP_Gemini.config :=
  {| PreOP_Gemini.API_KEY := PreOP_Gemini.API_KEY PreOP_Gemini.source_config;
     PreOP_Gemini.model_name := PreOP_Gemini.model_name PreOP_Gemini.source_config;
     PreOP_Gemini.llm_nickname := PreOP_Gemini.llm_nickname PreOP_Gemini.source_config;
     PreOP_Gemini.rate_limit := 0;
     PreOP_Gemini.main_folder := PreOP_Gemini.main_folder PreOP_Gemini.source_config;
     PreOP_Gemini.output_folder := PreOP_Gemini.output_folder PreOP_Gemini.source_config;
     PreOP_Gemini.n_subfolders := PreOP_Gemini.n_subfolders PreOP_Gemini.source_config;
     PreOP_Gemini.iteration_n := 1 |}.

End Schedule.

(** ** What a match is

    A relational reading of the patterns, against which the matcher is
    checked. *)

Module ReSemantics.
Import Re.

Section Den.

Variable ignorecase : bool.

Definition rel : Type := position -> captures -> position -> captures -> Prop.

(** Zero or more rounds of [R]. *)
Inductive iter (R : rel) : rel :=
  | iter_done p cs : iter R p cs p cs
  | iter_more p cs q csq p' cs' :
      R p cs q csq -> iter R q csq p' cs' -> iter R p cs p' cs'.

(** What a match of [r] is: from position [p] with the groups [cs] to
    position [p'] with the groups [cs']. *)
Fixpoint den (r : regex) : rel :=
  match r with
  | Eps => fun p cs p' cs' => p' = p /\ cs' = cs
  | One a => fun p cs p' cs' =>
      exists c rest, snd p = c :: rest /\ atom_matches ignorecase a c = true
                     /\ p' = (Some c, rest) /\ cs' = cs
  | Bol => fun p cs p' cs' => fst p = None /\ p' = p /\ cs' = cs
  | Wb => fun p cs p' cs' =>
      xorb (word_before p) (word_after p) = true /\ p' = p /\ cs' = cs
  | Seq r1 r2 => fun p cs p' cs' =>
      exists q csq, den r1 p cs q csq /\ den r2 q csq p' cs'
  | Alt r1 r2 => fun p cs p' cs' => den r1 p cs p' cs' \/ den r2 p cs p' cs'
  | Rep _ r1 => iter (den r1)
  | Grp n r1 => fun p cs p' cs' =>
      exists cs1, den r1 p cs p' cs1 /\ cs' = (n, consumed p p') :: cs1
  end.

End Den.

(** Every match of [r] goes over the character [c]. *)
Fixpoint must_contain (c : N) (r : regex) : bool :=
  match r with
  | One (Lit c') => c' =? c
  | Seq r1 r2 => must_contain c r1 || must_contain c r2
  | Alt r1 r2 => must_contain c r1 && must_contain c r2
  | Grp _ r1 => must_contain c r1
  | _ => false
  end.

(** [r] has no capturing group. *)
Fixpoint no_groups (r : regex) : bool :=
  match r with
  | Seq r1 r2 | Alt r1 r2 => no_groups r1 && no_groups r2
  | Rep _ r1 => no_groups r1
  | Grp _ _ => false
  | _ => true
  end.

End ReSemantics.

(** ** Values and colons *)

Module Answers.

(** The value reads as one of [allowed] when letter case is set aside, with
    the case folding of [re.IGNORECASE]. *)
Definition reads_as (allowed : list str) (value : str) : Prop :=
  In (List.map Re.fold value) allowed.

(** [":" in text] *)
Definition has_colon (text : str) : bool := existsb (N.eqb 58) text.

End Answers.

(** ** The documents of a case

    [combine_word_documents] has the same text in the three scripts.  The
    pattern of the two markers is read directly: the leftmost place where
    the first marker stands and the second one follows, up to the first
    place where the second one ends. *)

Module Documents.

(** The two markers: [diagnos] and [gr], U+00FC, U+00DF, [e]. *)
Definition diagnos : str := u{"diagnos"}.
Definition gruesse : str := [103; 114; 252; 223; 101].

(** Case folding under [re.IGNORECASE] for the letters of the markers: that
    of [Re.fold], and the capital sharp s (U+1E9E) with the small one. *)
Definition fold (c : N) : N := if c =? 7838 then 223 else Re.fold c.

(** [marker] is matched at the start of [s], letter case set aside. *)
Fixpoint starts (marker s : str) : bool :=
  match marker, s with
  | [], _ => true
  | m :: marker', c :: s' => (fold m =? fold c) && starts marker' s'
  | _ :: _, [] => false
  end.

(** [s] up to the end of the first place where [marker] is matched. *)
Fixpoint through (marker s : str) : option str :=
  if starts marker s then Some (firstn (length marker) s)
  else match s with
       | [] => None
       | c :: s' =>
           match through marker s' with
           | Some t => Some (c :: t)
           | None => None
           end
       end.

(** What the pattern [(diagnos.*?gr..e)] matches at the start of [text]
    under [re.IGNORECASE | re.DOTALL]: [diagnos], then as little as possible
    up to the next [gr..e]. *)
Definition match_here (text : str) : option str :=
  if starts diagnos text then
    match through gruesse (skipn (length diagnos) text) with
    | Some rest => Some (firstn (length diagnos) text ++ rest)
    | None => None
    end
  else None.

(** [re.search(...)] and [match.group(1)]: the match at the leftmost place
    that has one. *)
Fixpoint search (text : str) : option str :=
  match match_here text with
  | Some e => Some e
  | None =>
      match text with
      | [] => None
      | _ :: text' => search text'
      end
  end.

(** [re.sub(r'\n{2,}', '\n', s)]: of every run of line feeds one is left. *)
Fixpoint collapse (s : str) : str :=
  match s with
  | [] => []
  | c :: s' =>
      if (c =? 10) && match s' with c2 :: _ => c2 =? 10 | [] => false end
      then collapse s'
      else c :: collapse s'
  end.

(** [s.endswith(suffix)] *)
Definition endswith (suffix s : str) : bool :=
  Py.startswith (List.rev suffix) (List.rev s).

(** What opening a file and [mammoth.extract_raw_text] come to: an
    exception, or the raw text. *)
Inductive opened : Type :=
  | Unreadable (e : list N)
  | RawText (text : list N).

(** The body of the [try] for a file that could be read. *)
Definition excerpt (text : str) : option str :=
  match search text with
  | Some matched => Some (collapse (Py.strip matched))
  | None => None
  end.

(** What a directory entry appends to [combined_text]. *)
Definition excerpts_of (entry : list N * opened) : list str :=
  if endswith u{".docx"} (fst entry) then
    match snd entry with
    | RawText text => match excerpt text with Some e => [e] | None => [] end
    | Unreadable _ => []
    end
  else [].

(** The lines printed for a directory entry: file name and exception. *)
Definition errors_of (entry : list N * opened) : list (list N * list N) :=
  if endswith u{".docx"} (fst entry) then
    match snd entry with
    | RawText _ => []
    | Unreadable e => [(fst entry, e)]
    end
  else [].

(** [combine_word_documents], for the entries [os.listdir] gives in the
    order it gives them: the combined text and the lines printed. *)
Definition combine_word_documents (listing : list (list N * opened))
    : str * list (list N * list N) :=
  (Normalizer.join_lines (List.flat_map excerpts_of listing),
   List.flat_map errors_of listing).

(** Two line feeds in a row somewhere in [s]. *)
Fixpoint doubled (s : str) : bool :=
  match s with
  | [] => false
  | c :: s' =>
      ((c =? 10) && match s' with c2 :: _ => c2 =? 10 | [] => false end) || doubled s'
  end.

(** [marker] is matched somewhere in [s]. *)
Fixpoint occurs (marker s : str) : bool :=
  starts marker s || match s with [] => false | _ :: s' => occurs marker s' end.

(** A block of text between two characters that are not line feeds, with no
    two line feeds in a row. *)
Definition tight (e : str) : Prop :=
  exists x mid y, e = x :: mid ++ [y] /\ x <> 10 /\ y <> 10 /\ doubled e = false.

End Documents.

(** ** The final-answer marker, as a property of the line *)

Module Marker.

(** The character before a place in a line: the last one of what comes
    before it. *)
Definition not_word_before (pre : str) : Prop :=
  match last pre with Some c => Re.is_word c = false | None => True end.

Definition not_word_after (post : str) : Prop :=
  match post with c :: _ => Re.is_word c = false | [] => True end.

(** The line holds the words [final answer], letter case set aside, with a
    word boundary on either side. *)
Definition holds_marker (line : str) : Prop :=
  exists pre t post,
    line = pre ++ t ++ post
    /\ List.map Re.fold t = u{"final answer"}
    /\ not_word_before pre /\ not_word_after post.

End Marker.

(** * Properties *)

(** ** Strings *)

Module PyFacts.
Import Py.

(** Case analysis on the comparisons of code points in the goal. *)
Ltac cases_cp :=
  repeat match goal with
  | |- context [N.leb ?a ?b] => destruct (N.leb_spec a b)
  | |- context [N.eqb ?a ?b] => destruct (N.eqb_spec a b)
  end.

(** Boolean comparisons of code points in the hypotheses, as propositions. *)
Ltac bool_props :=
  repeat match goal with
  | H : _ && _ = true |- _ => apply andb_true_iff in H; destruct H
  | H : _ || _ = true |- _ => apply orb_true_iff in H
  | H : _ && _ = false |- _ => apply andb_false_iff in H
  | H : _ || _ = false |- _ => apply orb_false_iff in H; destruct H
  | H : negb _ = true |- _ => apply negb_true_iff in H
  | H : negb _ = false |- _ => apply negb_false_iff in H
  | H : (_ <=? _) = true |- _ => apply N.leb_le in H
  | H : (_ <=? _) = false |- _ => apply N.leb_gt in H
  | H : (_ <? _) = true |- _ => apply N.ltb_lt in H
  | H : (_ <? _) = false |- _ => apply N.ltb_ge in H
  | H : (_ =? _) = true |- _ => apply N.eqb_eq in H
  | H : (_ =? _) = false |- _ => apply N.eqb_neq in H
  | H : _ \/ _ |- _ => destruct H
  end.

(** The lower-case mapping does not go below the least of its targets. *)
Lemma lower_in_floor (b : N) (runs : list (N * N * N * N)) (c : N) :
  forallb (fun run => b <=? snd run) runs = true ->
  b <= c -> b <= Unicode.lower_in runs c.
Proof.
  induction runs as [|[[[lo hi] stride] target] runs IH]; intros Hr Hc; [exact Hc|].
  cbn [forallb snd] in Hr. apply andb_true_iff in Hr as [Ht Hr]. apply N.leb_le in Ht.
  cbn [Unicode.lower_in]. destruct (c <? lo); [exact Hc|].
  destruct ((c <=? hi) && _); [lia | exact (IH Hr Hc)].
Qed.

Lemma lower_above_floor (c : N) : 256 <= c -> 97 <= Unicode.lower_in Unicode.lower_runs c.
Proof.
  intros Hc. apply lower_in_floor; [vm_compute; reflexivity | lia].
Qed.

Lemma lower_cp_no_upper (c : N) : has_upper (lower_cp c) = false.
Proof.
  unfold has_upper, lower_cp.
  destruct (ascii_upper c) eqn:E1.
  { cbn [existsb]. rewrite orb_false_r. unfold ascii_upper, between in *.
    destruct ((65 <=? c + 32) && (c + 32 <=? 90)) eqn:E; [|reflexivity].
    bool_props; lia. }
  destruct (latin1_upper c) eqn:E2.
  { cbn [existsb]. rewrite orb_false_r. unfold latin1_upper, ascii_upper, between in *.
    destruct ((65 <=? c + 32) && (c + 32 <=? 90)) eqn:E; [|reflexivity].
    bool_props; lia. }
  destruct (c =? 304); [reflexivity|].
  destruct (c =? 8490); [reflexivity|].
  destruct (c <? 256) eqn:E5.
  { cbn [existsb]. rewrite E1. reflexivity. }
  cbn [existsb]. rewrite orb_false_r. unfold ascii_upper, between.
  apply N.ltb_ge, lower_above_floor in E5.
  destruct (_ && _) eqn:E; [|reflexivity]. bool_props; lia.
Qed.

Lemma has_upper_app (a b : str) : has_upper (a ++ b) = has_upper a || has_upper b.
Proof. apply existsb_app. Qed.

Lemma lower_from_no_upper (s : str) :
  forall after_cased, has_upper (lower_from after_cased s) = false.
Proof.
  induction s as [|c s IH]; intros after_cased; [reflexivity|].
  cbn [lower_from]. rewrite has_upper_app, IH, orb_false_r.
  destruct (_ && _); [reflexivity | apply lower_cp_no_upper].
Qed.

Lemma lower_no_upper (s : str) : has_upper (lower s) = false.
Proof. apply lower_from_no_upper. Qed.

(** Without a capital sigma a string is lower-cased character by
    character. *)
Lemma lower_from_plain (s : str) :
  Forall (fun c => c <> 931) s ->
  forall after_cased, lower_from after_cased s = List.flat_map lower_cp s.
Proof.
  induction 1 as [|c s Hc _ IH]; intros after_cased; [reflexivity|].
  cbn [lower_from List.flat_map]. apply N.eqb_neq in Hc. rewrite Hc, IH. reflexivity.
Qed.

Lemma split_lines_nonempty (s : str) : split_lines s <> [].
Proof.
  induction s as [|c s IH]; simpl; [discriminate|].
  destruct (c =? 10); [discriminate|].
  destruct (split_lines s); discriminate.
Qed.

(** Splitting a text at a line feed splits its list of lines. *)
Lemma split_lines_app (a b : str) :
  split_lines (a ++ 10 :: b) = split_lines a ++ split_lines b.
Proof.
  induction a as [|c a IH]; simpl; [reflexivity|].
  destruct (c =? 10); [rewrite IH; reflexivity|].
  rewrite IH. destruct (split_lines a) eqn:E; [|reflexivity].
  exfalso. exact (split_lines_nonempty a E).
Qed.

Lemma eqb_eq (a b : str) : eqb a b = true <-> a = b.
Proof. unfold eqb. apply bool_decide_eq_true. Qed.

End PyFacts.

(** ** The normalizer, for any taxonomy *)

Module NormalizerFacts.
Import Normalizer.

Lemma store_lookup (nv : option str) (value : str) (points : gmap (list N) (list N)) (k : str) :
  is_Some (store nv value points !! k) -> is_Some (points !! k) \/ nv = Some k.
Proof.
  unfold store. destruct nv as [name|]; [|auto].
  destruct (Py.truthy name); [|auto].
  destruct (decide (name = k)) as [->|Hne]; [auto|].
  rewrite lookup_insert_ne by exact Hne. auto.
Qed.

Lemma store_none (value : str) (points : gmap (list N) (list N)) :
  store None value points = points.
Proof. reflexivity. Qed.

Lemma explain_lookup (variable line : str) (points : gmap (list N) (list N)) (k : str) :
  is_Some (explain variable line points !! k) <-> is_Some (points !! k).
Proof.
  unfold explain. destruct (points !! variable) as [old|] eqn:E; [|tauto].
  destruct (decide (variable = k)) as [->|Hne].
  - rewrite lookup_insert_eq, E. split; eauto.
  - rewrite lookup_insert_ne by exact Hne. tauto.
Qed.

Lemma explain_absent (variable line : str) (points : gmap (list N) (list N)) :
  points !! variable = None -> explain variable line points = points.
Proof. unfold explain. intros ->. reflexivity. Qed.

Lemma state_eta (st : state) :
  {| relevant_points := relevant_points st;
     current_variable := current_variable st;
     in_final_answer_section := in_final_answer_section st |} = st.
Proof. destruct st; reflexivity. Qed.

Lemma invariant_initial : invariant initial.
Proof.
  split; simpl.
  - intros k [v Hv]. rewrite lookup_empty in Hv. discriminate.
  - intros v Hv. discriminate.
Qed.

(** A lower-cased variable is never a key of the record. *)
Lemma invariant_variable_absent (st : state) (v : str) :
  invariant st -> current_variable st = Some v -> relevant_points st !! v = None.
Proof.
  intros [Hk Hv] E. destruct (relevant_points st !! v) eqn:L; [|reflexivity].
  assert (Py.has_upper v = true) by (apply Hk; eauto).
  rewrite (Hv v E) in H. discriminate.
Qed.

Section Task.

Variable standardize_variable_name : str -> option str.

Abbreviation step := (Normalizer.step standardize_variable_name).
Abbreviation loop := (Normalizer.loop standardize_variable_name).

Lemma loop_app (st : state) (l1 l2 : list str) :
  loop st (l1 ++ l2) = loop (loop st l1) l2.
Proof. apply fold_left_app. Qed.

(** The marker line sets the flag and does nothing else. *)
Lemma step_marker (st : state) (line : str) :
  is_marker line = true ->
  step st line = {| relevant_points := relevant_points st;
                    current_variable := current_variable st;
                    in_final_answer_section := true |}.
Proof. unfold is_marker, Normalizer.step. intros ->. reflexivity. Qed.

Lemma step_flag (st : state) (line : str) :
  in_final_answer_section st = true ->
  in_final_answer_section (step st line) = true.
Proof.
  intros Hf. unfold Normalizer.step.
  destruct (is_final_answer_line _); [reflexivity|].
  destruct (Re.re_match _ _ _); [exact Hf|].
  rewrite Hf. destruct (Re.re_match _ _ _); [reflexivity | exact Hf].
Qed.

Lemma loop_flag (lines : list str) (st : state) :
  in_final_answer_section st = true ->
  in_final_answer_section (loop st lines) = true.
Proof.
  revert st. induction lines as [|l ls IH]; intros st Hf; [exact Hf|].
  simpl. apply IH, step_flag, Hf.
Qed.

(** A line that is not the marker leaves the flag as it is. *)
Lemma step_flag_unmarked (st : state) (line : str) :
  is_marker line = false ->
  in_final_answer_section (step st line) = in_final_answer_section st.
Proof.
  unfold is_marker, Normalizer.step. intros ->.
  destruct (Re.re_match _ _ _); [reflexivity|].
  destruct (in_final_answer_section st) eqn:Hf.
  - destruct (Re.re_match _ _ _); [reflexivity | exact Hf].
  - destruct (current_variable st); [|exact Hf].
    destruct (_ && _); [reflexivity | exact Hf].
Qed.

Lemma loop_flag_unmarked (lines : list str) (st : state) :
  Forall (fun l => is_marker l = false) lines ->
  in_final_answer_section (loop st lines) = in_final_answer_section st.
Proof.
  revert st. induction lines as [|l ls IH]; intros st H; [reflexivity|].
  inversion H; subst. simpl. rewrite IH by assumption.
  apply step_flag_unmarked. assumption.
Qed.

Lemma loop_flag_marked (lines : list str) (st : state) :
  Exists (fun l => is_marker l = true) lines ->
  in_final_answer_section (loop st lines) = true.
Proof.
  revert st. induction lines as [|l ls IH]; intros st H; inversion H; subst; simpl.
  - apply loop_flag. rewrite step_marker by assumption. reflexivity.
  - apply IH. assumption.
Qed.

(** Every key of the record after a step was a key before or is a name
    returned by the taxonomy. *)
Lemma step_keys (st : state) (line k : str) :
  is_Some (relevant_points (step st line) !! k) ->
  is_Some (relevant_points st !! k)
  \/ exists phrase, standardize_variable_name phrase = Some k.
Proof.
  unfold Normalizer.step.
  destruct (is_final_answer_line _); [auto|].
  destruct (Re.re_match _ _ _) as [m|].
  - simpl. intros H. apply store_lookup in H as [H|H]; eauto.
  - destruct (in_final_answer_section st).
    + destruct (Re.re_match _ _ _) as [m|]; [|auto].
      simpl. intros H. apply store_lookup in H as [H|H]; eauto.
    + destruct (current_variable st) as [v|]; [|auto].
      destruct (_ && _); [|auto].
      simpl. intros H. apply explain_lookup in H. auto.
Qed.

Lemma loop_keys (lines : list str) (st : state) (k : str) :
  is_Some (relevant_points (loop st lines) !! k) ->
  is_Some (relevant_points st !! k)
  \/ exists phrase, standardize_variable_name phrase = Some k.
Proof.
  revert st. induction lines as [|l ls IH]; intros st H; [auto|].
  simpl in H. apply IH in H as [H|H]; [|auto].
  apply step_keys in H. exact H.
Qed.

Hypothesis names_have_upper :
  forall phrase k, standardize_variable_name phrase = Some k -> Py.has_upper k = true.

Lemma step_invariant (st : state) (line : str) :
  invariant st -> invariant (step st line).
Proof.
  intros Hinv. split.
  - intros k Hk. apply step_keys in Hk as [Hk|[p Hp]].
    + apply Hinv, Hk.
    + eapply names_have_upper, Hp.
  - destruct Hinv as [_ Hv]. unfold Normalizer.step.
    destruct (is_final_answer_line _); [exact Hv|].
    destruct (Re.re_match _ _ _) as [m|].
    + simpl. intros v [= <-]. apply PyFacts.lower_no_upper.
    + destruct (in_final_answer_section st).
      * destruct (Re.re_match _ _ _); [exact Hv | exact Hv].
      * destruct (current_variable st) as [v|] eqn:E; [|rewrite E; exact Hv].
        destruct (_ && _); [|rewrite E; exact Hv].
        simpl. exact Hv.
Qed.

Lemma loop_invariant (lines : list str) (st : state) :
  invariant st -> invariant (loop st lines).
Proof.
  revert st. induction lines as [|l ls IH]; intros st H; [exact H|].
  simpl. apply IH, step_invariant, H.
Qed.

(** Outside the final-answer section, a line that is neither the marker nor
    a bullet changes nothing: its text is appended to no entry. *)
Lemma step_unmatched (st : state) (line : str) :
  invariant st ->
  is_marker line = false ->
  Re.re_match true bullet_point_pattern (Py.strip line) = None ->
  in_final_answer_section st = false ->
  step st line = st.
Proof.
  intros Hinv Hm Hb Hf. unfold is_marker in Hm. unfold Normalizer.step.
  rewrite Hm, Hb, Hf.
  destruct (current_variable st) as [v|] eqn:E; [|reflexivity].
  destruct (_ && _); [|reflexivity].
  rewrite explain_absent by (apply invariant_variable_absent; assumption).
  destruct st; simpl in *; subst; reflexivity.
Qed.

(** Inside the final-answer section, a line of the standalone shape stores
    its value under the canonical name of its label. *)
Lemma step_standalone (st : state) (line : str) (m : Re.captures) :
  is_marker line = false ->
  Re.re_match true bullet_point_pattern (Py.strip line) = None ->
  in_final_answer_section st = true ->
  Re.re_match true standalone_answer_pattern (Py.strip line) = Some m ->
  step st line =
    {| relevant_points :=
         store (standardize_variable_name (Py.lower (Py.strip (Re.group 1 m))))
               (normalize_german (Py.strip (Re.group 2 m))) (relevant_points st);
       current_variable := current_variable st;
       in_final_answer_section := true |}.
Proof.
  intros Hm Hb Hf Hs. unfold is_marker in Hm. unfold Normalizer.step.
  rewrite Hm, Hb, Hf, Hs. reflexivity.
Qed.

End Task.
End NormalizerFacts.

(** ** Post-operative normalizer *)

Module PostOP_Claude_Facts.
Import Normalizer PostOP_Claude.

Lemma names_have_upper (phrase k : str) :
  standardize_variable_name phrase = Some k -> Py.has_upper k = true.
Proof.
  unfold standardize_variable_name.
  repeat match goal with
  | |- context [if ?b then _ else _] => destruct b
  end; intros [= <-]; reflexivity.
Qed.

Lemma reachable_invariant (lines : list str) :
  invariant (loop standardize_variable_name initial lines).
Proof.
  apply (NormalizerFacts.loop_invariant _ names_have_upper), NormalizerFacts.invariant_initial.
Qed.

(** The bare line of the gating property: what the patterns make of it. *)
Lemma infection_no_unmarked : is_marker u{"Infection: No"} = false.
Proof. vm_compute. reflexivity. Qed.

Lemma infection_no_bullet :
  Re.re_match true bullet_point_pattern (Py.strip u{"Infection: No"}) = None.
Proof. vm_compute. reflexivity. Qed.

Lemma infection_no_standalone :
  Re.re_match true standalone_answer_pattern (Py.strip u{"Infection: No"})
  = Some [(2%nat, u{"No"}); (1%nat, u{"Infection"})].
Proof. vm_compute. reflexivity. Qed.

Lemma step_infection_no_closed (st : state) :
  invariant st -> in_final_answer_section st = false ->
  step standardize_variable_name st u{"Infection: No"} = st.
Proof.
  intros Hinv Hf.
  apply NormalizerFacts.step_unmatched;
    auto using infection_no_unmarked, infection_no_bullet.
Qed.

Lemma step_infection_no_open (st : state) :
  in_final_answer_section st = true ->
  step standardize_variable_name st u{"Infection: No"}
  = {| relevant_points := <[u{"Infection"} := u{"No"}]> (relevant_points st);
       current_variable := current_variable st;
       in_final_answer_section := true |}.
Proof.
  intros Hf.
  rewrite (NormalizerFacts.step_standalone _ st _ _
             infection_no_unmarked infection_no_bullet Hf infection_no_standalone).
  reflexivity.
Qed.

(** Claim C1, as amended.  For the raw answer made of the lines
    [Reasoning...], [Final answer:], [CSF Leak: No], [Infection: No] and
    [Facial Palsy: Yes - mild, resolved in days], [extract_bullet_points]
    returns the record that maps CSF Leak to No, Infection to No and Facial
    Palsy to Yes: exactly these three entries, the value of Facial Palsy
    being the bare token, without the text that follows it on the line. *)
Theorem scenario_record :
  extract_bullet_points scenario_answer
  = <[u{"CSF Leak"} := u{"No"}]>
      (<[u{"Infection"} := u{"No"}]>
         (<[u{"Facial Palsy"} := u{"Yes"}]> ∅)).
Proof. vm_compute. reflexivity. Qed.

(** Claim C1, as stated, fails: the value stored for Facial Palsy does not
    contain the annotation [mild, resolved in days]. *)
Lemma scenario_annotation_dropped :
  ~ (extract_bullet_points scenario_answer !! u{"CSF Leak"} = Some u{"No"}
     /\ extract_bullet_points scenario_answer !! u{"Infection"} = Some u{"No"}
     /\ exists v,
          extract_bullet_points scenario_answer !! u{"Facial Palsy"} = Some v
          /\ Py.startswith u{"Yes"} v = true
          /\ Py.contains u{"mild, resolved in days"} v = true).
Proof.
  intros (_ & _ & v & Hv & _ & Hc).
  vm_compute in Hv. injection Hv as <-.
  vm_compute in Hc. discriminate Hc.
Qed.

(** Claim C3, as amended.  The bullet lines [- Taubheit: Ja] and
    [- Facial Numbness: Yes], each given alone, produce the same record,
    Facial Numbness with the value Yes; the line [- Numbness: Yes] alone
    produces the empty record. *)
Theorem bilingual_numbness :
  extract_bullet_points u{"- Taubheit: Ja"} = {[ u{"Facial Numbness"} := u{"Yes"} ]}
  /\ extract_bullet_points u{"- Facial Numbness: Yes"}
     = {[ u{"Facial Numbness"} := u{"Yes"} ]}
  /\ extract_bullet_points u{"- Numbness: Yes"} = ∅.
Proof. repeat split; vm_compute; reflexivity. Qed.

(** Claim C3, as stated, fails: [- Numbness: Yes] does not yield the entry
    Facial Numbness. *)
Lemma numbness_alone_unrecognized :
  ~ (extract_bullet_points u{"- Taubheit: Ja"} !! u{"Facial Numbness"} = Some u{"Yes"}
     /\ extract_bullet_points u{"- Numbness: Yes"} !! u{"Facial Numbness"} = Some u{"Yes"}).
Proof. intros [_ H]. vm_compute in H. discriminate H. Qed.

End PostOP_Claude_Facts.

(** ** Pre-operative normalizer *)

Module PreOP_Gemini_Facts.
Import Normalizer PreOP_Gemini.

(** Case analysis on the tests of an if-chain in the goal. *)
Ltac chain :=
  repeat match goal with
  | |- context [if ?b then _ else _] => destruct b
  end.

Lemma standardize_range (phrase k : str) :
  standardize_variable_name phrase = Some k -> In k canonical_names.
Proof.
  unfold standardize_variable_name, canonical_names.
  chain; intros [= <-]; simpl; tauto.
Qed.

Lemma canonical_reached (k : str) :
  In k canonical_names -> exists phrase, standardize_variable_name phrase = Some k.
Proof.
  unfold canonical_names. simpl.
  intros [<-|[<-|[<-|[<-|[<-|[<-|[]]]]]]].
  - exists u{"sudden"}. reflexivity.
  - exists u{"taub"}. reflexivity.
  - exists u{"vertigo"}. reflexivity.
  - exists u{"tear"}. reflexivity.
  - exists u{"spasm"}. reflexivity.
  - exists u{"other"}. reflexivity.
Qed.

Lemma canonical_has_upper (phrase k : str) :
  standardize_variable_name phrase = Some k -> Py.has_upper k = true.
Proof.
  intros H. apply standardize_range in H. unfold canonical_names in H. simpl in H.
  destruct H as [<-|[<-|[<-|[<-|[<-|[<-|[]]]]]]]; reflexivity.
Qed.

Lemma loop_reaches_invariant (lines : list str) :
  invariant (loop standardize_variable_name initial lines).
Proof.
  apply (NormalizerFacts.loop_invariant _ canonical_has_upper),
    NormalizerFacts.invariant_initial.
Qed.

(** Claim C4: what the code does.  For the answer [- Vertigo: Yes] followed
    by the line [only when standing up] the record is Vertigo with the value
    Yes, and the following line is not appended to it.  In general, after any
    lines, a line that is neither the marker nor of the bullet shape nor, in
    the final-answer section, of the standalone shape leaves the whole
    record as it was: the branch that should append the line looks the
    lower-cased label up among keys that are canonical names, and never
    finds it. *)
Theorem explanation_not_appended :
  extract_bullet_points explained_answer = {[ u{"Vertigo"} := u{"Yes"} ]}
  /\ forall (lines : list str) (line : str),
       is_marker line = false ->
       Re.re_match true bullet_point_pattern (Py.strip line) = None ->
       (in_final_answer_section (loop standardize_variable_name initial lines) = true ->
        Re.re_match true standalone_answer_pattern (Py.strip line) = None) ->
       step (loop standardize_variable_name initial lines) line
       = loop standardize_variable_name initial lines.
Proof.
  split; [vm_compute; reflexivity|].
  intros lines line Hm Hb Hs.
  destruct (in_final_answer_section (loop standardize_variable_name initial lines)) eqn:Hf.
  - unfold step, Normalizer.step. unfold is_marker in Hm.
    rewrite Hm, Hb, Hf, (Hs eq_refl). reflexivity.
  - apply NormalizerFacts.step_unmatched; auto using loop_reaches_invariant.
Qed.

(** The general part of [explanation_not_appended] at the lines of
    [explained_answer]. *)
Lemma explanation_not_appended_witness :
  step (loop standardize_variable_name initial [u{"- Vertigo: Yes"}])
       u{"only when standing up"}
  = loop standardize_variable_name initial [u{"- Vertigo: Yes"}].
Proof.
  apply (proj2 explanation_not_appended [u{"- Vertigo: Yes"}] u{"only when standing up"}).
  - vm_compute. reflexivity.
  - vm_compute. reflexivity.
  - intros H. vm_compute in H. discriminate H.
Defined.

(** Claim C5.  Every key of the record [extract_bullet_points] returns is a
    canonical name, one that [standardize_variable_name] returns for some
    phrase; a step of the loop, whatever branch it takes, adds no key that is
    not a canonical name; and a line of the bullet or of the standalone shape
    whose label the taxonomy does not know leaves the record as it was. *)
Theorem keys_are_canonical :
  (forall text k,
     is_Some (extract_bullet_points text !! k) ->
     In k canonical_names /\ exists phrase, standardize_variable_name phrase = Some k)
  /\ (forall st line k,
        is_Some (relevant_points (step st line) !! k) ->
        is_Some (relevant_points st !! k) \/ In k canonical_names)
  /\ (forall st line m,
        is_marker line = false ->
        Re.re_match true bullet_point_pattern (Py.strip line) = Some m ->
        standardize_variable_name (Py.lower (Py.strip (Re.group 1 m))) = None ->
        relevant_points (step st line) = relevant_points st)
  /\ (forall st line m,
        is_marker line = false ->
        Re.re_match true bullet_point_pattern (Py.strip line) = None ->
        in_final_answer_section st = true ->
        Re.re_match true standalone_answer_pattern (Py.strip line) = Some m ->
        standardize_variable_name (Py.lower (Py.strip (Re.group 1 m))) = None ->
        relevant_points (step st line) = relevant_points st).
Proof.
  repeat split.
  - unfold extract_bullet_points, Normalizer.extract_bullet_points in H.
    apply NormalizerFacts.loop_keys in H as [[v Hv]|[p Hp]].
    + simpl in Hv. rewrite lookup_empty in Hv. discriminate Hv.
    + eapply standardize_range, Hp.
  - unfold extract_bullet_points, Normalizer.extract_bullet_points in H.
    apply NormalizerFacts.loop_keys in H as [[v Hv]|Hp]; [|exact Hp].
    simpl in Hv. rewrite lookup_empty in Hv. discriminate Hv.
  - intros st line k H. apply NormalizerFacts.step_keys in H as [H|[p Hp]]; [auto|].
    right. eapply standardize_range, Hp.
  - intros st line m Hm Hb Hn. unfold step, Normalizer.step. unfold is_marker in Hm.
    rewrite Hm, Hb, Hn. reflexivity.
  - intros st line m Hm Hb Hf Hs Hn. unfold step.
    rewrite (NormalizerFacts.step_standalone _ st line m Hm Hb Hf Hs), Hn. reflexivity.
Qed.

(** [keys_are_canonical] at a bullet whose label, Headache, is not in the
    taxonomy. *)
Lemma keys_are_canonical_witness :
  relevant_points (step initial u{"- Headache: Yes"}) = relevant_points initial.
Proof.
  apply (proj1 (proj2 (proj2 keys_are_canonical)) initial u{"- Headache: Yes"}
           [(2%nat, u{"Yes"}); (1%nat, u{"Headache"})]).
  - vm_compute. reflexivity.
  - vm_compute. reflexivity.
  - vm_compute. reflexivity.
Defined.

(** Order sensitivity.  A bullet line whose label the taxonomy knows sets
    the entry of its canonical name to its own value, whatever the record
    held before: of two lines for one variable the later one wins.  So the
    answer [- Vertigo: Yes] followed by [- Dizziness: Nein] gives Vertigo the
    value No. *)
Theorem later_line_wins :
  (forall st line m k,
     is_marker line = false ->
     Re.re_match true bullet_point_pattern (Py.strip line) = Some m ->
     standardize_variable_name (Py.lower (Py.strip (Re.group 1 m))) = Some k ->
     relevant_points (step st line) !! k
     = Some (normalize_german (Py.strip (Re.group 2 m))))
  /\ extract_bullet_points (join_lines [u{"- Vertigo: Yes"}; u{"- Dizziness: Nein"}])
     = {[ u{"Vertigo"} := u{"No"} ]}.
Proof.
  split; [|vm_compute; reflexivity].
  intros st line m k Hm Hb Hk. unfold step, Normalizer.step. unfold is_marker in Hm.
  rewrite Hm, Hb, Hk. cbn [relevant_points store].
  assert (Ht : Py.truthy k = true).
  { apply standardize_range in Hk. unfold canonical_names in Hk. simpl in Hk.
    destruct Hk as [<-|[<-|[<-|[<-|[<-|[<-|[]]]]]]]; reflexivity. }
  rewrite Ht. apply lookup_insert_eq.
Qed.

(** [later_line_wins] at a record that holds Vertigo already. *)
Lemma later_line_wins_witness :
  relevant_points
    (step (step initial u{"- Vertigo: Yes"}) u{"- Dizziness: Nein"}) !! u{"Vertigo"}
  = Some u{"No"}.
Proof.
  exact (proj1 later_line_wins (step initial u{"- Vertigo: Yes"}) u{"- Dizziness: Nein"}
           [(2%nat, u{"Nein"}); (1%nat, u{"Dizziness"})] u{"Vertigo"}
           eq_refl eq_refl eq_refl).
Defined.

End PreOP_Gemini_Facts.

(** ** The taxonomies *)

Module TaxonomyFacts.
Import Taxonomy.

Ltac chain_in H :=
  repeat match type of H with
  | context [if ?b then _ else _] => destruct b
  end.

Lemma preop_first_match (phrase : str) :
  PreOP_Gemini.standardize_variable_name phrase = canonicalize preop_rules phrase.
Proof.
  unfold PreOP_Gemini.standardize_variable_name, canonicalize, first_match,
    preop_rules, rule_matches.
  cbn [List.find existsb fst snd]. rewrite !orb_false_r.
  PreOP_Gemini_Facts.chain; reflexivity.
Qed.

Lemma postop_first_match (phrase : str) :
  PostOP_Claude.standardize_variable_name phrase = canonicalize postop_rules phrase.
Proof.
  unfold PostOP_Claude.standardize_variable_name, canonicalize, first_match,
    postop_rules, rule_matches.
  cbn [List.find existsb fst snd]. rewrite !orb_false_r.
  PreOP_Gemini_Facts.chain; reflexivity.
Qed.

Lemma discourse_first_match (phrase : str) :
  DisCourse_local.standardize_variable_name phrase =
    if Py.eqb (Py.strip (Py.lower phrase)) u{"free of pain after second surgery"}
    then Some u{"Free of pain after second surgery"}
    else if Py.eqb (Py.strip (Py.lower phrase)) u{"recurrence after second surgery"}
    then Some u{"Recurrence after second surgery"}
    else first_match discourse_rules (Py.strip (Py.lower phrase)).
Proof.
  unfold DisCourse_local.standardize_variable_name, first_match,
    discourse_rules, rule_matches.
  cbn [List.find existsb fst snd]. rewrite !orb_false_r, <- !orb_assoc.
  PreOP_Gemini_Facts.chain; reflexivity.
Qed.

Lemma postop_idempotent (phrase c : str) :
  PostOP_Claude.standardize_variable_name phrase = Some c ->
  PostOP_Claude.standardize_variable_name c = Some c.
Proof.
  unfold PostOP_Claude.standardize_variable_name at 1. intros H.
  chain_in H; first [discriminate H | injection H as <-; vm_compute; reflexivity].
Qed.

Lemma discourse_idempotent (phrase c : str) :
  DisCourse_local.standardize_variable_name phrase = Some c ->
  DisCourse_local.standardize_variable_name c = Some c.
Proof.
  unfold DisCourse_local.standardize_variable_name at 1. intros H.
  chain_in H; first [discriminate H | injection H as <-; vm_compute; reflexivity].
Qed.

Lemma preop_idempotent (phrase c : str) :
  PreOP_Gemini.standardize_variable_name phrase = Some c ->
  c <> u{"Trigeminal Pain"} ->
  PreOP_Gemini.standardize_variable_name c = Some c.
Proof.
  unfold PreOP_Gemini.standardize_variable_name at 1. intros H Hne.
  chain_in H;
    first [ discriminate H
          | injection H as <-;
            first [vm_compute; reflexivity | exfalso; apply Hne; reflexivity] ].
Qed.

(** Claim C9, as amended.  [standardize_variable_name] is a function of the
    phrase alone.  In the pre- and post-operative scripts it lower-cases the
    phrase and returns the canonical name of the first rule of the ordered
    list one of whose fragments is a substring of the phrase, and nothing when
    no rule matches.  In the disease-course script it lower-cases and strips
    the phrase, first compares the whole phrase with two names of the second
    surgery, and only then goes through the ordered substring rules.  Applied
    to a name it returns, it returns that name again in the post-operative and
    disease-course scripts, and in the pre-operative script for every name
    but Trigeminal Pain, for which it returns nothing. *)
Theorem taxonomy_first_match :
  (forall phrase,
     PreOP_Gemini.standardize_variable_name phrase = canonicalize preop_rules phrase)
  /\ (forall phrase,
        PostOP_Claude.standardize_variable_name phrase = canonicalize postop_rules phrase)
  /\ (forall phrase,
        DisCourse_local.standardize_variable_name phrase =
          if Py.eqb (Py.strip (Py.lower phrase)) u{"free of pain after second surgery"}
          then Some u{"Free of pain after second surgery"}
          else if Py.eqb (Py.strip (Py.lower phrase)) u{"recurrence after second surgery"}
          then Some u{"Recurrence after second surgery"}
          else first_match discourse_rules (Py.strip (Py.lower phrase)))
  /\ (forall phrase c,
        PostOP_Claude.standardize_variable_name phrase = Some c ->
        PostOP_Claude.standardize_variable_name c = Some c)
  /\ (forall phrase c,
        DisCourse_local.standardize_variable_name phrase = Some c ->
        DisCourse_local.standardize_variable_name c = Some c)
  /\ (forall phrase c,
        PreOP_Gemini.standardize_variable_name phrase = Some c ->
        c <> u{"Trigeminal Pain"} ->
        PreOP_Gemini.standardize_variable_name c = Some c)
  /\ PreOP_Gemini.standardize_variable_name u{"Trigeminal Pain"} = None.
Proof.
  repeat apply conj.
  - exact preop_first_match.
  - exact postop_first_match.
  - exact discourse_first_match.
  - exact postop_idempotent.
  - exact discourse_idempotent.
  - exact preop_idempotent.
  - vm_compute. reflexivity.
Qed.

(** [taxonomy_first_match] at the phrase Dizziness of the pre-operative
    script, whose name Vertigo is a fixed point. *)
Lemma taxonomy_first_match_witness :
  PreOP_Gemini.standardize_variable_name u{"Vertigo"} = Some u{"Vertigo"}.
Proof.
  apply (proj1 (proj2 (proj2 (proj2 (proj2 (proj2 taxonomy_first_match)))))
           u{"Dizziness"} u{"Vertigo"}).
  - vm_compute. reflexivity.
  - intros H. vm_compute in H. discriminate H.
Defined.

(** Claim C9, as stated, fails twice.  The pre-operative taxonomy is not
    idempotent: it returns Trigeminal Pain for a phrase and nothing for
    Trigeminal Pain.  The disease-course taxonomy is not a list of substring
    rules: a phrase that contains [free of pain after second surgery] without
    being equal to it gets the name Second surgery, not the name that reading
    the whole table as fragments gives. *)
Lemma taxonomy_not_idempotent :
  ~ (forall phrase c,
       PreOP_Gemini.standardize_variable_name phrase = Some c ->
       PreOP_Gemini.standardize_variable_name c = Some c)
  /\ ~ (forall phrase,
          DisCourse_local.standardize_variable_name phrase
          = canonicalize discourse_rules_as_fragments phrase).
Proof.
  split.
  - intros Hidem.
    specialize (Hidem u{"Sudden Severe Facial Pain"} u{"Trigeminal Pain"}).
    vm_compute in Hidem. specialize (Hidem eq_refl). discriminate Hidem.
  - intros Hrules.
    specialize (Hrules u{"not free of pain after second surgery"}).
    vm_compute in Hrules. discriminate Hrules.
Qed.

Lemma discourse_not_substring_rules :
  DisCourse_local.standardize_variable_name u{"not free of pain after second surgery"}
  = Some u{"Second surgery"}
  /\ canonicalize discourse_rules_as_fragments u{"not free of pain after second surgery"}
     = Some u{"Free of pain after second surgery"}.
Proof. split; vm_compute; reflexivity. Qed.

End TaxonomyFacts.

(** ** The result accumulator *)

Module PandasFacts.
Import Pandas.

Lemma at_column_map (cols : list str) (f : str -> cell) (c : str) :
  In c cols -> at_column cols (List.map f cols) c = f c.
Proof.
  induction cols as [|c' cols IH]; simpl; [tauto|].
  intros Hin. destruct (Py.eqb c' c) eqn:E.
  - apply PyFacts.eqb_eq in E. subst. reflexivity.
  - destruct Hin as [->|Hin]; [|auto].
    assert (Py.eqb c c = true) by (apply PyFacts.eqb_eq; reflexivity). congruence.
Qed.

Lemma reindex_same (cols : list str) (f : str -> cell) :
  reindex cols cols (List.map f cols) = List.map f cols.
Proof.
  unfold reindex. apply map_ext_in. intros c Hc. apply at_column_map, Hc.
Qed.

Lemma no_new_columns (cols : list str) :
  List.filter (fun c => negb (existsb (Py.eqb c) cols)) cols = [].
Proof.
  assert (H : forall l, (forall c, In c l -> In c cols) ->
              List.filter (fun c => negb (existsb (Py.eqb c) cols)) l = []).
  { induction l as [|c l IH]; intros Hl; [reflexivity|]. simpl.
    assert (E : existsb (Py.eqb c) cols = true).
    { apply existsb_exists. exists c. split; [apply Hl; left; reflexivity|].
      apply PyFacts.eqb_eq. reflexivity. }
    rewrite E. simpl. apply IH. intros c' Hc'. apply Hl. right. exact Hc'. }
  apply H. auto.
Qed.

(** Appending a one-row frame with the same columns adds the row and changes
    nothing else. *)
Lemma concat_same_columns (cols : list str) (old : list (list cell)) (f : str -> cell) :
  Forall (laid_out cols) old ->
  concat {| columns := cols; rows := old |}
         {| columns := cols; rows := [List.map f cols] |}
  = {| columns := cols; rows := old ++ [List.map f cols] |}.
Proof.
  intros Hold. unfold concat. simpl.
  rewrite no_new_columns, app_nil_r. f_equal. f_equal.
  - induction Hold as [|row old [g ->] _ IH]; [reflexivity|].
    simpl. rewrite reindex_same, IH. reflexivity.
  - rewrite reindex_same. reflexivity.
Qed.

End PandasFacts.

Module AccumulatorFacts.
Import PreOP_Gemini.

(** Filling the missing columns with the empty marker does not change what
    a column reads as. *)
Lemma fill_lookup (cols : list str) (data : gmap (list N) Pandas.cell) (c : str) :
  default None
    (fold_left
       (fun data col =>
          match data !! col with
          | Some _ => data
          | None => <[col := None]> data
          end) cols data !! c)
  = default None (data !! c).
Proof.
  unfold Pandas.cell in *.
  revert data. induction cols as [|col cols IH]; intros data; [reflexivity|].
  simpl. rewrite IH. destruct (data !! col) eqn:E; [reflexivity|].
  destruct (decide (col = c)) as [Heq|Hne].
  - subst c. rewrite lookup_insert_eq, E. reflexivity.
  - rewrite lookup_insert_ne by exact Hne. reflexivity.
Qed.








End AccumulatorFacts.

(** ** The pre-operative scheduler *)

Module SchedulerFacts.
Import PreOP_Gemini.

Lemma output_file_not_global (cfg : config) :
  module_scope cfg !! "output_file"%string = None.
Proof. reflexivity. Qed.

Lemma timed_app (a b : list event) : timed (a ++ b) = timed a ++ timed b.
Proof. unfold timed. apply List.filter_app. Qed.

Section Run.

Variable env : environment.
Variable cfg : config.

(** What one call of [process_and_run_llm_for_subfolder] does: the request
    takes its time; a failed request is reported and the call returns; an
    answered request ends in the [NameError] of [output_file], before
    anything is saved or printed. *)
Lemma process_run (i : nat) (path api_key model : str) (w : world) :
  process_and_run_llm_for_subfolder env cfg i path api_key model w =
    match generate_content env i path with
    | inl e =>
        (Returned tt,
         {| now := (now w + latency env i path)%Z; files := files w;
            trace := trace w ++ [Print (ErrorProcessing (Os.basename path) e)] |})
    | inr _ =>
        (Raised (NameError "output_file"),
         {| now := (now w + latency env i path)%Z; files := files w;
            trace := trace w |})
    end.
Proof.
  unfold process_and_run_llm_for_subfolder, bind, call_generate_content.
  destruct (generate_content env i path) as [e|text]; [reflexivity|].
  unfold load_global. rewrite output_file_not_global. reflexivity.
Qed.

(** What the rate-limit pause does: it sleeps for what is left of 61 units
    since [start_time], if anything is left, and returns the clock reading
    after that. *)
Lemma pause_run (start_time : Z) (w : world) :
  pause start_time w =
    (Returned (Z.max (now w) (start_time + 61)),
     {| now := Z.max (now w) (start_time + 61); files := files w;
        trace := trace w ++
                 if (0 <? 61 - (now w - start_time))%Z
                 then [Print (RateLimitReached (61 - (now w - start_time)));
                       Sleep (61 - (now w - start_time))]
                 else [] |}).
Proof.
  unfold pause, bind, time, print, emit, sleep, ret. simpl.
  destruct (Z.ltb_spec 0 (61 - (now w - start_time))) as [H|H]; simpl.
  - rewrite <- app_assoc. simpl.
    replace (now w + (61 - (now w - start_time)))%Z
      with (Z.max (now w) (start_time + 61)) by lia.
    reflexivity.
  - rewrite app_nil_r. replace (Z.max (now w) (start_time + 61)) with (now w) by lia.
    destruct w; reflexivity.
Qed.

Hypothesis quota_positive : (0 < rate_limit cfg)%nat.

(** A visit whose request fails returns; one whose request is answered
    raises.  Neither touches the workbooks. *)
Lemma visit_outcome (i : nat) (start_time : Z) (j : nat) (subfolder : str) (w : world) :
  files (snd (visit env cfg i start_time (j, subfolder) w)) = files w
  /\ match generate_content env i (Os.path_join (main_folder cfg) subfolder) with
     | inl _ => exists s', fst (visit env cfg i start_time (j, subfolder) w) = Returned s'
     | inr _ => fst (visit env cfg i start_time (j, subfolder) w)
                = Raised (NameError "output_file")
     end.
Proof.
  unfold visit, bind, time, emit. simpl. rewrite process_run.
  destruct (generate_content env i _) as [e|text]; simpl; [|auto].
  destruct (rate_limit cfg) as [|q] eqn:Hq; [lia|].
  destruct (j mod S q =? 0)%nat.
  - rewrite pause_run. simpl. eauto.
  - unfold ret. simpl. eauto.
Qed.

Hypothesis latency_nonneg : forall i path, (0 <= latency env i path)%Z.

(** One visit, as the trace and the clock see it. *)
Lemma visit_spec (i : nat) (start_time : Z) (j : nat) (subfolder : str) (w : world) :
  exists rest,
    trace (snd (visit env cfg i start_time (j, subfolder) w))
    = trace w ++ Invoke i j (now w) :: rest
    /\ (forall i' j' t', ~ In (Invoke i' j' t') rest)
    /\ (now w <= now (snd (visit env cfg i start_time (j, subfolder) w)))%Z
    /\ ((start_time <= now w)%Z -> sleeps_bounded rest)
    /\ forall s',
         fst (visit env cfg i start_time (j, subfolder) w) = Returned s' ->
         ((j mod rate_limit cfg = 0)%nat ->
            s' = now (snd (visit env cfg i start_time (j, subfolder) w))
            /\ (start_time + 61 <= s')%Z)
         /\ ((j mod rate_limit cfg <> 0)%nat -> s' = start_time)
         /\ ((start_time <= now w)%Z ->
             (s' <= now (snd (visit env cfg i start_time (j, subfolder) w)))%Z).
Proof.
  pose proof (latency_nonneg i (Os.path_join (main_folder cfg) subfolder)) as Hlat.
  unfold visit, bind, time, emit. simpl. rewrite process_run.
  destruct (generate_content env i _) as [e|text]; simpl.
  - destruct (rate_limit cfg) as [|q] eqn:Hq; [lia|].
    destruct (Nat.eqb_spec (j mod S q) 0) as [Hj|Hj].
    + rewrite pause_run. simpl.
      destruct (Z.ltb_spec 0 (61 - (now w + latency env i (Os.path_join (main_folder cfg) subfolder) - start_time))) as [Hr|Hr].
      * eexists. split; [rewrite <- !app_assoc; reflexivity|]. simpl.
        split; [intros i' j' t' [H|[H|[H|[]]]]; discriminate H|].
        split; [lia|].
        split; [intros Hs x [H|[H|[H|[]]]]; try discriminate H; injection H as <-; lia|].
        intros s' [= <-]. repeat split; intros; try lia; simpl in Hj; congruence.
      * eexists. split; [rewrite app_nil_r, <- !app_assoc; reflexivity|]. simpl.
        split; [intros i' j' t' [H|[]]; discriminate H|].
        split; [lia|].
        split; [intros Hs x [H|[]]; discriminate H|].
        intros s' [= <-]. repeat split; intros; try lia; simpl in Hj; congruence.
    + unfold ret. simpl.
      eexists. split; [rewrite <- !app_assoc; reflexivity|]. simpl.
      split; [intros i' j' t' [H|[]]; discriminate H|].
      split; [lia|].
      split; [intros Hs x [H|[]]; discriminate H|].
      intros s' [= <-]. repeat split; intros; try lia; simpl in Hj; congruence.
  - exists []. split; [reflexivity|].
    split; [intros i' j' t' []|].
    split; [lia|].
    split; [intros Hs x []|].
    intros s' H. discriminate H.
Qed.

(** The inner loop from position [S p] on: where its calls are in time. *)
Lemma loop_spec (i : nat) (l : list str) :
  forall (p : nat) (start_time : Z) (w : world),
    (start_time <= now w)%Z ->
    ((p mod rate_limit cfg = 0)%nat -> start_time = now w) ->
    exists events,
      trace (snd (for_each (visit env cfg i) (combine (seq (S p) (length l)) l) start_time w))
      = trace w ++ events
      /\ (forall i' j t, In (Invoke i' j t) events ->
            i' = i /\ (S p <= j)%nat /\ (now w <= t)%Z)
      /\ (forall i' j t m, In (Invoke i' j t) events ->
            (S p <= m)%nat -> (m < j)%nat -> (m mod rate_limit cfg = 0)%nat ->
            (start_time + 61 <= t)%Z)
      /\ gap_respected (rate_limit cfg) events
      /\ sleeps_bounded events
      /\ (now w <= now (snd (for_each (visit env cfg i)
                                (combine (seq (S p) (length l)) l) start_time w)))%Z.
Proof.
  induction l as [|subfolder l IH]; intros p start_time w Hstart Hwindow.
  - exists []. simpl. rewrite app_nil_r.
    repeat split; try (intros; contradiction); try lia.
    intros i' k t1 t2 [].
  - cbn [length seq combine for_each]. unfold bind.
    destruct (visit_spec i start_time (S p) subfolder w)
      as (rest & Htrace & Hnone & Hclock & Hsleep & Hret).
    destruct (visit env cfg i start_time (S p, subfolder) w) as [[s'|e] w1] eqn:Hv;
      cbn [fst snd] in *.
    + destruct (Hret s' eq_refl) as (Hdue & Hnot & Hle).
      destruct (IH (S p) s' w1 (Hle Hstart)) as (events & Et & E1 & E2 & E3 & E4 & E5).
      { intros Hp. apply Hdue, Hp. }
      exists (Invoke i (S p) (now w) :: rest ++ events).
      assert (Hin : forall x, In x (Invoke i (S p) (now w) :: rest ++ events) ->
                      x = Invoke i (S p) (now w) \/ In x rest \/ In x events).
      { intros x [H|H]; [auto|]. apply in_app_or in H. tauto. }
      assert (A1 : forall i' j t, In (Invoke i' j t) (Invoke i (S p) (now w) :: rest ++ events) ->
                     i' = i /\ (S p <= j)%nat /\ (now w <= t)%Z).
      { intros i' j t H. apply Hin in H as [H|[H|H]].
        - injection H as -> -> ->. repeat split; lia.
        - exfalso. exact (Hnone _ _ _ H).
        - destruct (E1 _ _ _ H) as (-> & ? & ?). repeat split; lia. }
      assert (A2 : forall i' j t m, In (Invoke i' j t) (Invoke i (S p) (now w) :: rest ++ events) ->
                     (S p <= m)%nat -> (m < j)%nat -> (m mod rate_limit cfg = 0)%nat ->
                     (start_time + 61 <= t)%Z).
      { intros i' j t m H Hm1 Hm2 Hm3. apply Hin in H as [H|[H|H]].
        - injection H as -> -> ->. lia.
        - exfalso. exact (Hnone _ _ _ H).
        - destruct (Nat.eq_dec (S p mod rate_limit cfg)%nat 0%nat) as [Hz|Hz].
          + destruct (Hdue Hz) as [-> ?]. destruct (E1 _ _ _ H) as (_ & _ & ?). lia.
          + rewrite <- (Hnot Hz).
            apply (E2 i' j t m H); [|assumption|assumption].
            destruct (Nat.eq_dec m (S p)) as [->|?]; [contradiction | lia]. }
      split; [rewrite Et, Htrace, <- app_assoc; reflexivity|].
      split; [exact A1|]. split; [exact A2|].
      split; [|split].
      * intros i' k t1 t2 H1 H2.
        apply Hin in H1 as [H1|[H1|H1]]; [|exfalso; exact (Hnone _ _ _ H1)|].
        -- injection H1 as -> Hk ->.
           assert (Hp : (p mod rate_limit cfg = 0)%nat).
           { replace p with (k * rate_limit cfg)%nat by lia. apply Nat.Div0.mod_mul. }
           rewrite <- (Hwindow Hp).
           apply (A2 i ((k + 1) * rate_limit cfg + 1)%nat t2 ((k + 1) * rate_limit cfg)%nat H2);
             [lia | lia | apply Nat.Div0.mod_mul].
        -- apply Hin in H2 as [H2|[H2|H2]]; [|exfalso; exact (Hnone _ _ _ H2)|].
           ++ injection H2 as -> Hk ->. destruct (E1 _ _ _ H1) as (_ & ? & _). lia.
           ++ exact (E3 _ _ _ _ H1 H2).
      * intros x H. apply Hin in H as [H|[H|H]]; [discriminate H | |].
        -- exact (Hsleep Hstart x H).
        -- exact (E4 x H).
      * eapply Z.le_trans; [exact Hclock | exact E5].
    + exists (Invoke i (S p) (now w) :: rest).
      assert (A1 : forall i' j t, In (Invoke i' j t) (Invoke i (S p) (now w) :: rest) ->
                     i' = i /\ j = S p /\ t = now w).
      { intros i' j t [H|H]; [injection H as -> -> ->; auto|].
        exfalso. exact (Hnone _ _ _ H). }
      split; [exact Htrace|].
      split; [intros i' j t H; destruct (A1 _ _ _ H) as (-> & -> & ->); repeat split; lia|].
      split; [intros i' j t m H; destruct (A1 _ _ _ H) as (-> & -> & ->); lia|].
      split; [|split].
      * intros i' k t1 t2 H1 H2.
        destruct (A1 _ _ _ H1) as (_ & Hk1 & _). destruct (A1 _ _ _ H2) as (_ & Hk2 & _). lia.
      * intros x [H|H]; [discriminate H|]. exact (Hsleep Hstart x H).
      * exact Hclock.
Qed.

Lemma iteration_spec (l : list str) (i : nat) (w : world) :
  exists events,
    trace (snd (iteration env cfg l i w)) = trace w ++ events
    /\ (forall i' j t, In (Invoke i' j t) events -> i' = i)
    /\ gap_respected (rate_limit cfg) events
    /\ sleeps_bounded events
    /\ (now w <= now (snd (iteration env cfg l i w)))%Z.
Proof.
  unfold iteration, bind, time, print, emit, enumerate. cbn [fst snd].
  set (w0 := {| now := now w; files := files w;
                trace := trace w ++ [Print (StartingIteration i (iteration_n cfg))] |}).
  destruct (loop_spec i l 0 (now w) w0) as (events & Et & E1 & _ & E3 & E4 & E5).
  { simpl. lia. }
  { intros _. reflexivity. }
  destruct (for_each (visit env cfg i) (combine (seq 1 (length l)) l) (now w) w0)
    as [[s'|e] w1]; cbn [fst snd] in *.
  - exists (Print (StartingIteration i (iteration_n cfg)) :: events
            ++ [Print (IterationCompleted i (output_file_of cfg i))]).
    split; [rewrite Et; subst w0; cbn [trace]; rewrite <- !app_assoc; reflexivity|].
    assert (Hin : forall i' j t,
              In (Invoke i' j t)
                 (Print (StartingIteration i (iteration_n cfg)) :: events
                  ++ [Print (IterationCompleted i (output_file_of cfg i))]) ->
              In (Invoke i' j t) events).
    { intros i' j t [H|H]; [discriminate H|].
      apply in_app_or in H as [H|[H|[]]]; [exact H | discriminate H]. }
    split; [intros i' j t H; apply Hin in H; apply (E1 _ _ _ H)|].
    split; [intros i' k t1 t2 H1 H2; apply Hin in H1, H2; exact (E3 _ _ _ _ H1 H2)|].
    split; [|exact E5].
    intros x [H|H]; [discriminate H|].
    apply in_app_or in H as [H|[H|[]]]; [exact (E4 x H) | discriminate H].
  - exists (Print (StartingIteration i (iteration_n cfg)) :: events).
    split; [rewrite Et; subst w0; cbn [trace]; rewrite <- !app_assoc; reflexivity|].
    split; [intros i' j t [H|H]; [discriminate H | apply (E1 _ _ _ H)]|].
    split; [intros i' k t1 t2 [H1|H1] [H2|H2]; try discriminate; exact (E3 _ _ _ _ H1 H2)|].
    split; [|exact E5].
    intros x [H|H]; [discriminate H | exact (E4 x H)].
Qed.

Lemma passes_spec (l : list str) (n : nat) :
  forall (a : nat) (w : world),
    exists events,
      trace (snd (for_each (fun _ i => iteration env cfg l i) (seq a n) tt w))
      = trace w ++ events
      /\ (forall i j t, In (Invoke i j t) events -> (a <= i)%nat)
      /\ gap_respected (rate_limit cfg) events
      /\ sleeps_bounded events.
Proof.
  induction n as [|n IH]; intros a w.
  - exists []. simpl. rewrite app_nil_r.
    repeat split; try (intros; contradiction). intros i k t1 t2 [].
  - cbn [seq for_each]. unfold bind.
    destruct (iteration_spec l a w) as (ev1 & Et1 & I1 & G1 & S1 & _).
    destruct (iteration env cfg l a w) as [[[]|e] w1]; cbn [fst snd] in *.
    + destruct (IH (S a) w1) as (ev2 & Et2 & I2 & G2 & S2).
      exists (ev1 ++ ev2).
      split; [rewrite Et2, Et1, <- app_assoc; reflexivity|].
      split; [|split].
      * intros i j t H. apply in_app_or in H as [H|H].
        -- rewrite (I1 _ _ _ H). lia.
        -- specialize (I2 _ _ _ H). lia.
      * intros i k t1 t2 H1 H2.
        apply in_app_or in H1 as [H1|H1]; apply in_app_or in H2 as [H2|H2].
        -- exact (G1 _ _ _ _ H1 H2).
        -- pose proof (I1 _ _ _ H1). specialize (I2 _ _ _ H2). lia.
        -- pose proof (I1 _ _ _ H2). specialize (I2 _ _ _ H1). lia.
        -- exact (G2 _ _ _ _ H1 H2).
      * intros x H. apply in_app_or in H as [H|H]; [exact (S1 x H) | exact (S2 x H)].
    + exists ev1. split; [exact Et1|].
      split; [intros i j t H; rewrite (I1 _ _ _ H); lia|]. split; assumption.
Qed.

Lemma window_full (p : nat) :
  (S (p mod rate_limit cfg) =? rate_limit cfg)%nat = (S p mod rate_limit cfg =? 0)%nat.
Proof.
  pose proof (Nat.mod_upper_bound p (rate_limit cfg) ltac:(lia)) as Hlt.
  replace (S p) with (p + 1)%nat by lia.
  rewrite <- Nat.Div0.add_mod_idemp_l.
  destruct (Nat.eqb_spec (S (p mod rate_limit cfg)) (rate_limit cfg)) as [E|E].
  - replace (p mod rate_limit cfg + 1)%nat with (rate_limit cfg) by lia.
    rewrite Nat.Div0.mod_same. reflexivity.
  - rewrite Nat.mod_small by lia. symmetry. apply Nat.eqb_neq. lia.
Qed.

Lemma window_open (p : nat) :
  (S p mod rate_limit cfg =? 0)%nat = false ->
  (S p mod rate_limit cfg)%nat = S (p mod rate_limit cfg).
Proof.
  intros H. rewrite <- window_full in H. apply Nat.eqb_neq in H.
  pose proof (Nat.mod_upper_bound p (rate_limit cfg) ltac:(lia)) as Hlt.
  replace (S p) with (p + 1)%nat by lia.
  rewrite <- Nat.Div0.add_mod_idemp_l. rewrite Nat.mod_small by lia. lia.
Qed.

(** One visit, in full. *)
Lemma visit_in_full (i : nat) (start_time : Z) (j : nat) (subfolder : str) (w : world) :
  visit env cfg i start_time (j, subfolder) w
  = let path := Os.path_join (main_folder cfg) subfolder in
    match generate_content env i path with
    | inl e =>
        let w1 := {| now := (now w + latency env i path)%Z; files := files w;
                     trace := trace w ++ [Invoke i j (now w);
                                          Print (ErrorProcessing (Os.basename path) e)] |} in
        if (j mod rate_limit cfg =? 0)%nat then pause start_time w1
        else (Returned start_time, w1)
    | inr _ =>
        (Raised (NameError "output_file"),
         {| now := (now w + latency env i path)%Z; files := files w;
            trace := trace w ++ [Invoke i j (now w)] |})
    end.
Proof.
  unfold visit, bind, time, emit. cbn [fst snd]. rewrite process_run.
  cbn [now files trace].
  destruct (generate_content env i _) as [e|text]; [|reflexivity].
  rewrite <- app_assoc. cbn [app].
  destruct (rate_limit cfg) as [|q] eqn:Hq; [lia|].
  destruct (j mod S q =? 0)%nat; reflexivity.
Qed.

Lemma for_each_cons {A S : Type} (body : S -> A -> M S) (x : A) (xs : list A) (s : S)
    (w : world) :
  for_each body (x :: xs) s w
  = match body s x w with
    | (Returned s', w') => for_each body xs s' w'
    | (Raised e, w') => (Raised e, w')
    end.
Proof. reflexivity. Qed.

(** The inner loop from position [S p] on, against the pass as specified
    with [p mod rate_limit] calls made in the current window. *)
Lemma loop_timed (i : nat) (l : list str) :
  forall (p : nat) (start_time : Z) (w : world),
    let entries := combine (seq (S p) (length l)) l in
    let specified :=
      pass_as_specified 61 (rate_limit cfg) i
        (List.map (fun entry =>
                     (fst entry,
                      latency env i (Os.path_join (main_folder cfg) (snd entry))))
                  entries)
        (p mod rate_limit cfg) (now w) start_time in
    exists events,
      trace (snd (for_each (visit env cfg i) entries start_time w)) = trace w ++ events
      /\ timed events `prefix_of` fst specified
      /\ ((exists s', fst (for_each (visit env cfg i) entries start_time w) = Returned s') ->
          timed events = fst specified
          /\ now (snd (for_each (visit env cfg i) entries start_time w)) = snd specified).
Proof.
  induction l as [|x l IH]; intros p start_time w; cbn zeta.
  - exists []. cbn. rewrite app_nil_r. split; [reflexivity|]. split; [reflexivity|]. auto.
  - cbn [length seq combine List.map pass_as_specified fst snd].
    rewrite for_each_cons, visit_in_full. cbn zeta.
    rewrite window_full.
    set (lat := latency env i (Os.path_join (main_folder cfg) x)).
    destruct (generate_content env i (Os.path_join (main_folder cfg) x)) as [e|text].
    + destruct (S p mod rate_limit cfg =? 0)%nat eqn:Hfull.
      * rewrite pause_run. cbn [now files trace].
        set (paused := if (0 <? 61 - (now w + lat - start_time))%Z
                       then [Print (RateLimitReached (61 - (now w + lat - start_time)));
                             Sleep (61 - (now w + lat - start_time))]
                       else []).
        set (w2 := {| now := Z.max (now w + lat) (start_time + 61); files := files w;
                      trace := _ |}).
        specialize (IH (S p) (Z.max (now w + lat) (start_time + 61)) w2).
        cbn zeta in IH. apply Nat.eqb_eq in Hfull. rewrite Hfull in IH.
        destruct IH as (events & Ht & Hpre & Hret).
        assert (Hclock : (if (now w + lat - start_time <? 61)%Z
                          then (now w + lat + (61 - (now w + lat - start_time)))%Z
                          else (now w + lat)%Z)
                         = Z.max (now w + lat) (start_time + 61)).
        { destruct (Z.ltb_spec (now w + lat - start_time) 61); lia. }
        rewrite Hclock.
        assert (Hpause : timed paused
                         = if (now w + lat - start_time <? 61)%Z
                           then [Sleep (61 - (now w + lat - start_time))] else []).
        { subst paused. destruct (Z.ltb_spec 0 (61 - (now w + lat - start_time)));
            destruct (Z.ltb_spec (now w + lat - start_time) 61); try lia; reflexivity. }
        exists ([Invoke i (S p) (now w);
                 Print (ErrorProcessing (Os.basename (Os.path_join (main_folder cfg) x)) e)]
                ++ paused ++ events).
        split.
        { rewrite Ht. subst w2. cbn [trace now]. rewrite <- !app_assoc. reflexivity. }
        rewrite !timed_app, Hpause.
        change (timed [Invoke i (S p) (now w);
                       Print (ErrorProcessing (Os.basename (Os.path_join (main_folder cfg) x)) e)])
          with [Invoke i (S p) (now w)].
        subst w2. cbn [now app] in *.
        split; [apply prefix_cons, prefix_app, Hpre|].
        intros Hs. destruct (Hret Hs) as [E1 E2]. rewrite E1, E2. auto.
      * set (w1 := {| now := (now w + lat)%Z; files := files w; trace := _ |}).
        specialize (IH (S p) start_time w1). cbn zeta in IH.
        rewrite (window_open p Hfull) in IH.
        destruct IH as (events & Ht & Hpre & Hret).
        exists ([Invoke i (S p) (now w);
                 Print (ErrorProcessing (Os.basename (Os.path_join (main_folder cfg) x)) e)]
                ++ events).
        split.
        { rewrite Ht. subst w1. cbn [trace now]. rewrite <- !app_assoc. reflexivity. }
        rewrite !timed_app.
        change (timed [Invoke i (S p) (now w);
                       Print (ErrorProcessing (Os.basename (Os.path_join (main_folder cfg) x)) e)])
          with [Invoke i (S p) (now w)].
        subst w1. cbn [now app] in *.
        split; [apply prefix_cons, Hpre|].
        intros Hs. destruct (Hret Hs) as [E1 E2]. rewrite E1, E2. auto.
    + cbn [fst snd trace]. exists [Invoke i (S p) (now w)].
      split; [reflexivity|].
      change (timed [Invoke i (S p) (now w)]) with [Invoke i (S p) (now w)].
      split.
      * destruct (S p mod rate_limit cfg =? 0)%nat; cbn [fst];
          apply prefix_cons, prefix_nil.
      * intros [s' Hs']. discriminate Hs'.
Qed.

Lemma iteration_timed (l : list str) (i : nat) (w : world) :
  let specified :=
    pass_as_specified 61 (rate_limit cfg) i
      (List.map (fun entry =>
                   (fst entry,
                    latency env i (Os.path_join (main_folder cfg) (snd entry))))
                (enumerate l))
      0 (now w) (now w) in
  exists events,
    trace (snd (iteration env cfg l i w)) = trace w ++ events
    /\ timed events `prefix_of` fst specified
    /\ (fst (iteration env cfg l i w) = Returned tt ->
        timed events = fst specified
        /\ now (snd (iteration env cfg l i w)) = snd specified).
Proof.
  cbn zeta. unfold iteration, bind, time, print, emit, enumerate. cbn [fst snd].
  set (w0 := {| now := now w; files := files w;
                trace := trace w ++ [Print (StartingIteration i (iteration_n cfg))] |}).
  destruct (loop_timed i l 0 (now w) w0) as (events & Ht & Hpre & Hret).
  rewrite Nat.Div0.mod_0_l in Hpre, Hret. change (now w0) with (now w) in Hpre, Hret.
  destruct (for_each (visit env cfg i) (combine (seq 1 (length l)) l) (now w) w0)
    as [[s'|e] w1]; cbn [fst snd] in *.
  - exists ([Print (StartingIteration i (iteration_n cfg))] ++ events
            ++ [Print (IterationCompleted i (output_file_of cfg i))]).
    split; [rewrite Ht; subst w0; cbn [trace]; rewrite <- !app_assoc; reflexivity|].
    rewrite !timed_app.
    change (timed [Print (StartingIteration i (iteration_n cfg))]) with (@nil event).
    change (timed [Print (IterationCompleted i (output_file_of cfg i))]) with (@nil event).
    rewrite app_nil_r. cbn [app].
    split; [exact Hpre|]. intros _. apply Hret. eauto.
  - exists ([Print (StartingIteration i (iteration_n cfg))] ++ events).
    split; [rewrite Ht; subst w0; cbn [trace]; rewrite <- !app_assoc; reflexivity|].
    rewrite !timed_app.
    change (timed [Print (StartingIteration i (iteration_n cfg))]) with (@nil event).
    cbn [app]. split; [exact Hpre|]. intros H. discriminate H.
Qed.

Lemma passes_timed (l : list str) (n : nat) :
  forall (a : nat) (w : world),
    let specified :=
      run_as_specified 61 (rate_limit cfg)
        (fun i => List.map (fun entry =>
                              (fst entry,
                               latency env i (Os.path_join (main_folder cfg) (snd entry))))
                           (enumerate l))
        (seq a n) (now w) in
    exists events,
      trace (snd (for_each (fun _ i => iteration env cfg l i) (seq a n) tt w))
      = trace w ++ events
      /\ timed events `prefix_of` specified
      /\ (fst (for_each (fun _ i => iteration env cfg l i) (seq a n) tt w) = Returned tt ->
          timed events = specified).
Proof.
  induction n as [|n IH]; intros a w; cbn zeta.
  - exists []. cbn. rewrite app_nil_r. auto.
  - cbn [seq run_as_specified]. rewrite for_each_cons.
    destruct (iteration_timed l a w) as (ev1 & Ht1 & Hpre1 & Hret1).
    destruct (iteration env cfg l a w) as [[[]|e] w1]; cbn [fst snd] in *.
    + destruct (Hret1 eq_refl) as [E1 E2].
      destruct (IH (S a) w1) as (ev2 & Ht2 & Hpre2 & Hret2). cbn zeta in *.
      rewrite E2 in Hpre2, Hret2.
      exists (ev1 ++ ev2).
      split; [rewrite Ht2, Ht1, <- app_assoc; reflexivity|].
      rewrite timed_app, E1.
      split; [apply prefix_app, Hpre2|].
      intros H. rewrite (Hret2 H). reflexivity.
    + exists ev1. split; [exact Ht1|].
      split; [apply prefix_app_r, Hpre1|]. intros H. discriminate H.
Qed.

End Run.

(** Claim C7, as amended.  With a quota of N requests per window the window
    lasts 61 units of time: after every N-th call of a pass the scheduler
    reads the time elapsed since the window began, sleeps for exactly what is
    left of 61 units if anything is left, and takes the clock reading after
    that as the beginning of the next window.  The calls and pauses of a run
    are those of the run as specified with a window of 61 units, up to the
    place where the run ends, and all of them when [main] returns: each case
    of each pass is called once, in order, as soon as the call before it is
    over, and the scheduler sleeps after every N-th call of a pass that is
    over before the window is, for the remainder, and nowhere else.  So
    whenever the first call of a window and the first call of the next window
    of one pass both take place, the second is at least 61 units (hence at
    least 60) after the first; and every pause of the run is positive and at
    most 61 units long. *)
Theorem fixed_window_throttle (env : environment) (cfg : config) (w : world) :
  (0 < rate_limit cfg)%nat ->
  (forall i path, (0 <= latency env i path)%Z) ->
  (forall start_time w0,
     pause start_time w0 =
       (Returned (Z.max (now w0) (start_time + 61)),
        {| now := Z.max (now w0) (start_time + 61); files := files w0;
           trace := trace w0 ++
                    if (0 <? 61 - (now w0 - start_time))%Z
                    then [Print (RateLimitReached (61 - (now w0 - start_time)));
                          Sleep (61 - (now w0 - start_time))]
                    else [] |}))
  /\ exists events,
       trace (snd (main env cfg w)) = trace w ++ events
       /\ gap_respected (rate_limit cfg) events
       /\ sleeps_bounded events
       /\ timed events
          `prefix_of` run_as_specified 61 (rate_limit cfg) (requests env cfg)
                        (seq 1 (iteration_n cfg)) (now w)
       /\ (fst (main env cfg w) = Returned tt ->
           timed events
           = run_as_specified 61 (rate_limit cfg) (requests env cfg)
               (seq 1 (iteration_n cfg)) (now w)).
Proof.
  intros Hq Hlat. split; [exact pause_run|].
  unfold main.
  destruct (passes_spec env cfg Hq Hlat
              (firstn (n_subfolders cfg) (subdirectories env)) (iteration_n cfg) 1 w)
    as (events & Et & _ & G & S).
  destruct (passes_timed env cfg Hq
              (firstn (n_subfolders cfg) (subdirectories env)) (iteration_n cfg) 1 w)
    as (events' & Et' & Hpre & Hret).
  assert (E : events' = events).
  { rewrite Et in Et'. apply app_inv_head in Et'. congruence. }
  subst events'. exists events. auto.
Qed.

(** [fixed_window_throttle] for a quota of three, four cases and a backend
    that refuses every request after 10 units of time: three calls, a pause
    of 31 units, the fourth call at 61. *)
Lemma fixed_window_throttle_witness :
  (exists events,
     trace (snd (main refusing_backend quota_three initial_world))
     = trace initial_world ++ events
     /\ gap_respected (rate_limit quota_three) events
     /\ sleeps_bounded events
     /\ timed events
        `prefix_of` run_as_specified 61 (rate_limit quota_three)
                      (requests refusing_backend quota_three)
                      (seq 1 (iteration_n quota_three)) (now initial_world)
     /\ (fst (main refusing_backend quota_three initial_world) = Returned tt ->
         timed events
         = run_as_specified 61 (rate_limit quota_three)
             (requests refusing_backend quota_three)
             (seq 1 (iteration_n quota_three)) (now initial_world)))
  /\ fst (main refusing_backend quota_three initial_world) = Returned tt
  /\ run_as_specified 61 (rate_limit quota_three) (requests refusing_backend quota_three)
       (seq 1 (iteration_n quota_three)) (now initial_world)
     = [Invoke 1 1 0; Invoke 1 2 10; Invoke 1 3 20; Sleep 31; Invoke 1 4 61].
Proof.
  split; [|split; vm_compute; reflexivity].
  refine (proj2 (fixed_window_throttle refusing_backend quota_three initial_world _ _)).
  - simpl. lia.
  - intros i path. simpl. lia.
Defined.

(** Claim C7, as stated, fails: the window is not 60 units long.  After three
    calls of 10 units each, 30 units into the window, the scheduler sleeps
    for 31 units, not for the 30 that are left of 60, and the fourth call
    takes place at 61: the calls and pauses of the run are not those of the
    run as specified with a window of 60 units. *)
Lemma window_is_not_60 :
  pause 0 {| now := 30; files := ∅; trace := [] |}
  <> pause_as_specified 60 0 {| now := 30; files := ∅; trace := [] |}
  /\ ~ In (Sleep (60 - 30)) (trace (snd (main refusing_backend quota_three initial_world)))
  /\ In (Sleep 31) (trace (snd (main refusing_backend quota_three initial_world)))
  /\ timed (trace (snd (main refusing_backend quota_three initial_world)))
     <> run_as_specified 60 (rate_limit quota_three) (requests refusing_backend quota_three)
          (seq 1 (iteration_n quota_three)) (now initial_world).
Proof.
  split; [|split; [|split]].
  - intros H. vm_compute in H. discriminate H.
  - intros H. vm_compute in H.
    repeat (destruct H as [H|H]; [discriminate H|]). exact H.
  - vm_compute. tauto.
  - intros H. vm_compute in H. discriminate H.
Qed.

Lemma sample_run_calls :
  List.filter (fun e => match e with Print _ => false | _ => true end)
    (trace (snd (main refusing_backend quota_three initial_world)))
  = [Invoke 1 1 0; Invoke 1 2 10; Invoke 1 3 20; Sleep 31; Invoke 1 4 61].
Proof. vm_compute. reflexivity. Qed.

Lemma pause_is_specified_61 (start_time : Z) (w : world) :
  pause start_time w = pause_as_specified 61 start_time w.
Proof.
  unfold pause, pause_as_specified, bind, time. simpl.
  replace (now w - start_time <? 61)%Z with (0 <? 61 - (now w - start_time))%Z;
    [reflexivity|].
  destruct (Z.ltb_spec 0 (61 - (now w - start_time)));
    destruct (Z.ltb_spec (now w - start_time) 61); try reflexivity; lia.
Qed.

Section Abort.

Variable env : environment.
Variable cfg : config.
Hypothesis quota_positive : (0 < rate_limit cfg)%nat.

(** The inner loop stops at the first case whose request is answered. *)
Lemma loop_raises (i : nat) (before : list str) (subfolder : str) (after : list str) :
  (forall x, In x before ->
     exists e, generate_content env i (Os.path_join (main_folder cfg) x) = inl e) ->
  (exists text,
     generate_content env i (Os.path_join (main_folder cfg) subfolder) = inr text) ->
  forall (p : nat) (start_time : Z) (w : world),
    fst (for_each (visit env cfg i)
           (combine (seq (S p) (length (before ++ subfolder :: after)))
                    (before ++ subfolder :: after)) start_time w)
    = Raised (NameError "output_file")
    /\ files (snd (for_each (visit env cfg i)
                     (combine (seq (S p) (length (before ++ subfolder :: after)))
                              (before ++ subfolder :: after)) start_time w))
       = files w.
Proof.
  intros Hbefore [text Htext].
  induction before as [|x before IH]; intros p start_time w.
  - cbn [app length seq combine for_each]. unfold bind.
    destruct (visit_outcome env cfg quota_positive i start_time (S p) subfolder w)
      as [Hfiles Hout].
    rewrite Htext in Hout.
    destruct (visit env cfg i start_time (S p, subfolder) w) as [[s'|e] w1];
      cbn [fst snd] in *; [discriminate Hout|]. auto.
  - cbn [app length seq combine for_each]. unfold bind.
    destruct (visit_outcome env cfg quota_positive i start_time (S p) x w)
      as [Hfiles Hout].
    destruct (Hbefore x (or_introl eq_refl)) as [e He]. rewrite He in Hout.
    destruct Hout as [s' Hs'].
    destruct (visit env cfg i start_time (S p, x) w) as [[s''|e'] w1];
      cbn [fst snd] in *; [|discriminate Hs'].
    destruct (IH (fun y Hy => Hbefore y (or_intror Hy)) (S p) s'' w1) as [H1 H2].
    split; [exact H1 | rewrite H2; exact Hfiles].
Qed.

End Abort.

(** Claim C10.  In the pre-operative Gemini script [output_file] is bound
    in [main] only: it is not a module-level name and not a local name of
    [process_and_run_llm_for_subfolder].  So every call of that function
    whose request is answered raises [NameError] at the save step, outside
    the [try] around the request, and nothing is saved; and a run of
    [main] whose first pass meets an answered request, after any number of
    refused ones, ends in that [NameError] with no workbook written. *)
Theorem output_file_unbound (env : environment) (cfg : config) :
  module_scope cfg !! "output_file"%string = None
  /\ In "output_file"%string main_locals
  /\ ~ In "output_file"%string process_locals
  /\ (forall i path api_key model text w,
        generate_content env i path = inr text ->
        fst (process_and_run_llm_for_subfolder env cfg i path api_key model w)
        = Raised (NameError "output_file")
        /\ files (snd (process_and_run_llm_for_subfolder env cfg i path api_key model w))
           = files w)
  /\ (forall before subfolder after w,
        firstn (n_subfolders cfg) (subdirectories env) = before ++ subfolder :: after ->
        (forall x, In x before ->
           exists e, generate_content env 1 (Os.path_join (main_folder cfg) x) = inl e) ->
        (exists text,
           generate_content env 1 (Os.path_join (main_folder cfg) subfolder) = inr text) ->
        (0 < rate_limit cfg)%nat ->
        (0 < iteration_n cfg)%nat ->
        fst (main env cfg w) = Raised (NameError "output_file")
        /\ files (snd (main env cfg w)) = files w).
Proof.
  split; [reflexivity|].
  split; [simpl; tauto|].
  split; [simpl; intros H; repeat (destruct H as [H|H]; [discriminate H|]); contradiction|].
  split.
  - intros i path api_key model text w Hgen.
    rewrite process_run, Hgen. split; reflexivity.
  - intros before subfolder after w Hlist Hbefore Hanswer Hq Hn.
    unfold main. rewrite Hlist.
    destruct (iteration_n cfg) as [|n]; [lia|].
    cbn [seq for_each]. unfold bind.
    unfold iteration, bind, time, print, emit, enumerate. cbn [fst snd].
    match goal with
    | |- context [for_each (visit env cfg 1) ?l ?s ?w0] =>
        destruct (loop_raises env cfg Hq 1 before subfolder after Hbefore Hanswer 0 s w0)
          as [Hraise Hfiles];
        destruct (for_each (visit env cfg 1) l s w0) as [[s'|e] w1]
    end; cbn [fst snd] in *; [discriminate Hraise|].
    injection Hraise as ->. split; [reflexivity | exact Hfiles].
Qed.

(** [output_file_unbound] for four cases and a backend that answers the
    first request. *)
Lemma output_file_unbound_witness :
  fst (main answering_backend quota_three initial_world) = Raised (NameError "output_file")
  /\ files (snd (main answering_backend quota_three initial_world)) = files initial_world.
Proof.
  refine (proj2 (proj2 (proj2 (proj2 (output_file_unbound answering_backend quota_three))))
            [] u{"C1"} [u{"C2"}; u{"C3"}; u{"C4"}] initial_world _ _ _ _ _).
  - reflexivity.
  - intros x [].
  - eexists. reflexivity.
  - simpl. lia.
  - simpl. lia.
Defined.

End SchedulerFacts.

(** ** The disease-course scheduler *)

Module DisCourseFacts.
Import DisCourse_local.

Lemma cps_inj (a b : string) : Py.cps a = Py.cps b -> a = b.
Proof.
  unfold Py.cps. intros H.
  rewrite <- (string_of_list_ascii_of_string a), <- (string_of_list_ascii_of_string b).
  f_equal.
  assert (Hinv : forall l : list ascii, List.map ascii_of_N (List.map N_of_ascii l) = l).
  { induction l as [|c l IH]; simpl; [reflexivity|].
    rewrite ascii_N_embedding, IH. reflexivity. }
  rewrite <- (Hinv (list_ascii_of_string a)), <- (Hinv (list_ascii_of_string b)), H.
  reflexivity.
Qed.

Lemma str_of_nat_inj (n m : nat) : Os.str_of_nat n = Os.str_of_nat m -> n = m.
Proof.
  unfold Os.str_of_nat. intros H. apply cps_inj in H.
  apply DecimalNat.Unsigned.to_uint_inj.
  assert (Some (Nat.to_uint n) = Some (Nat.to_uint m)) as [= E]; [|exact E].
  rewrite <- !NilEmpty.usu, H. reflexivity.
Qed.

(** Joining a folder and a relative name puts a fixed prefix before the
    name. *)
Lemma path_join_relative (a : str) (c : N) (b : str) :
  c <> 47 -> exists prefix, forall b', Os.path_join a (c :: b') = prefix ++ c :: b'.
Proof.
  intros Hc. unfold Os.path_join.
  destruct (N.eqb_spec c 47) as [->|_]; [contradiction|].
  destruct (List.rev a) as [|x r].
  - exists []. intros b'. destruct c as [|pc]; [reflexivity|].
    repeat (destruct pc as [pc|pc|]; try reflexivity); contradiction.
  - destruct (N.eqb_spec x 47) as [->|Hx].
    + exists a. intros b'. destruct c as [|pc]; [reflexivity|].
      repeat (destruct pc as [pc|pc|]; try reflexivity); contradiction.
    + exists (a ++ [47]). intros b'. rewrite <- app_assoc. simpl.
      assert (Hsel : forall (y : N) (A B C : str), y <> 47 ->
                match y with 47 => A | _ => B end = B).
      { intros y A B _ Hy. destruct y as [|py]; [reflexivity|].
        repeat (destruct py as [py|py|]; try reflexivity); contradiction. }
      rewrite (Hsel c _ _ [] Hc). rewrite (Hsel x _ _ [] Hx). reflexivity.
Qed.

(** Different passes write different workbooks. *)
Lemma output_file_of_inj (cfg : config) (i k : nat) :
  output_file_of cfg i = output_file_of cfg k -> i = k.
Proof.
  destruct (path_join_relative (output_folder cfg) 111 [] ltac:(discriminate))
    as [prefix Hprefix].
  assert (E : forall n,
            output_file_of cfg n
            = (prefix ++ u{"output_"} ++ llm_nickname cfg ++ u{"_"})
              ++ Os.str_of_nat n ++ u{".xlsx"}).
  { intros n. unfold output_file_of.
    change (u{"output_"} ++ llm_nickname cfg ++ u{"_"} ++ Os.str_of_nat n ++ u{".xlsx"})
      with (111 :: u{"utput_"} ++ llm_nickname cfg ++ u{"_"} ++ Os.str_of_nat n ++ u{".xlsx"}).
    rewrite Hprefix, <- !app_assoc. reflexivity. }
  rewrite !E. intros H.
  apply app_inv_head, app_inv_tail in H. apply str_of_nat_inj, H.
Qed.

Section Run.

Variable env : environment.
Variable cfg : config.

(** A call only prints: what it returns and what it prints do not depend on
    the world it starts in. *)
Lemma request_run (i : nat) (path : str) (w : world) :
  process_and_run_llm_for_subfolder env i path w
  = (fst (process_and_run_llm_for_subfolder env i path initial_world),
     {| files := files w;
        stdout := stdout w
                  ++ stdout (snd (process_and_run_llm_for_subfolder env i path initial_world)) |}).
Proof.
  unfold process_and_run_llm_for_subfolder, bind, print, ret.
  destruct (post env i path) as [e|status lines [e|]]; simpl; try reflexivity;
    destruct (status =? 200)%Z; reflexivity.
Qed.

Lemma visit_run (i : nat) (all_data : list (gmap (list N) (list N)))
    (subfolder : str) (w : world) :
  visit env cfg i all_data subfolder w
  = (all_data ++ contribution env cfg i subfolder,
     {| files := files w; stdout := stdout w ++ messages env cfg i subfolder |}).
Proof.
  unfold contribution, messages, visit, bind.
  rewrite (request_run i _ w).
  destruct (process_and_run_llm_for_subfolder env i _ initial_world) as [[data|] w0].
  - cbn [fst snd]. destruct (dict_truthy data); unfold ret; cbn [fst snd];
      rewrite ?app_nil_r; reflexivity.
  - unfold ret. cbn [fst snd]. rewrite app_nil_r. reflexivity.
Qed.

Lemma loop_run (i : nat) (l : list str) :
  forall (all_data : list (gmap (list N) (list N))) (w : world),
    for_each (visit env cfg i) l all_data w
    = (all_data ++ List.flat_map (contribution env cfg i) l,
       {| files := files w;
          stdout := stdout w ++ List.flat_map (messages env cfg i) l |}).
Proof.
  induction l as [|x l IH]; intros all_data w.
  - simpl. unfold ret. rewrite !app_nil_r. destruct w; reflexivity.
  - cbn [for_each List.flat_map]. unfold bind. rewrite visit_run, IH.
    cbn [files stdout]. rewrite <- !app_assoc. reflexivity.
Qed.

Lemma pass_records_flat (i : nat) (l : list str) :
  pass_records env cfg i l = List.flat_map (contribution env cfg i) l.
Proof. unfold pass_records. rewrite loop_run. reflexivity. Qed.

(** A request that raises leaves no record and one line naming the case. *)
Lemma raising_case (i : nat) (subfolder e : str) :
  raises (post env i (Os.path_join (main_folder cfg) subfolder)) = Some e ->
  contribution env cfg i subfolder = []
  /\ messages env cfg i subfolder
     = [ErrorProcessing (Os.basename (Os.path_join (main_folder cfg) subfolder)) e].
Proof.
  unfold raises, contribution, messages, visit, bind,
    process_and_run_llm_for_subfolder, print, ret.
  destruct (post env i _) as [e'|status lines failure].
  - intros [= ->]. split; reflexivity.
  - destruct (status =? 200)%Z; [|discriminate].
    intros ->. split; reflexivity.
Qed.

Lemma iteration_run (l : list str) (i : nat) (w : world) :
  iteration env cfg l i w
  = (tt,
     {| files := match pass_records env cfg i l with
                 | [] => files w
                 | _ :: _ => <[output_file_of cfg i := pass_records env cfg i l]> (files w)
                 end;
        stdout := stdout w
                  ++ StartingIteration i (iteration_n cfg)
                     :: List.flat_map (messages env cfg i) l
                  ++ match pass_records env cfg i l with
                     | [] => []
                     | _ :: _ => [IterationCompleted i (output_file_of cfg i)]
                     end |}).
Proof.
  unfold iteration, bind, print. rewrite loop_run, pass_records_flat.
  cbn [app files stdout].
  destruct (List.flat_map (contribution env cfg i) l) as [|d ds].
  - unfold ret. rewrite app_nil_r, <- app_assoc. reflexivity.
  - unfold to_excel. cbn [files stdout]. rewrite <- !app_assoc. reflexivity.
Qed.

(** The workbook of pass [k] after the passes [a], ..., [a + n - 1]. *)
Lemma passes_files (l : list str) (n : nat) :
  forall (a : nat) (w : world) (k : nat),
    files (snd (for_each (fun _ i => iteration env cfg l i) (seq a n) tt w))
      !! output_file_of cfg k
    = if (a <=? k)%nat && (k <? a + n)%nat
      then match pass_records env cfg k l with
           | [] => files w !! output_file_of cfg k
           | _ :: _ => Some (pass_records env cfg k l)
           end
      else files w !! output_file_of cfg k.
Proof.
  induction n as [|n IH]; intros a w k.
  - simpl. destruct (Nat.leb_spec a k); destruct (Nat.ltb_spec k (a + 0));
      simpl; try reflexivity; lia.
  - cbn [seq for_each]. unfold bind. rewrite iteration_run. rewrite IH. cbn [files].
    destruct (Nat.eq_dec k a) as [->|Hne].
    + replace ((S a <=? a)%nat && (a <? S a + n)%nat) with false
        by (destruct (Nat.leb_spec (S a) a); [lia | reflexivity]).
      replace ((a <=? a)%nat && (a <? a + S n)%nat) with true
        by (destruct (Nat.leb_spec a a); destruct (Nat.ltb_spec a (a + S n));
            simpl; try reflexivity; lia).
      destruct (pass_records env cfg a l); [reflexivity|].
      apply lookup_insert_eq.
    + assert (Hfile : forall fs : gmap (list N) (list (gmap (list N) (list N))),
                match pass_records env cfg a l with
                | [] => fs
                | _ :: _ => <[output_file_of cfg a := pass_records env cfg a l]> fs
                end !! output_file_of cfg k = fs !! output_file_of cfg k).
      { intros fs. destruct (pass_records env cfg a l); [reflexivity|].
        apply lookup_insert_ne. intros E. apply output_file_of_inj in E. congruence. }
      rewrite Hfile.
      replace ((S a <=? k)%nat && (k <? S a + n)%nat)
        with ((a <=? k)%nat && (k <? a + S n)%nat); [reflexivity|].
      destruct (Nat.leb_spec a k); destruct (Nat.ltb_spec k (a + S n));
        destruct (Nat.leb_spec (S a) k); destruct (Nat.ltb_spec k (S a + n));
        simpl; try reflexivity; lia.
Qed.

(** What a case prints in pass [k] is part of what the passes print. *)
Lemma passes_stdout (l : list str) (n : nat) :
  forall (a : nat) (w : world) (k : nat) (subfolder : str) (m : message),
    (a <= k < a + n)%nat -> In subfolder l -> In m (messages env cfg k subfolder) ->
    In m (stdout (snd (for_each (fun _ i => iteration env cfg l i) (seq a n) tt w))).
Proof.
  assert (Hkeep : forall n' a w m,
            In m (stdout w) ->
            In m (stdout (snd (for_each (fun _ i => iteration env cfg l i) (seq a n') tt w)))).
  { intros n'. induction n' as [|n' IH]; intros a w m Hm; [exact Hm|].
    cbn [seq for_each]. unfold bind. rewrite iteration_run. apply IH.
    cbn [stdout]. apply in_or_app. left. exact Hm. }
  induction n as [|n IH]; intros a w k subfolder m Hk Hl Hm; [lia|].
  cbn [seq for_each]. unfold bind. rewrite iteration_run.
  destruct (Nat.eq_dec k a) as [->|Hne].
  - apply Hkeep. cbn [stdout]. apply in_or_app. right. right.
    apply in_or_app. left. apply in_flat_map. exists subfolder. auto.
  - apply (IH (S a) _ k subfolder m); [lia | exact Hl | exact Hm].
Qed.

End Run.

(** The records of a pass depend on the environment only through the
    outcomes of that pass and the texts of the cases. *)
Lemma pass_records_ext (env env' : environment) (cfg : config) (k : nat) (l : list str) :
  (forall path, context_of env' path = context_of env path) ->
  (forall path, post env' k path = post env k path) ->
  pass_records env' cfg k l = pass_records env cfg k l.
Proof.
  intros Hctx Hpost. rewrite !pass_records_flat.
  apply flat_map_ext. intros subfolder.
  unfold contribution, visit, bind, process_and_run_llm_for_subfolder.
  rewrite Hpost, Hctx. reflexivity.
Qed.

(** Claim C6.  If the request for a case raises in pass [i], the failure is
    printed with the name of the case; the records of the pass are those of
    the pass without that case, so the workbook of pass [i] holds no record of
    the case and the same records of the other cases; and the workbook of
    every other pass is what it is whatever happens in pass [i]. *)
Theorem failed_case_is_skipped (env : environment) (cfg : config) (w : world)
    (i : nat) (before after : list str) (subfolder e : str) :
  firstn (n_subfolders cfg) (subdirectories env) = before ++ subfolder :: after ->
  (1 <= i <= iteration_n cfg)%nat ->
  raises (post env i (Os.path_join (main_folder cfg) subfolder)) = Some e ->
  In (ErrorProcessing (Os.basename (Os.path_join (main_folder cfg) subfolder)) e)
     (stdout (snd (main env cfg w)))
  /\ pass_records env cfg i (before ++ subfolder :: after)
     = pass_records env cfg i (before ++ after)
  /\ files (snd (main env cfg w)) !! output_file_of cfg i
     = match pass_records env cfg i (before ++ after) with
       | [] => files w !! output_file_of cfg i
       | _ :: _ => Some (pass_records env cfg i (before ++ after))
       end
  /\ forall env',
       subdirectories env' = subdirectories env ->
       (forall path, context_of env' path = context_of env path) ->
       (forall k path, k <> i -> post env' k path = post env k path) ->
       forall k, k <> i ->
         files (snd (main env' cfg w)) !! output_file_of cfg k
         = files (snd (main env cfg w)) !! output_file_of cfg k.
Proof.
  intros Hlist Hi Hraise.
  destruct (raising_case env cfg i subfolder e Hraise) as [Hnone Hmsg].
  assert (Hskip : pass_records env cfg i (before ++ subfolder :: after)
                  = pass_records env cfg i (before ++ after)).
  { rewrite !pass_records_flat, !flat_map_app. cbn [List.flat_map].
    rewrite Hnone. reflexivity. }
  assert (Hrange : ((1 <=? i)%nat && (i <? 1 + iteration_n cfg)%nat) = true).
  { destruct (Nat.leb_spec 1 i); destruct (Nat.ltb_spec i (1 + iteration_n cfg));
      simpl; try reflexivity; lia. }
  split; [|split; [exact Hskip|split]].
  - unfold main. rewrite Hlist.
    apply (passes_stdout env cfg _ _ 1 w i subfolder); [lia | |].
    + apply in_or_app. right. left. reflexivity.
    + rewrite Hmsg. left. reflexivity.
  - unfold main. rewrite Hlist, passes_files, Hrange, Hskip. reflexivity.
  - intros env' Hdirs Hctx Hpost k Hk.
    unfold main. rewrite Hdirs, !passes_files.
    rewrite (pass_records_ext env env' cfg k _ Hctx (fun path => Hpost k path Hk)).
    reflexivity.
Qed.

(** [failed_case_is_skipped] for three passes over the cases C5, C7 and C9,
    the request for C7 failing in the second pass. *)
Lemma failed_case_is_skipped_witness :
  In (ErrorProcessing u{"C7"} u{"Connection refused"})
     (stdout (snd (main flaky_server three_passes initial_world)))
  /\ pass_records flaky_server three_passes 2 [u{"C5"}; u{"C7"}; u{"C9"}]
     = pass_records flaky_server three_passes 2 [u{"C5"}; u{"C9"}].
Proof.
  pose proof (failed_case_is_skipped flaky_server three_passes initial_world 2
                [u{"C5"}] [u{"C9"}] u{"C7"} u{"Connection refused"}
                eq_refl (conj (le_S _ _ (le_n 1)) (le_S _ _ (le_n 2))) eq_refl) as H.
  split; [exact (proj1 H) | exact (proj1 (proj2 H))].
Defined.

(** The three workbooks of the sample run: the second has the records of C5
    and C9 only, the first and the third have three records. *)
Lemma sample_run_workbooks :
  List.map (fun i => length <$> (files (snd (main flaky_server three_passes initial_world))
                                  !! output_file_of three_passes i))
           [1; 2; 3]%nat
  = [Some 3; Some 2; Some 3]%nat.
Proof. vm_compute. reflexivity. Qed.

End DisCourseFacts.

(** ** Section slicing *)

Module SectionsFacts.
Import Sections.

(** Joining the lines of a text gives the text back. *)
Lemma join_split (s : str) : Normalizer.join_lines (Py.split_lines s) = s.
Proof.
  induction s as [|c s IH]; [reflexivity|].
  simpl. destruct (c =? 10) eqn:E.
  - apply N.eqb_eq in E. subst c.
    destruct (Py.split_lines s) as [|l ls] eqn:Hs.
    + exfalso. exact (PyFacts.split_lines_nonempty s Hs).
    + change (Normalizer.join_lines ([] :: l :: ls))
        with ([] ++ 10 :: Normalizer.join_lines (l :: ls)).
      rewrite IH. reflexivity.
  - destruct (Py.split_lines s) as [|l ls] eqn:Hs.
    + exfalso. exact (PyFacts.split_lines_nonempty s Hs).
    + rewrite <- IH. destruct ls; reflexivity.
Qed.

Lemma in_selected (headings paragraphs : list str) (q : str) :
  In q (selected headings paragraphs) <->
  exists i p, paragraphs !! i = Some p /\ In q (appended headings paragraphs i p).
Proof.
  unfold selected. rewrite in_concat. split.
  - intros (l & Hl & Hq). apply list_elem_of_In, elem_of_lookup_imap in Hl.
    destruct Hl as (i & p & -> & Hp). eauto.
  - intros (i & p & Hp & Hq). exists (appended headings paragraphs i p).
    split; [|exact Hq]. apply list_elem_of_In, elem_of_lookup_imap. eauto.
Qed.

Lemma concat_imap_length {A B : Type} (l : list A) :
  forall (f : nat -> A -> list B) (bound : nat),
    (forall i x, (length (f i x) <= bound)%nat) ->
    (length (List.concat (imap f l)) <= bound * length l)%nat.
Proof.
  induction l as [|x l IH]; intros f bound Hf; simpl; [lia|].
  rewrite length_app.
  specialize (IH (f ∘ S) bound (fun i y => Hf (S i) y)).
  specialize (Hf 0%nat x). lia.
Qed.

(** X2. Section slicing.  With the setting ["all_sections"] the text comes back
    unchanged.  With a list of headings, what is kept is made of paragraphs of
    the text and is at most twice as long as the text has paragraphs; every
    paragraph that mentions a heading, in any case, is kept; the paragraph
    after it is kept as well unless it is blank; and when no paragraph
    mentions a heading, or there is no heading, nothing is kept and the
    result is the empty string. *)
Theorem section_slicing :
  (forall text, extract_section text (inl u{"all_sections"}) = text)
  /\ (forall headings paragraphs q,
        In q (selected headings paragraphs) -> In q paragraphs)
  /\ (forall headings paragraphs,
        (length (selected headings paragraphs) <= 2 * length paragraphs)%nat)
  /\ (forall headings paragraphs p,
        In p paragraphs -> mentions headings p = true ->
        In p (selected headings paragraphs))
  /\ (forall headings paragraphs i p next,
        paragraphs !! i = Some p -> mentions headings p = true ->
        paragraphs !! (i + 1)%nat = Some next ->
        Py.truthy (Py.strip next) = true ->
        In next (selected headings paragraphs))
  /\ (forall text headings,
        (forall p, In p (Py.split_lines text) -> mentions headings p = false) ->
        extract_section text (inr headings) = [])
  /\ (forall text, extract_section text (inr []) = []).
Proof.
  assert (Hnone : forall text headings,
            (forall p, In p (Py.split_lines text) -> mentions headings p = false) ->
            extract_section text (inr headings) = []).
  { intros text headings Hno. unfold extract_section. cbn [headings_of].
    destruct (selected headings (Py.split_lines text)) as [|q qs] eqn:E; [reflexivity|].
    assert (Hq : In q (selected headings (Py.split_lines text)))
      by (rewrite E; left; reflexivity).
    apply in_selected in Hq as (i & p & Hp & Hq).
    unfold appended in Hq. rewrite Hno in Hq; [destruct Hq|].
    apply list_elem_of_In, list_elem_of_lookup. eauto. }
  repeat apply conj.
  - intros text. unfold extract_section.
    replace (Py.eqb u{"all_sections"} u{"all_sections"}) with true
      by (symmetry; apply PyFacts.eqb_eq; reflexivity).
    apply join_split.
  - intros headings paragraphs q Hq.
    apply in_selected in Hq as (i & p & Hp & Hq). unfold appended in Hq.
    destruct (mentions headings p); [|destruct Hq].
    destruct Hq as [<-|Hq].
    + apply list_elem_of_In, list_elem_of_lookup. eauto.
    + destruct (paragraphs !! (i + 1)%nat) as [next|] eqn:Hn; [|destruct Hq].
      destruct (Py.truthy (Py.strip next)); [|destruct Hq].
      destruct Hq as [<-|[]]. apply list_elem_of_In, list_elem_of_lookup. eauto.
  - intros headings paragraphs. unfold selected.
    apply concat_imap_length. intros i x. unfold appended.
    destruct (mentions headings x); [|simpl; lia].
    destruct (paragraphs !! (i + 1)%nat) as [next|]; [|simpl; lia].
    destruct (Py.truthy (Py.strip next)); simpl; lia.
  - intros headings paragraphs p Hp Hm.
    apply list_elem_of_In, list_elem_of_lookup in Hp as [i Hi].
    apply in_selected. exists i, p. split; [exact Hi|].
    unfold appended. rewrite Hm. left. reflexivity.
  - intros headings paragraphs i p next Hp Hm Hn Ht.
    apply in_selected. exists i, p. split; [exact Hp|].
    unfold appended. rewrite Hm, Hn, Ht. right. left. reflexivity.
  - exact Hnone.
  - intros text. apply Hnone. reflexivity.
Qed.

(** [section_slicing] for a heading and a paragraph that differ in the case of
    letters outside Latin-1: the paragraph (U+0152, [d], U+00E8, [me]) mentions
    the heading (U+0153, [D], U+00C8, [ME]) and is kept with the one after
    it. *)
Lemma section_slicing_witness :
  Sections.mentions [[339; 68; 200; 77; 69]] [338; 100; 232; 109; 101] = true
  /\ In [338; 100; 232; 109; 101]
       (Sections.selected [[339; 68; 200; 77; 69]] [[338; 100; 232; 109; 101]; u{"next"}])
  /\ Sections.extract_section ([338; 100; 232; 109; 101] ++ 10 :: u{"next"})
       (inr [[339; 68; 200; 77; 69]])
     = [338; 100; 232; 109; 101] ++ 10 :: u{"next"}.
Proof.
  split; [vm_compute; reflexivity|]. split; [|vm_compute; reflexivity].
  apply (proj1 (proj2 (proj2 (proj2 section_slicing)))).
  - left. reflexivity.
  - vm_compute. reflexivity.
Defined.

End SectionsFacts.

(** ** White space around lines *)

Module LineEndingsFacts.
Import Py LineEndings.

Lemma lstrip_blank (s : str) : blank s -> lstrip s = [].
Proof.
  induction 1 as [|c s Hc _ IH]; [reflexivity|]. simpl. rewrite Hc. exact IH.
Qed.

Lemma lstrip_app_blank (pre s : str) : blank pre -> lstrip (pre ++ s) = lstrip s.
Proof.
  induction 1 as [|c pre Hc _ IH]; [reflexivity|]. simpl. rewrite Hc. exact IH.
Qed.

Lemma lstrip_empty_blank (s : str) : lstrip s = [] -> blank s.
Proof.
  induction s as [|c s IH]; [constructor|]. simpl.
  destruct (isspace c) eqn:Hc; [|discriminate].
  intros H. constructor; [exact Hc | exact (IH H)].
Qed.

Lemma lstrip_app_nonblank (s t : str) : lstrip s <> [] -> lstrip (s ++ t) = lstrip s ++ t.
Proof.
  induction s as [|c s IH]; simpl; [congruence|].
  destruct (isspace c); [exact IH | reflexivity].
Qed.

Lemma blank_app (a b : str) : blank a -> blank b -> blank (a ++ b).
Proof. intros Ha Hb. apply Forall_app. split; assumption. Qed.

Lemma blank_rev (a : str) : blank a -> blank (List.rev a).
Proof. unfold blank. rewrite !List.Forall_forall. intros H x Hx. apply H, in_rev, Hx. Qed.

Lemma rstrip_app_blank (s post : str) : blank post -> rstrip (s ++ post) = rstrip s.
Proof.
  intros Hp. unfold rstrip. rewrite rev_app_distr, lstrip_app_blank; [reflexivity|].
  apply blank_rev, Hp.
Qed.

(** White space around a line does not survive [strip]. *)
Lemma strip_padding (pre s post : str) :
  blank pre -> blank post -> strip (pre ++ s ++ post) = strip s.
Proof.
  intros Hpre Hpost. unfold strip. rewrite lstrip_app_blank by exact Hpre.
  destruct (lstrip s) as [|c t] eqn:E.
  - rewrite lstrip_blank; [reflexivity|].
    apply blank_app; [apply lstrip_empty_blank, E | exact Hpost].
  - rewrite lstrip_app_nonblank by (rewrite E; discriminate).
    rewrite E. apply rstrip_app_blank, Hpost.
Qed.

Lemma strip_blank (s : str) : blank s -> strip s = [].
Proof. intros H. unfold strip. rewrite lstrip_blank by exact H. reflexivity. Qed.

Lemma same_line_strip (a b : str) : same_line a b -> strip a = strip b.
Proof.
  intros [->| ->]; [reflexivity|].
  apply (strip_padding [] b [13]); repeat constructor.
Qed.

Lemma split_crlf (s : str) :
  Forall2 same_line (split_lines (crlf s)) (split_lines s).
Proof.
  induction s as [|c s IH].
  - repeat constructor.
  - unfold crlf in *. cbn [List.flat_map split_lines].
    destruct (N.eqb_spec c 10) as [->|Hc].
    + cbn [app split_lines N.eqb Pos.eqb]. constructor; [right; reflexivity | exact IH].
    + cbn [app split_lines]. destruct (N.eqb_spec c 10) as [|_]; [contradiction|].
      destruct IH as [|l l' ls ls' Hl Hls].
      * repeat constructor.
      * constructor; [|exact Hls].
        destruct Hl as [->| ->]; [left | right]; reflexivity.
Qed.

Section Steps.

Variable standardize_variable_name : str -> option str.

Lemma step_same_strip (st : Normalizer.state) (a b : str) :
  strip a = strip b ->
  Normalizer.step standardize_variable_name st a
  = Normalizer.step standardize_variable_name st b.
Proof. intros H. unfold Normalizer.step. rewrite H. reflexivity. Qed.

Lemma loop_same_strip (l1 l2 : list str) :
  Forall2 (fun a b => strip a = strip b) l1 l2 ->
  forall st, Normalizer.loop standardize_variable_name st l1
             = Normalizer.loop standardize_variable_name st l2.
Proof.
  induction 1 as [|a b l1 l2 Hab _ IH]; intros st; [reflexivity|].
  simpl. rewrite (step_same_strip st a b Hab). apply IH.
Qed.

Lemma step_blank (st : Normalizer.state) (line : str) :
  blank line -> Normalizer.step standardize_variable_name st line = st.
Proof.
  intros H. unfold Normalizer.step. rewrite (strip_blank line H).
  change (Normalizer.is_final_answer_line []) with false.
  change (Re.re_match true Normalizer.bullet_point_pattern []) with (@None Re.captures).
  change (Re.re_match true Normalizer.standalone_answer_pattern [])
    with (@None Re.captures).
  cbv iota. destruct (Normalizer.in_final_answer_section st); [reflexivity|].
  destruct (Normalizer.current_variable st); [|reflexivity].
  rewrite andb_false_r. reflexivity.
Qed.

End Steps.

Lemma discourse_step_same_strip (st : Normalizer.state) (a b : str) :
  strip a = strip b -> DisCourse_local.step st a = DisCourse_local.step st b.
Proof. intros H. unfold DisCourse_local.step. rewrite H. reflexivity. Qed.

(** X3. White space around lines.  For any taxonomy, white space before and
    after a line does not change what the normalizer makes of the line; a
    blank line changes nothing at all; and a text with Windows line endings
    gives the same record as the text with plain line feeds, in the pre- and
    post-operative normalizer and in the disease-course one. *)
Theorem white_space_ignored :
  (forall standardize st pre line post,
     blank pre -> blank post ->
     Normalizer.step standardize st (pre ++ line ++ post)
     = Normalizer.step standardize st line)
  /\ (forall standardize st line,
        blank line -> Normalizer.step standardize st line = st)
  /\ (forall standardize text,
        Normalizer.extract_bullet_points standardize (crlf text)
        = Normalizer.extract_bullet_points standardize text)
  /\ (forall text,
        DisCourse_local.extract_bullet_points (crlf text)
        = DisCourse_local.extract_bullet_points text).
Proof.
  repeat apply conj.
  - intros standardize st pre line post Hpre Hpost.
    apply step_same_strip, strip_padding; assumption.
  - intros standardize st line. apply step_blank.
  - intros standardize text. unfold Normalizer.extract_bullet_points. f_equal.
    apply loop_same_strip.
    eapply Forall2_impl; [apply split_crlf | exact same_line_strip].
  - intros text. unfold DisCourse_local.extract_bullet_points. f_equal.
    generalize Normalizer.initial.
    induction (split_crlf text) as [|a b l1 l2 Hab _ IH]; intros st; [reflexivity|].
    simpl. rewrite (discourse_step_same_strip st a b (same_line_strip a b Hab)).
    apply IH.
Qed.

End LineEndingsFacts.

(** ** The pre-operative schedule *)

Module ScheduleFacts.
Import PreOP_Gemini Schedule.

Lemma invocations_app (a b : list event) :
  invocations (a ++ b) = invocations a ++ invocations b.
Proof. apply flat_map_app. Qed.

Lemma bind_raised {A B : Type} (m : M A) (k : A -> M B) (w : world) (e : exn) :
  fst (m w) = Raised e -> bind m k w = (Raised e, snd (m w)).
Proof. unfold bind. destruct (m w) as [[a|e'] w1]; simpl; congruence. Qed.

Lemma bind_returned {A B : Type} (m : M A) (k : A -> M B) (w : world) (a : A) :
  fst (m w) = Returned a -> bind m k w = k a (snd (m w)).
Proof. unfold bind. destruct (m w) as [[a'|e'] w1]; simpl; congruence. Qed.

Section Run.

Variable env : environment.
Variable cfg : config.

(** One visit: one call, nothing saved, nothing reported as saved; it returns
    when the request is refused and the quota is not zero. *)
Lemma visit_trace (i : nat) (start_time : Z) (j : nat) (subfolder : str) (w : world) :
  exists rest,
    grows_by (Invoke i j (now w) :: rest) w
      (snd (visit env cfg i start_time (j, subfolder) w))
    /\ invocations rest = []
    /\ Forall not_saved rest
    /\ match generate_content env i (Os.path_join (main_folder cfg) subfolder),
             rate_limit cfg with
       | inr _, _ =>
           fst (visit env cfg i start_time (j, subfolder) w)
           = Raised (NameError "output_file")
       | inl _, O =>
           fst (visit env cfg i start_time (j, subfolder) w) = Raised ZeroDivisionError
       | inl _, S _ =>
           exists s', fst (visit env cfg i start_time (j, subfolder) w) = Returned s'
       end.
Proof.
  unfold visit, bind, time, emit, grows_by. cbn [fst snd].
  rewrite SchedulerFacts.process_run.
  destruct (generate_content env i _) as [e|text]; cbn [fst snd files trace now].
  - destruct (rate_limit cfg) as [|q].
    + eexists. split; [split; [reflexivity|]|].
      { unfold raise. cbn [snd trace]. rewrite <- app_assoc. reflexivity. }
      split; [reflexivity|]. split; [|reflexivity].
      repeat constructor. intros name H. discriminate H.
    + destruct (j mod S q =? 0)%nat.
      * rewrite SchedulerFacts.pause_run. cbn [fst snd files trace now].
        destruct (0 <? _)%Z.
        -- eexists. split; [split; [reflexivity|]|].
           { rewrite <- !app_assoc. reflexivity. }
           split; [reflexivity|]. split; [|eauto].
           repeat constructor; intros name H; discriminate H.
        -- eexists. split; [split; [reflexivity|]|].
           { rewrite app_nil_r, <- !app_assoc. reflexivity. }
           split; [reflexivity|]. split; [|eauto].
           repeat constructor; intros name H; discriminate H.
      * unfold ret. cbn [fst snd files trace].
        eexists. split; [split; [reflexivity|]|].
        { rewrite <- !app_assoc. reflexivity. }
        split; [reflexivity|]. split; [|eauto].
        repeat constructor; intros name H; discriminate H.
  - exists []. split; [split; reflexivity|].
    split; [reflexivity|]. split; [constructor|].
    destruct (rate_limit cfg); reflexivity.
Qed.

(** The inner loop from position [S p] on. *)
Lemma loop_trace (i : nat) (l : list str) :
  forall (p : nat) (start_time : Z) (w : world),
    exists events,
      grows_by events w
        (snd (for_each (visit env cfg i) (combine (seq (S p) (length l)) l) start_time w))
      /\ Forall not_saved events
      /\ invocations events `prefix_of` List.map (pair i) (seq (S p) (length l))
      /\ ((exists s', fst (for_each (visit env cfg i)
                              (combine (seq (S p) (length l)) l) start_time w)
                      = Returned s') ->
          invocations events = List.map (pair i) (seq (S p) (length l)))
      /\ ((0 < rate_limit cfg)%nat ->
          (forall x, In x l ->
             exists e, generate_content env i (Os.path_join (main_folder cfg) x) = inl e) ->
          exists s', fst (for_each (visit env cfg i)
                            (combine (seq (S p) (length l)) l) start_time w)
                     = Returned s').
Proof.
  induction l as [|x l IH]; intros p start_time w.
  - exists []. cbn [length seq combine for_each List.map]. unfold ret, grows_by.
    cbn [fst snd]. rewrite app_nil_r.
    split; [split; reflexivity|]. split; [constructor|].
    split; [apply prefix_nil|]. split; [reflexivity | eauto].
  - cbn [length seq combine for_each List.map].
    destruct (visit_trace i start_time (S p) x w) as (rest & [Hf Ht] & Hinv & Hq & Hout).
    destruct (fst (visit env cfg i start_time (S p, x) w)) as [s'|e] eqn:Hv.
    + rewrite (bind_returned _ _ _ _ Hv).
      destruct (IH (S p) s' (snd (visit env cfg i start_time (S p, x) w)))
        as (events & [Hf2 Ht2] & Hq2 & Hpre & Hfull & Hok).
      exists ((Invoke i (S p) (now w) :: rest) ++ events).
      split; [split; [congruence | rewrite Ht2, Ht, <- app_assoc; reflexivity]|].
      split; [apply Forall_app; split; [|exact Hq2]; constructor; [|exact Hq];
              intros name H; discriminate H|].
      rewrite invocations_app. cbn [invocations List.flat_map app].
      fold (invocations rest). rewrite Hinv. cbn [app].
      split; [apply prefix_cons, Hpre|].
      split; [intros Hret; f_equal; apply Hfull, Hret|].
      intros Hq0 Hall. apply Hok; [exact Hq0|].
      intros y Hy. apply Hall. right. exact Hy.
    + rewrite (bind_raised _ _ _ _ Hv). cbn [fst snd].
      exists (Invoke i (S p) (now w) :: rest).
      split; [split; assumption|].
      split; [constructor; [intros name H; discriminate H | exact Hq]|].
      cbn [invocations List.flat_map app]. fold (invocations rest). rewrite Hinv.
      split; [apply prefix_cons, prefix_nil|].
      split; [intros [s' Hs']; discriminate Hs'|].
      intros Hq0 Hall. exfalso.
      destruct (Hall x (or_introl eq_refl)) as [e' He']. rewrite He' in Hout.
      destruct (rate_limit cfg); [lia|]. destruct Hout as [s' Hs']. discriminate Hs'.
Qed.

Lemma iteration_trace (l : list str) (i : nat) (w : world) :
  exists events,
    grows_by events w (snd (iteration env cfg l i w))
    /\ Forall not_saved events
    /\ invocations events `prefix_of` List.map (pair i) (seq 1 (length l))
    /\ (fst (iteration env cfg l i w) = Returned tt ->
        invocations events = List.map (pair i) (seq 1 (length l)))
    /\ ((0 < rate_limit cfg)%nat ->
        (forall x, In x l ->
           exists e, generate_content env i (Os.path_join (main_folder cfg) x) = inl e) ->
        fst (iteration env cfg l i w) = Returned tt).
Proof.
  unfold iteration, bind, time, print, emit, enumerate. cbn [fst snd].
  set (w0 := {| now := now w; files := files w;
                trace := trace w ++ [Print (StartingIteration i (iteration_n cfg))] |}).
  destruct (loop_trace i l 0 (now w) w0) as (events & [Hf Ht] & Hq & Hpre & Hfull & Hok).
  destruct (for_each (visit env cfg i) (combine (seq 1 (length l)) l) (now w) w0)
    as [[s'|e] w1]; cbn [fst snd] in *.
  - exists (Print (StartingIteration i (iteration_n cfg)) :: events
            ++ [Print (IterationCompleted i (output_file_of cfg i))]).
    split; [split; [exact Hf | rewrite Ht; subst w0; cbn [trace];
                               rewrite <- !app_assoc; reflexivity]|].
    split; [constructor; [intros name H; discriminate H|];
            apply Forall_app; split; [exact Hq|];
            repeat constructor; intros name H; discriminate H|].
    cbn [invocations List.flat_map app]. fold (invocations (events ++ [Print (IterationCompleted i (output_file_of cfg i))])).
    rewrite invocations_app. cbn [invocations List.flat_map]. rewrite !app_nil_r.
    fold (invocations events).
    split; [exact Hpre|]. split; [intros _; apply Hfull; eauto | reflexivity].
  - exists (Print (StartingIteration i (iteration_n cfg)) :: events).
    split; [split; [exact Hf | rewrite Ht; subst w0; cbn [trace];
                               rewrite <- !app_assoc; reflexivity]|].
    split; [constructor; [intros name H; discriminate H | exact Hq]|].
    cbn [invocations List.flat_map app]. fold (invocations events).
    split; [exact Hpre|]. split; [intros H; discriminate H|].
    intros Hq0 Hall. destruct (Hok Hq0 Hall) as [s' Hs']. discriminate Hs'.
Qed.

Lemma passes_trace (l : list str) (n : nat) :
  forall (a : nat) (w : world),
    exists events,
      grows_by events w (snd (for_each (fun _ i => iteration env cfg l i) (seq a n) tt w))
      /\ Forall not_saved events
      /\ invocations events
         `prefix_of` List.flat_map (fun i => List.map (pair i) (seq 1 (length l))) (seq a n)
      /\ (fst (for_each (fun _ i => iteration env cfg l i) (seq a n) tt w) = Returned tt ->
          invocations events
          = List.flat_map (fun i => List.map (pair i) (seq 1 (length l))) (seq a n))
      /\ ((0 < rate_limit cfg)%nat ->
          (forall i x, In x l ->
             exists e, generate_content env i (Os.path_join (main_folder cfg) x) = inl e) ->
          fst (for_each (fun _ i => iteration env cfg l i) (seq a n) tt w) = Returned tt).
Proof.
  induction n as [|n IH]; intros a w.
  - exists []. cbn [seq for_each List.flat_map]. unfold ret, grows_by. cbn [fst snd].
    rewrite app_nil_r.
    split; [split; reflexivity|]. split; [constructor|].
    split; [apply prefix_nil|]. split; reflexivity.
  - cbn [seq for_each List.flat_map].
    destruct (iteration_trace l a w) as (ev1 & [Hf1 Ht1] & Hq1 & Hpre1 & Hfull1 & Hok1).
    destruct (fst (iteration env cfg l a w)) as [[]|e] eqn:Hi.
    + rewrite (bind_returned _ _ _ _ Hi).
      destruct (IH (S a) (snd (iteration env cfg l a w)))
        as (ev2 & [Hf2 Ht2] & Hq2 & Hpre2 & Hfull2 & Hok2).
      exists (ev1 ++ ev2).
      split; [split; [congruence | rewrite Ht2, Ht1, <- app_assoc; reflexivity]|].
      split; [apply Forall_app; split; assumption|].
      rewrite invocations_app, (Hfull1 eq_refl).
      split; [apply prefix_app, Hpre2|].
      split; [intros Hret; f_equal; apply Hfull2, Hret|].
      intros Hq0 Hall. apply Hok2; assumption.
    + rewrite (bind_raised _ _ _ _ Hi). cbn [fst snd].
      exists ev1. split; [split; assumption|]. split; [exact Hq1|].
      split; [apply prefix_app_r, Hpre1|].
      split; [intros H; discriminate H|].
      intros Hq0 Hall. exfalso.
      discriminate (Hok1 Hq0 (Hall a)).
Qed.

End Run.

Lemma schedule_NoDup (cases : nat) (n : nat) :
  forall a, NoDup (List.flat_map (fun i => List.map (pair i) (seq 1 cases)) (seq a n))
            /\ forall i j, In (i, j) (List.flat_map (fun i => List.map (pair i) (seq 1 cases))
                                       (seq a n)) -> (a <= i)%nat.
Proof.
  induction n as [|n IH]; intros a; cbn [seq List.flat_map].
  - split; [constructor | intros i j []].
  - destruct (IH (S a)) as [Hnd Hge]. split.
    + apply NoDup_app. split; [|split; [|exact Hnd]].
      * apply (NoDup_fmap_2 (pair a)). apply NoDup_seq.
      * intros [i j] Hin Hin2.
        apply list_elem_of_In, in_map_iff in Hin as (j' & [= <- <-] & _).
        apply list_elem_of_In, Hge in Hin2. lia.
    + intros i j Hin. apply in_app_or in Hin as [Hin|Hin].
      * apply in_map_iff in Hin as (j' & [= <- <-] & _). lia.
      * apply Hge in Hin. lia.
Qed.

(** X4. The pre-operative script as published never stores a record: whatever
    the folders, the texts and the answers of the backend are, a run of [main]
    leaves every workbook as it was and never prints the line that reports a
    saved response. *)
Theorem nothing_is_saved (env : environment) (cfg : config) (w : world) :
  exists events,
    trace (snd (main env cfg w)) = trace w ++ events
    /\ files (snd (main env cfg w)) = files w
    /\ forall name, ~ In (Print (ResponseSaved name)) events.
Proof.
  unfold main.
  destruct (passes_trace env cfg
              (firstn (n_subfolders cfg) (subdirectories env)) (iteration_n cfg) 1 w)
    as (events & [Hf Ht] & Hq & _).
  exists events. split; [exact Ht|]. split; [exact Hf|].
  intros name Hin. apply list_elem_of_In in Hin.
  rewrite Forall_forall in Hq. exact (Hq _ Hin name eq_refl).
Qed.

(** X5. The calls of a run of the pre-operative [main], read off its trace as
    (pass, position), are an initial part of the schedule pass 1 over all
    cases in order, then pass 2, and so on: no case is called twice in a pass,
    none is retried, none is skipped before the run ends. When [main] returns,
    the whole schedule was called; and it does return when the quota is not
    zero and the backend refuses every request. *)
Theorem calls_follow_schedule (env : environment) (cfg : config) (w : world) :
  let cases := length (firstn (n_subfolders cfg) (subdirectories env)) in
  exists events,
    trace (snd (main env cfg w)) = trace w ++ events
    /\ invocations events `prefix_of` schedule (iteration_n cfg) cases
    /\ NoDup (invocations events)
    /\ (fst (main env cfg w) = Returned tt ->
        invocations events = schedule (iteration_n cfg) cases)
    /\ ((0 < rate_limit cfg)%nat ->
        (forall i path, exists e, generate_content env i path = inl e) ->
        fst (main env cfg w) = Returned tt).
Proof.
  intros cases. unfold main, schedule. subst cases.
  set (l := firstn (n_subfolders cfg) (subdirectories env)).
  destruct (passes_trace env cfg l (iteration_n cfg) 1 w)
    as (events & [Hf Ht] & Hq & Hpre & Hfull & Hok).
  exists events. split; [exact Ht|]. split; [exact Hpre|].
  split.
  - destruct Hpre as [k Hk].
    pose proof (proj1 (schedule_NoDup (length l) (iteration_n cfg) 1)) as Hnd.
    rewrite Hk in Hnd. apply NoDup_app in Hnd. exact (proj1 Hnd).
  - split; [exact Hfull|].
    intros Hq0 Hall. apply Hok; [exact Hq0|]. intros i x _. apply Hall.
Qed.

(** X6. With a quota of zero the pre-operative run makes exactly one call and
    aborts: [j % rate_limit] raises ZeroDivisionError after the first case
    when its request was refused, and the unbound [output_file] raises
    NameError when it was answered. *)
Theorem zero_quota_aborts (env : environment) (cfg : config) (w : world)
    (x : str) (l : list str) :
  rate_limit cfg = 0%nat ->
  (0 < iteration_n cfg)%nat ->
  firstn (n_subfolders cfg) (subdirectories env) = x :: l ->
  exists events,
    trace (snd (main env cfg w)) = trace w ++ events
    /\ invocations events = [(1%nat, 1%nat)]
    /\ fst (main env cfg w)
       = Raised (match generate_content env 1 (Os.path_join (main_folder cfg) x) with
                 | inl _ => ZeroDivisionError
                 | inr _ => NameError "output_file"
                 end).
Proof.
  intros Hzero Hn Hl. unfold main. rewrite Hl.
  destruct (iteration_n cfg) as [|n] eqn:En; [lia|].
  cbn [seq for_each].
  set (w0 := {| now := now w; files := files w;
                trace := trace w ++ [Print (StartingIteration 1 (S n))] |}).
  destruct (visit_trace env cfg 1 (now w) 1 x w0) as (rest & [_ Ht] & Hinv & _ & Hout).
  rewrite Hzero in Hout.
  assert (Hv : fst (visit env cfg 1 (now w) (1%nat, x) w0)
               = Raised (match generate_content env 1 (Os.path_join (main_folder cfg) x) with
                         | inl _ => ZeroDivisionError
                         | inr _ => NameError "output_file"
                         end)).
  { destruct (generate_content env 1 _); exact Hout. }
  clear Hout.
  assert (Hi : iteration env cfg (x :: l) 1 w
               = (Raised (match generate_content env 1 (Os.path_join (main_folder cfg) x) with
                          | inl _ => ZeroDivisionError
                          | inr _ => NameError "output_file"
                          end),
                  snd (visit env cfg 1 (now w) (1%nat, x) w0))).
  { unfold iteration, enumerate. cbn [length seq combine for_each].
    unfold bind at 1. unfold time at 1. unfold bind at 1. unfold print at 1, emit at 1.
    rewrite En. fold w0.
    unfold bind at 1. rewrite (bind_raised _ _ _ _ Hv). reflexivity. }
  rewrite (bind_raised _ _ _ _ (f_equal fst Hi)), Hi.
  exists (Print (StartingIteration 1 (S n)) :: Invoke 1 1 (now w0) :: rest).
  cbn [fst snd]. split.
  - rewrite Ht. subst w0. cbn [trace]. rewrite <- app_assoc. reflexivity.
  - split; [|reflexivity].
    cbn [invocations List.flat_map app]. fold (invocations rest). rewrite Hinv. reflexivity.
Qed.

Lemma zero_quota_aborts_witness :
  exists events,
    trace (snd (main refusing_backend quota_zero initial_world))
    = trace initial_world ++ events
    /\ invocations events = [(1%nat, 1%nat)]
    /\ fst (main refusing_backend quota_zero initial_world) = Raised ZeroDivisionError.
Proof.
  apply (zero_quota_aborts refusing_backend quota_zero initial_world
           u{"C1"} [u{"C2"}; u{"C3"}; u{"C4"}]);
    [reflexivity | simpl; lia | reflexivity].
Defined.

End ScheduleFacts.

(** ** Answers in two parts *)

Module CompositionFacts.
Import Normalizer Composition.

Lemma store_union (nv : option str) (value : str) (P Q : gmap (list N) (list N)) :
  store nv value (P ∪ Q) = store nv value P ∪ Q.
Proof.
  unfold store. destruct nv as [name|]; [|reflexivity].
  destruct (Py.truthy name); [|reflexivity].
  apply insert_union_l.
Qed.

Lemma marker_literal : is_marker u{"Final answer"} = true.
Proof. vm_compute. reflexivity. Qed.

Lemma split_carried (a b : str) :
  Py.split_lines (carried a ++ b)
  = (if has_marker a then [u{"Final answer"}] else []) ++ Py.split_lines b.
Proof.
  unfold carried. destruct (has_marker a); [|reflexivity].
  rewrite <- app_assoc. change ([10] ++ b) with (10 :: b).
  rewrite PyFacts.split_lines_app. reflexivity.
Qed.

Section Task.

Variable standardize_variable_name : str -> option str.

Hypothesis names_have_upper :
  forall phrase k, standardize_variable_name phrase = Some k -> Py.has_upper k = true.

Abbreviation step := (Normalizer.step standardize_variable_name).
Abbreviation loop := (Normalizer.loop standardize_variable_name).

(** A line of explanation changes no record the loop can reach. *)
Lemma explain_idle (st : state) (v line : str) :
  invariant st -> current_variable st = Some v ->
  explain v line (relevant_points st) = relevant_points st.
Proof.
  intros Hinv Hv. apply NormalizerFacts.explain_absent.
  apply NormalizerFacts.invariant_variable_absent; assumption.
Qed.

(** Two states with the same flag, the record of the first being that of
    the second over [Q], stay so after a line. *)
Lemma step_over (Q : gmap (list N) (list N)) (st st' : state) (line : str) :
  invariant st -> invariant st' ->
  in_final_answer_section st = in_final_answer_section st' ->
  relevant_points st = relevant_points st' ∪ Q ->
  in_final_answer_section (step st line) = in_final_answer_section (step st' line)
  /\ relevant_points (step st line) = relevant_points (step st' line) ∪ Q.
Proof.
  intros Hinv Hinv' Hf Hp. unfold Normalizer.step.
  destruct (is_final_answer_line _); [split; [reflexivity | exact Hp]|].
  destruct (Re.re_match _ _ _) as [m|].
  - cbn [relevant_points in_final_answer_section].
    split; [exact Hf|]. rewrite Hp. apply store_union.
  - destruct (in_final_answer_section st) eqn:Ef;
      destruct (in_final_answer_section st') eqn:Ef'; try discriminate Hf.
    + destruct (Re.re_match _ _ _) as [m|].
      * cbn [relevant_points in_final_answer_section].
        split; [reflexivity|]. rewrite Hp. apply store_union.
      * split; [congruence | exact Hp].
    + destruct (current_variable st) as [v|] eqn:E;
        destruct (current_variable st') as [v'|] eqn:E';
        repeat match goal with
               | |- context [if ?b then _ else _] => destruct b
               end;
        cbn [relevant_points in_final_answer_section];
        rewrite ?(explain_idle st v _ Hinv E), ?(explain_idle st' v' _ Hinv' E');
        (split; [congruence | exact Hp]).
Qed.

Lemma loop_over (Q : gmap (list N) (list N)) (lines : list str) :
  forall st st',
    invariant st -> invariant st' ->
    in_final_answer_section st = in_final_answer_section st' ->
    relevant_points st = relevant_points st' ∪ Q ->
    relevant_points (loop st lines) = relevant_points (loop st' lines) ∪ Q.
Proof.
  induction lines as [|l ls IH]; intros st st' Hinv Hinv' Hf Hp; [exact Hp|].
  cbn [Normalizer.loop fold_left].
  destruct (step_over Q st st' l Hinv Hinv' Hf Hp) as [Hf1 Hp1].
  apply (IH (step st l) (step st' l));
    [apply NormalizerFacts.step_invariant | apply NormalizerFacts.step_invariant | |];
    assumption.
Qed.

Lemma loop_has_marker (lines : list str) (st : state) :
  in_final_answer_section (loop st lines)
  = in_final_answer_section st || existsb is_marker lines.
Proof.
  revert st. induction lines as [|l ls IH]; intros st.
  - simpl. rewrite orb_false_r. reflexivity.
  - cbn [Normalizer.loop fold_left existsb]. fold (loop (step st l) ls). rewrite IH.
    destruct (is_marker l) eqn:E.
    + rewrite (NormalizerFacts.step_marker _ _ _ E). cbn [in_final_answer_section].
      rewrite orb_true_r. reflexivity.
    + rewrite (NormalizerFacts.step_flag_unmarked _ _ _ E). reflexivity.
Qed.

Lemma forget_invariant (st : state) : invariant (forget st).
Proof.
  split; cbn.
  - intros k [v Hv]. rewrite lookup_empty in Hv. discriminate.
  - intros v Hv. discriminate.
Qed.

Lemma loop_carried (a b : str) :
  loop initial (Py.split_lines (carried a ++ b))
  = loop (forget (loop initial (Py.split_lines a))) (Py.split_lines b).
Proof.
  rewrite split_carried. unfold forget. rewrite loop_has_marker.
  fold (has_marker a). cbn [in_final_answer_section initial orb].
  destruct (has_marker a); [|reflexivity].
  cbn [app Normalizer.loop fold_left].
  rewrite (NormalizerFacts.step_marker _ _ _ marker_literal). reflexivity.
Qed.

Lemma two_parts (a b : str) :
  Normalizer.extract_bullet_points standardize_variable_name (a ++ 10 :: b)
  = Normalizer.extract_bullet_points standardize_variable_name (carried a ++ b)
    ∪ Normalizer.extract_bullet_points standardize_variable_name a.
Proof.
  unfold Normalizer.extract_bullet_points.
  rewrite PyFacts.split_lines_app, NormalizerFacts.loop_app, loop_carried.
  apply loop_over.
  - apply (NormalizerFacts.loop_invariant _ names_have_upper),
      NormalizerFacts.invariant_initial.
  - apply forget_invariant.
  - reflexivity.
  - cbn [forget relevant_points]. rewrite (left_id_L ∅ (∪)). reflexivity.
Qed.

End Task.

(** The same for the disease-course loop, which has no branch for lines of
    explanation. *)
Lemma discourse_step_over (Q : gmap (list N) (list N)) (st st' : state) (line : str) :
  in_final_answer_section st = in_final_answer_section st' ->
  relevant_points st = relevant_points st' ∪ Q ->
  in_final_answer_section (DisCourse_local.step st line)
  = in_final_answer_section (DisCourse_local.step st' line)
  /\ relevant_points (DisCourse_local.step st line)
     = relevant_points (DisCourse_local.step st' line) ∪ Q.
Proof.
  intros Hf Hp. unfold DisCourse_local.step.
  destruct (is_final_answer_line _); [split; [reflexivity | exact Hp]|].
  destruct (Re.re_match _ _ _) as [m|].
  - cbn [relevant_points in_final_answer_section].
    split; [exact Hf|]. rewrite Hp. apply store_union.
  - destruct (in_final_answer_section st) eqn:Ef;
      destruct (in_final_answer_section st') eqn:Ef'; try discriminate Hf.
    + destruct (Re.re_match _ _ _) as [m|].
      * cbn [relevant_points in_final_answer_section].
        split; [reflexivity|]. rewrite Hp. apply store_union.
      * split; [congruence | exact Hp].
    + split; [congruence | exact Hp].
Qed.

Lemma discourse_loop_over (Q : gmap (list N) (list N)) (lines : list str) :
  forall st st',
    in_final_answer_section st = in_final_answer_section st' ->
    relevant_points st = relevant_points st' ∪ Q ->
    relevant_points (fold_left DisCourse_local.step lines st)
    = relevant_points (fold_left DisCourse_local.step lines st') ∪ Q.
Proof.
  induction lines as [|l ls IH]; intros st st' Hf Hp; [exact Hp|].
  cbn [fold_left].
  destruct (discourse_step_over Q st st' l Hf Hp) as [Hf1 Hp1].
  apply IH; assumption.
Qed.

Lemma discourse_step_marker (st : state) (line : str) :
  in_final_answer_section (DisCourse_local.step st line)
  = in_final_answer_section st || is_marker line.
Proof.
  unfold DisCourse_local.step, is_marker.
  destruct (is_final_answer_line _).
  - cbn [in_final_answer_section]. rewrite orb_true_r. reflexivity.
  - rewrite orb_false_r. destruct (Re.re_match _ _ _); [reflexivity|].
    destruct (in_final_answer_section st) eqn:Ef; [|exact Ef].
    destruct (Re.re_match _ _ _); [reflexivity | exact Ef].
Qed.

Lemma discourse_loop_has_marker (lines : list str) (st : state) :
  in_final_answer_section (fold_left DisCourse_local.step lines st)
  = in_final_answer_section st || existsb is_marker lines.
Proof.
  revert st. induction lines as [|l ls IH]; intros st.
  - simpl. rewrite orb_false_r. reflexivity.
  - cbn [fold_left existsb]. rewrite IH, discourse_step_marker, orb_assoc. reflexivity.
Qed.

Lemma discourse_two_parts (a b : str) :
  DisCourse_local.extract_bullet_points (a ++ 10 :: b)
  = DisCourse_local.extract_bullet_points (carried a ++ b)
    ∪ DisCourse_local.extract_bullet_points a.
Proof.
  unfold DisCourse_local.extract_bullet_points.
  rewrite PyFacts.split_lines_app, fold_left_app, split_carried.
  assert (E : fold_left DisCourse_local.step
                ((if has_marker a then [u{"Final answer"}] else [])
                 ++ Py.split_lines b) initial
              = fold_left DisCourse_local.step (Py.split_lines b)
                  (forget (fold_left DisCourse_local.step (Py.split_lines a) initial))).
  { unfold forget. rewrite discourse_loop_has_marker. fold (has_marker a).
    cbn [in_final_answer_section initial orb].
    destruct (has_marker a); [|reflexivity].
    cbn [app fold_left]. f_equal; vm_compute; reflexivity. }
  rewrite E.
  apply discourse_loop_over.
  - reflexivity.
  - cbn [forget relevant_points]. rewrite (left_id_L ∅ (∪)). reflexivity.
Qed.

(** X7. An answer in two parts.  In the three scripts the record of a text
    [a], a line feed and a text [b] is the record of [b] laid over the record
    of [a]: an entry of [b] replaces the entry of [a] for the same variable,
    every other entry of [a] is kept.  The only thing [a] hands on to the
    lines of [b] is whether it held the final-answer marker; [b] is then read
    as if a marker line came before it. *)
Theorem answers_compose (a b : str) :
  PreOP_Gemini.extract_bullet_points (a ++ 10 :: b)
  = PreOP_Gemini.extract_bullet_points (carried a ++ b)
    ∪ PreOP_Gemini.extract_bullet_points a
  /\ PostOP_Claude.extract_bullet_points (a ++ 10 :: b)
     = PostOP_Claude.extract_bullet_points (carried a ++ b)
       ∪ PostOP_Claude.extract_bullet_points a
  /\ DisCourse_local.extract_bullet_points (a ++ 10 :: b)
     = DisCourse_local.extract_bullet_points (carried a ++ b)
       ∪ DisCourse_local.extract_bullet_points a.
Proof.
  split; [|split].
  - apply two_parts, PreOP_Gemini_Facts.canonical_has_upper.
  - apply two_parts, PostOP_Claude_Facts.names_have_upper.
  - apply discourse_two_parts.
Qed.

(** [answers_compose] for a first part whose only line has a Greek letter
    right before the words [final answer]: that is no marker, nothing is
    handed on, and the bare line of the second part gives no entry. *)
Lemma answers_compose_witness :
  Composition.carried (945 :: u{"final answer"}) = []
  /\ PostOP_Claude.extract_bullet_points ((945 :: u{"final answer"}) ++ 10 :: u{"Infection: No"})
     = PostOP_Claude.extract_bullet_points
         (Composition.carried (945 :: u{"final answer"}) ++ u{"Infection: No"})
       ∪ PostOP_Claude.extract_bullet_points (945 :: u{"final answer"})
  /\ PostOP_Claude.extract_bullet_points ((945 :: u{"final answer"}) ++ 10 :: u{"Infection: No"})
     = ∅.
Proof.
  split; [vm_compute; reflexivity|]. split; [|vm_compute; reflexivity].
  exact (proj1 (proj2 (answers_compose (945 :: u{"final answer"}) u{"Infection: No"}))).
Defined.

(** X8. No entry is ever removed: a variable that has an entry in the record
    of a text has one in the record of the text followed by further lines,
    in the three scripts. *)
Theorem entries_are_kept (a b k : str) :
  (is_Some (PreOP_Gemini.extract_bullet_points a !! k) ->
   is_Some (PreOP_Gemini.extract_bullet_points (a ++ 10 :: b) !! k))
  /\ (is_Some (PostOP_Claude.extract_bullet_points a !! k) ->
      is_Some (PostOP_Claude.extract_bullet_points (a ++ 10 :: b) !! k))
  /\ (is_Some (DisCourse_local.extract_bullet_points a !! k) ->
      is_Some (DisCourse_local.extract_bullet_points (a ++ 10 :: b) !! k)).
Proof.
  split; [|split]; intros Hk.
  - unfold PreOP_Gemini.extract_bullet_points in *.
    rewrite (two_parts _ PreOP_Gemini_Facts.canonical_has_upper).
    apply lookup_union_is_Some. right. exact Hk.
  - unfold PostOP_Claude.extract_bullet_points in *.
    rewrite (two_parts _ PostOP_Claude_Facts.names_have_upper).
    apply lookup_union_is_Some. right. exact Hk.
  - rewrite discourse_two_parts.
    apply lookup_union_is_Some. right. exact Hk.
Qed.

End CompositionFacts.

(** ** Folder names *)

Module OsFacts.
Import Os.

Lemma select_slash {A : Type} (y : N) (X Y : A) :
  match y with 47 => X | _ => Y end = if y =? 47 then X else Y.
Proof.
  destruct y as [|p]; [reflexivity|].
  repeat (destruct p as [p|p|]; try reflexivity).
Qed.

Lemma basename_app_slash (a b : str) : basename (a ++ 47 :: b) = basename b.
Proof.
  induction a as [|c a IH].
  - reflexivity.
  - change (basename ((c :: a) ++ 47 :: b))
      with (if existsb (N.eqb 47) (c :: a ++ 47 :: b) then basename (a ++ 47 :: b)
            else c :: a ++ 47 :: b).
    assert (E : existsb (N.eqb 47) (c :: a ++ 47 :: b) = true).
    { apply existsb_exists. exists 47. split; [|reflexivity].
      right. apply in_or_app. right. left. reflexivity. }
    rewrite E. exact IH.
Qed.

Lemma basename_plain (b : str) : existsb (N.eqb 47) b = false -> basename b = b.
Proof.
  destruct b as [|c b]; [reflexivity|]. intros E. cbn [basename]. rewrite E. reflexivity.
Qed.

(** A name that does not start with a slash is joined to the folder after a
    slash, or stands alone when the folder is empty. *)
Lemma path_join_shape (a b : str) :
  match b with c :: _ => (47 =? c) = false | [] => True end ->
  path_join a b = b \/ exists a', path_join a b = a' ++ 47 :: b.
Proof.
  intros Hb. unfold path_join.
  assert (Hrest : match List.rev a with
                  | [] => b
                  | 47 :: _ => a ++ b
                  | _ :: _ => a ++ 47 :: b
                  end = b
                  \/ exists a', match List.rev a with
                                | [] => b
                                | 47 :: _ => a ++ b
                                | _ :: _ => a ++ 47 :: b
                                end = a' ++ 47 :: b).
  { destruct (List.rev a) as [|x r] eqn:E; [left; reflexivity|].
    right. rewrite select_slash. destruct (N.eqb_spec x 47) as [->|_].
    - exists (List.rev r). rewrite <- (rev_involutive a), E. simpl.
      rewrite <- app_assoc. reflexivity.
    - exists a. reflexivity. }
  destruct b as [|c b]; [exact Hrest|].
  rewrite select_slash. rewrite N.eqb_sym, Hb. exact Hrest.
Qed.

(** X9. The name under which a case is reported and stored is the name of
    its folder as listed: for a name without a slash, [os.path.basename] of
    [os.path.join(main_folder, name)] is that name, whatever [main_folder]
    is, with or without a slash at its end. *)
Theorem basename_of_join (folder name : str) :
  existsb (N.eqb 47) name = false ->
  basename (path_join folder name) = name.
Proof.
  intros H.
  destruct (path_join_shape folder name) as [->|[a' ->]].
  - destruct name as [|c b]; [exact I|]. simpl in H. apply orb_false_iff in H. tauto.
  - apply basename_plain, H.
  - rewrite basename_app_slash. apply basename_plain, H.
Qed.

Lemma basename_of_join_witness :
  basename (path_join u{"path/to/your/input/documents"} u{"C7"}) = u{"C7"}.
Proof.
  apply (basename_of_join u{"path/to/your/input/documents"} u{"C7"}). reflexivity.
Defined.

End OsFacts.

(** ** The post-operative run *)

Module PostOP_Run_Facts.
Import PostOP_Claude_Run.

Lemma claude_new_row (data : gmap (list N) Pandas.cell) :
  Pandas.of_record (fill_missing data) columns
  = {| Pandas.columns := columns; Pandas.rows := [row_of data] |}.
Proof.
  unfold Pandas.of_record, row_of. do 2 f_equal.
  apply map_ext. intros c. unfold fill_missing. apply AccumulatorFacts.fill_lookup.
Qed.

Lemma claude_save_run (env : environment) (data : gmap (list N) Pandas.cell) (path : str)
    (w : world) (old : list (list Pandas.cell)) :
  reload env path w = {| Pandas.columns := columns; Pandas.rows := old |} ->
  Forall (Pandas.laid_out columns) old ->
  save_to_excel env data path w
  = if writable env path then
      (Returned tt,
       {| files := <[path := {| Pandas.columns := columns;
                                Pandas.rows := old ++ [row_of data] |}]> (files w);
          stdout := stdout w |})
    else (Raised OSError, w).
Proof.
  intros Hre Hold.
  unfold save_to_excel, bind, read_excel, to_excel. cbn [fst snd].
  rewrite claude_new_row.
  replace (match read_back env <$> files w !! path with
           | Some df => df
           | None => Pandas.empty columns
           end) with (reload env path w)
    by (unfold reload; destruct (files w !! path); reflexivity).
  rewrite Hre. unfold row_of.
  rewrite (PandasFacts.concat_same_columns columns old _ Hold). reflexivity.
Qed.

Section Run.

Variable env : environment.
Variable cfg : config.

Abbreviation out := (output_file cfg).

Lemma rows_of_cons (x : str) (l : list str) :
  rows_of env cfg (x :: l) = rows_of env cfg [x] ++ rows_of env cfg l.
Proof.
  unfold rows_of, answered. cbn [List.flat_map]. rewrite app_nil_r. apply map_app.
Qed.

Lemma rows_of_one (x : str) :
  rows_of env cfg [x]
  = match messages_create env (Os.path_join (main_folder cfg) x) with
    | inl _ => []
    | inr text => [row_of (data_of env (Os.path_join (main_folder cfg) x) text)]
    end.
Proof.
  unfold rows_of, answered. cbn [List.flat_map]. rewrite app_nil_r.
  destruct (messages_create env _); reflexivity.
Qed.

Lemma rows_of_none (l : list str) : answered env cfg l = [] <-> rows_of env cfg l = [].
Proof.
  unfold rows_of. destruct (answered env cfg l); cbn [List.map]; split; congruence.
Qed.

Lemma claude_visit_run (total : nat) (i : nat) (subfolder : str) (w : world)
    (old : list (list Pandas.cell)) :
  reload env out w = {| Pandas.columns := columns; Pandas.rows := old |} ->
  Forall (Pandas.laid_out columns) old ->
  visit env cfg total tt (i, subfolder) w
  = match messages_create env (Os.path_join (main_folder cfg) subfolder) with
    | inl _ =>
        (Returned tt,
         {| files := files w; stdout := stdout w ++ report env cfg total (i, subfolder) |})
    | inr text =>
        if writable env out then
          (Returned tt,
           {| files := <[out := {| Pandas.columns := columns;
                                   Pandas.rows := old ++ rows_of env cfg [subfolder] |}]>
                         (files w);
              stdout := stdout w ++ report env cfg total (i, subfolder) |})
        else
          (Raised OSError,
           {| files := files w;
              stdout := stdout w ++ [ProcessingSubfolder i total subfolder] |})
    end.
Proof.
  intros Hre Hold. rewrite rows_of_one.
  unfold visit, process_and_run_llm_for_subfolder, report, bind, print.
  cbn [fst snd files stdout].
  destruct (messages_create env (Os.path_join (main_folder cfg) subfolder)) as [e|text].
  - cbn [app files stdout]. rewrite <- app_assoc. reflexivity.
  - assert (Hre' : reload env out
                     {| files := files w;
                        stdout := stdout w ++ [ProcessingSubfolder i total subfolder] |}
                   = {| Pandas.columns := columns; Pandas.rows := old |}) by exact Hre.
    rewrite (claude_save_run env _ _ _ old Hre' Hold).
    destruct (writable env out); [|reflexivity].
    cbn [files stdout]. rewrite <- app_assoc. reflexivity.
Qed.

Lemma for_each_step {A S : Type} (body : S -> A -> M S) (x : A) (xs : list A) (s : S)
    (w : world) :
  for_each body (x :: xs) s w
  = match body s x w with
    | (Returned s', w') => for_each body xs s' w'
    | (Raised e, w') => (Raised e, w')
    end.
Proof. reflexivity. Qed.

(** The loop over the cases when no request is answered. *)
Lemma claude_loop_refused (total : nat) (l : list str) :
  answered env cfg l = [] ->
  forall (p : nat) (w : world),
    for_each (visit env cfg total) (combine (seq p (length l)) l) tt w
    = (Returned tt,
       {| files := files w;
          stdout := stdout w
                    ++ List.flat_map (report env cfg total) (combine (seq p (length l)) l) |}).
Proof.
  induction l as [|x l IH]; intros Hnone p w.
  - cbn. rewrite app_nil_r. destruct w; reflexivity.
  - cbn [length seq combine List.flat_map]. rewrite for_each_step.
    unfold answered in Hnone. cbn [List.flat_map] in Hnone.
    apply app_eq_nil in Hnone as [Hx Hl].
    unfold visit, process_and_run_llm_for_subfolder, bind, print. cbn [fst snd files stdout].
    unfold report at 1. cbn [fst snd].
    destruct (messages_create env (Os.path_join (main_folder cfg) x)) as [e|text];
      [|discriminate Hx].
    rewrite (IH Hl). cbn [files stdout]. rewrite <- !app_assoc. reflexivity.
Qed.

(** The loop over the cases when the workbook can be written and is read
    back as it was written. *)
Lemma claude_loop_run (total : nat) (l : list str) :
  writable env out = true ->
  forall (p : nat) (w : world) (old : list (list Pandas.cell)),
    reload env out w = {| Pandas.columns := columns; Pandas.rows := old |} ->
    Forall (Pandas.laid_out columns) old ->
    read_as_written env cfg old l ->
    let r := for_each (visit env cfg total) (combine (seq p (length l)) l) tt w in
    fst r = Returned tt
    /\ stdout (snd r)
       = stdout w ++ List.flat_map (report env cfg total) (combine (seq p (length l)) l)
    /\ reload env out (snd r)
       = {| Pandas.columns := columns; Pandas.rows := old ++ rows_of env cfg l |}
    /\ (forall path, path <> out -> files (snd r) !! path = files w !! path)
    /\ (answered env cfg l = [] -> files (snd r) = files w)
    /\ (answered env cfg l <> [] ->
        files (snd r) !! out
        = Some {| Pandas.columns := columns; Pandas.rows := old ++ rows_of env cfg l |}).
Proof.
  intros Hw. induction l as [|x l IH]; intros p w old Hre Hold Hread.
  - cbn. rewrite !app_nil_r. repeat split; try reflexivity; [exact Hre | congruence].
  - cbn [length seq combine List.flat_map]. cbn zeta.
    rewrite for_each_step, (claude_visit_run total p x w old Hre Hold), Hw.
    rewrite (rows_of_cons x l). pose proof (rows_of_one x) as Hone.
    unfold read_as_written in Hread. rewrite (rows_of_cons x l) in Hread.
    destruct (messages_create env (Os.path_join (main_folder cfg) x)) as [e|text] eqn:Hx.
    + rewrite Hone in *. cbn [app] in *.
      set (w1 := {| files := files w; stdout := _ |}).
      destruct (IH (S p) w1 old Hre Hold Hread) as (Hret & Hout & Hfinal & Hother & Hnone & Hsome).
      cbn zeta in *.
      assert (Ha : answered env cfg (x :: l) = answered env cfg l).
      { unfold answered. cbn [List.flat_map]. rewrite Hx. reflexivity. }
      rewrite Ha.
      split; [exact Hret|].
      split; [rewrite Hout; subst w1; cbn [stdout]; rewrite <- app_assoc; reflexivity|].
      split; [exact Hfinal|]. split; [exact Hother|]. split; assumption.
    + rewrite Hone in *.
      set (row := row_of (data_of env (Os.path_join (main_folder cfg) x) text)) in *.
      set (w1 := {| files := <[out := _]> (files w); stdout := _ |}).
      assert (Hfile : files w1 !! out
                      = Some {| Pandas.columns := columns; Pandas.rows := old ++ [row] |})
        by (subst w1; cbn [files]; apply lookup_insert_eq).
      assert (Hre1 : reload env out w1
                     = {| Pandas.columns := columns; Pandas.rows := old ++ [row] |}).
      { unfold reload. rewrite Hfile. apply (Hread 1%nat).
        cbn [app length]. lia. }
      assert (Hold1 : Forall (Pandas.laid_out columns) (old ++ [row])).
      { apply Forall_app. split; [exact Hold|].
        constructor; [|constructor]. eexists. reflexivity. }
      destruct (IH (S p) w1 (old ++ [row]) Hre1 Hold1)
        as (Hret & Hout & Hfinal & Hother & Hnone & Hsome).
      { intros n Hn. rewrite <- app_assoc. apply (Hread (S n)).
        cbn [app length]. lia. }
      cbn zeta in *. rewrite <- app_assoc in Hfinal, Hsome.
      split; [exact Hret|].
      split; [rewrite Hout; subst w1; cbn [stdout]; rewrite <- app_assoc; reflexivity|].
      split; [exact Hfinal|].
      split.
      { intros path Hpath. rewrite (Hother path Hpath). subst w1. cbn [files].
        apply lookup_insert_ne. congruence. }
      split.
      { intros Hempty. unfold answered in Hempty. cbn [List.flat_map] in Hempty.
        rewrite Hx in Hempty. discriminate Hempty. }
      intros _. destruct (answered env cfg l) as [|answer rest] eqn:El.
      * rewrite (Hnone eq_refl).
        assert (Hr : rows_of env cfg l = []) by (apply rows_of_none, El).
        rewrite Hr, Hfile. reflexivity.
      * apply Hsome. discriminate.
Qed.

(** The loop over the cases when the workbook cannot be written: it ends at
    the first case whose request is answered. *)
Lemma claude_loop_raises (total : nat) (before : list str) (x : str) (after : list str)
    (text : list N) :
  writable env out = false ->
  answered env cfg before = [] ->
  messages_create env (Os.path_join (main_folder cfg) x) = inr text ->
  forall (p : nat) (w : world) (old : list (list Pandas.cell)),
    reload env out w = {| Pandas.columns := columns; Pandas.rows := old |} ->
    Forall (Pandas.laid_out columns) old ->
    for_each (visit env cfg total)
      (combine (seq p (length (before ++ x :: after))) (before ++ x :: after)) tt w
    = (Raised OSError,
       {| files := files w;
          stdout := stdout w
                    ++ List.flat_map (report env cfg total)
                         (combine (seq p (length before)) before)
                    ++ [ProcessingSubfolder (p + length before) total x] |}).
Proof.
  intros Hw Hnone Hx. induction before as [|y before IH]; intros p w old Hre Hold.
  - cbn [app length seq combine List.flat_map]. rewrite for_each_step.
    rewrite (claude_visit_run total p x w old Hre Hold), Hx, Hw.
    rewrite Nat.add_0_r. reflexivity.
  - cbn [app length seq combine List.flat_map]. rewrite for_each_step.
    unfold answered in Hnone. cbn [List.flat_map] in Hnone.
    apply app_eq_nil in Hnone as [Hy Hb].
    rewrite (claude_visit_run total p y w old Hre Hold).
    destruct (messages_create env (Os.path_join (main_folder cfg) y)) as [e|t] eqn:Ey;
      [|discriminate Hy].
    set (w1 := {| files := files w; stdout := _ |}).
    rewrite (IH Hb (S p) w1 old Hre Hold). subst w1. cbn [files stdout].
    rewrite <- !app_assoc. replace (S p + length before)%nat with (p + S (length before))%nat by lia.
    reflexivity.
Qed.

End Run.

(** X10. The post-operative run.  Started with a workbook that is absent or
    is read as a frame with the expected columns, [main] leaves at
    [output_file] the rows that were there followed by one row per answered
    case, in the order of the folder list, provided the workbook can be
    written and [pd.read_excel] returns every workbook written on the way as
    the frame it was written from; the row of a case holds the values parsed
    from the stripped answer, the stripped answer and the context, and
    nothing for a complication the answer does not settle.  A case whose
    request raises adds no row and is reported; no other workbook is touched,
    and when no request is answered no workbook is written at all.  Two lines
    are printed per case and one at the end.  When the workbook cannot be
    written, as when its folder is missing, the run ends in [OSError] at the
    first case whose request is answered: nothing is stored, and the cases
    after it are not processed. *)
Theorem answered_cases_are_appended (env : environment) (cfg : config) (w : world) :
  well_formed (reload env (output_file cfg) w) ->
  let subfolders := firstn (n_subfolders cfg) (subdirectories env) in
  let w' := snd (main env cfg w) in
  let printed :=
    List.flat_map (report env cfg (length subfolders))
      (combine (seq 1 (length subfolders)) subfolders) in
  (writable env (output_file cfg) = true ->
   read_as_written env cfg (Pandas.rows (reload env (output_file cfg) w)) subfolders ->
   fst (main env cfg w) = Returned tt
   /\ reload env (output_file cfg) w'
      = {| Pandas.columns := columns;
           Pandas.rows :=
             Pandas.rows (reload env (output_file cfg) w)
             ++ List.map (fun answer => row_of (data_of env (fst answer) (snd answer)))
                  (answered env cfg subfolders) |}
   /\ (forall path, path <> output_file cfg -> files w' !! path = files w !! path)
   /\ (answered env cfg subfolders <> [] ->
       files w' !! output_file cfg = Some (reload env (output_file cfg) w'))
   /\ stdout w' = stdout w ++ printed ++ [TotalProcessingTime])
  /\ (answered env cfg subfolders = [] ->
      fst (main env cfg w) = Returned tt
      /\ files w' = files w
      /\ stdout w' = stdout w ++ printed ++ [TotalProcessingTime])
  /\ (writable env (output_file cfg) = false ->
      forall before subfolder after text,
        subfolders = before ++ subfolder :: after ->
        answered env cfg before = [] ->
        messages_create env (Os.path_join (main_folder cfg) subfolder) = inr text ->
        fst (main env cfg w) = Raised OSError
        /\ files w' = files w
        /\ stdout w'
           = stdout w
             ++ List.flat_map (report env cfg (length subfolders))
                  (combine (seq 1 (length before)) before)
             ++ [ProcessingSubfolder (S (length before)) (length subfolders) subfolder]).
Proof.
  intros [Hcols Hrows] subfolders w' printed. subst w' printed. unfold main.
  fold subfolders.
  assert (Hre : reload env (output_file cfg) w
                = {| Pandas.columns := columns;
                     Pandas.rows := Pandas.rows (reload env (output_file cfg) w) |}).
  { destruct (reload env (output_file cfg) w); cbn in *; congruence. }
  split; [|split].
  - intros Hw Hread.
    destruct (claude_loop_run env cfg (length subfolders) subfolders Hw 1 w _ Hre Hrows Hread)
      as (Hret & Hout & Hfinal & Hother & Hnone & Hsome).
    cbn zeta in *. unfold bind, print.
    destruct (for_each (visit env cfg (length subfolders))
                (combine (seq 1 (length subfolders)) subfolders) tt w) as [[[]|e] w1];
      cbn [fst snd files stdout] in *; [|discriminate Hret].
    split; [reflexivity|].
    assert (Hfinal' : reload env (output_file cfg)
                        {| files := files w1; stdout := stdout w1 ++ [TotalProcessingTime] |}
                      = reload env (output_file cfg) w1) by reflexivity.
    rewrite Hfinal'.
    split; [exact Hfinal|]. split; [exact Hother|].
    split; [intros Hne; rewrite Hfinal; apply Hsome, Hne|].
    rewrite Hout, <- app_assoc. reflexivity.
  - intros Hnone. unfold bind, print.
    rewrite (claude_loop_refused env cfg (length subfolders) subfolders Hnone 1 w).
    cbn [fst snd files stdout]. rewrite <- app_assoc. auto.
  - intros Hw before subfolder after text Hsplit Hnone Hx. unfold bind, print.
    pose proof (claude_loop_raises env cfg (length subfolders) before subfolder after text
                  Hw Hnone Hx 1 w _ Hre Hrows) as Hloop.
    rewrite <- Hsplit in Hloop. rewrite Hloop.
    cbn [fst snd files stdout]. auto.
Qed.

(** [answered_cases_are_appended] for three cases, the second of which is
    refused, with a reader that takes the missing-value spellings for empty
    cells; and for the same cases when the folder of the workbook is
    missing. *)
Lemma answered_cases_are_appended_witness :
  List.map (fun row => Pandas.at_column columns row u{"Infection"})
    (Pandas.rows (reload sample_backend (output_file source_config)
                    (snd (main sample_backend source_config initial_world))))
  = [Some (Pandas.Text u{"Yes"}); Some (Pandas.Text u{"Yes"})]
  /\ fst (main (read_only sample_backend) source_config initial_world) = Raised OSError
  /\ files (snd (main (read_only sample_backend) source_config initial_world)) = ∅.
Proof.
  split.
  - destruct (proj1 (answered_cases_are_appended sample_backend source_config initial_world
                       (conj eq_refl (Forall_nil_2 _))) eq_refl)
      as (_ & H & _).
    + intros n Hn.
      assert (Hlen : length (rows_of sample_backend source_config
                               (firstn (n_subfolders source_config)
                                  (subdirectories sample_backend))) = 2%nat)
        by (vm_compute; reflexivity).
      rewrite Hlen in Hn.
      destruct n as [|[|[|n]]]; [lia | | | lia]; vm_compute; reflexivity.
    + rewrite H. vm_compute. reflexivity.
  - destruct (proj2 (proj2 (answered_cases_are_appended (read_only sample_backend)
                              source_config initial_world
                              (conj eq_refl (Forall_nil_2 _))))
                eq_refl [] u{"P1"} [u{"P2"}; u{"P3"}]
                (Normalizer.join_lines [u{"Final answer:"}; u{" - Infection: Yes "}])
                eq_refl eq_refl eq_refl)
      as (H1 & H2 & _).
    split; [exact H1 | exact H2].
Defined.

End PostOP_Run_Facts.

(** ** The records of the disease-course script *)

Module DisCourse_Records_Facts.
Import DisCourse_local DisCourse_Records.

Ltac pick_member := repeat first [left; reflexivity | right].

Lemma discourse_range (phrase k : str) :
  standardize_variable_name phrase = Some k -> In k columns /\ ~ In k provenance.
Proof.
  unfold standardize_variable_name.
  repeat match goal with
  | |- context [if ?b then _ else _] => destruct b
  end; intros [= <-]; (split; [unfold columns; pick_member|]);
    unfold provenance; intros H;
    repeat (destruct H as [H|H]; [discriminate H|]); exact H.
Qed.

Lemma discourse_step_keys (st : Normalizer.state) (line k : str) :
  is_Some (Normalizer.relevant_points (step st line) !! k) ->
  is_Some (Normalizer.relevant_points st !! k)
  \/ exists phrase, standardize_variable_name phrase = Some k.
Proof.
  unfold step.
  destruct (Normalizer.is_final_answer_line _); [auto|].
  destruct (Re.re_match _ _ _) as [m|].
  - cbn [Normalizer.relevant_points]. intros H.
    apply NormalizerFacts.store_lookup in H as [H|H]; eauto.
  - destruct (Normalizer.in_final_answer_section st); [|auto].
    destruct (Re.re_match _ _ _) as [m|]; [|auto].
    cbn [Normalizer.relevant_points]. intros H.
    apply NormalizerFacts.store_lookup in H as [H|H]; eauto.
Qed.

Lemma discourse_keys (text k : str) :
  is_Some (extract_bullet_points text !! k) ->
  exists phrase, standardize_variable_name phrase = Some k.
Proof.
  unfold extract_bullet_points.
  assert (H : forall lines st,
            is_Some (Normalizer.relevant_points (fold_left step lines st) !! k) ->
            is_Some (Normalizer.relevant_points st !! k)
            \/ exists phrase, standardize_variable_name phrase = Some k).
  { induction lines as [|l ls IH]; intros st Hk; [auto|].
    cbn [fold_left] in Hk. apply IH in Hk as [Hk|Hk]; [|auto].
    apply discourse_step_keys in Hk. exact Hk. }
  intros Hk. apply H in Hk as [[v Hv]|Hk]; [|exact Hk].
  cbn in Hv. rewrite lookup_empty in Hv. discriminate Hv.
Qed.

(** X11. The records of the disease-course script.  A request that is answered
    (status 200, body read to its end) gives exactly one record, also when
    nothing could be parsed from the answer, and the line that reports it;
    the record holds the two anonymised names, the joined [response] fields
    and the context, every parsed entry unchanged beside them, and no key
    outside the columns of [save_to_excel].  A request that is not answered
    gives no record and one line, which is not the line of a saved
    response. *)
Theorem records_fit_the_schema (env : environment) (cfg : config) (i : nat)
    (subfolder : str) :
  let path := Os.path_join (main_folder cfg) subfolder in
  match full_response_of (post env i path) with
  | Some full_response =>
      exists data,
        contribution env cfg i subfolder = [data]
        /\ messages env cfg i subfolder = [ResponseSaved (Os.basename path)]
        /\ data !! u{"Surname"} = Some u{"ANONYMIZED"}
        /\ data !! u{"Name"} = Some u{"ANONYMIZED"}
        /\ data !! u{"AI response"} = Some full_response
        /\ data !! u{"Parsed Data"} = Some (context_of env path)
        /\ (forall k, ~ In k provenance ->
              data !! k = extract_bullet_points full_response !! k)
        /\ (forall k, is_Some (data !! k) -> In k columns)
  | None =>
      contribution env cfg i subfolder = []
      /\ exists line,
           messages env cfg i subfolder = [line]
           /\ forall name, line <> ResponseSaved name
  end.
Proof.
  intros path. unfold contribution, messages, visit, bind,
    process_and_run_llm_for_subfolder, full_response_of. fold path.
  destruct (post env i path) as [e|status lines [e|]].
  - cbn. split; [reflexivity|]. eexists. split; [reflexivity|]. discriminate.
  - destruct (status =? 200)%Z; cbn;
      (split; [reflexivity|]; eexists; split; [reflexivity|]; discriminate).
  - destruct (status =? 200)%Z; cbn [negb];
      [|cbn; split; [reflexivity|]; eexists; split; [reflexivity|]; discriminate].
    set (full_response := List.concat (responses_of lines)).
    set (data := <[u{"Parsed Data"} := context_of env path]> _).
    assert (Hprov : forall k, ~ In k provenance ->
              data !! k = extract_bullet_points full_response !! k).
    { intros k Hk. subst data. unfold provenance in Hk.
      rewrite !lookup_insert_ne; [reflexivity| | | |];
        intros <-; apply Hk; pick_member. }
    assert (Htruthy : dict_truthy data = true).
    { unfold dict_truthy. apply negb_true_iff, bool_decide_eq_false.
      intros Hempty.
      assert (Hl : data !! u{"Parsed Data"} = Some (context_of env path))
        by (subst data; apply lookup_insert_eq).
      rewrite Hempty, lookup_empty in Hl. discriminate Hl. }
    exists data. unfold bind, print, ret. cbn [fst snd stdout files initial_world app].
    rewrite Htruthy. cbn [fst snd stdout app].
    split; [reflexivity|]. split; [reflexivity|].
    split; [subst data; rewrite lookup_insert_ne by discriminate;
            rewrite lookup_insert_ne by discriminate;
            rewrite lookup_insert_ne by discriminate; apply lookup_insert_eq|].
    split; [subst data; rewrite lookup_insert_ne by discriminate;
            rewrite lookup_insert_ne by discriminate; apply lookup_insert_eq|].
    split; [subst data; rewrite lookup_insert_ne by discriminate;
            apply lookup_insert_eq|].
    split; [subst data; apply lookup_insert_eq|].
    split; [exact Hprov|].
    intros k Hk. destruct (in_dec (fun a b : str => decide (a = b)) k provenance) as [Hin|Hout].
    + unfold provenance in Hin. unfold columns.
      repeat (destruct Hin as [<-|Hin]; [pick_member|]). destruct Hin.
    + rewrite (Hprov k Hout) in Hk.
      apply discourse_keys in Hk as [phrase Hphrase].
      exact (proj1 (discourse_range phrase k Hphrase)).
Qed.

End DisCourse_Records_Facts.

(** ** The matcher finds matches only *)

Module ReFacts.
Import Re ReSemantics.

Section Sound.

Variable ignorecase : bool.

Lemma run_sound (r : regex) :
  forall p cs k res,
    run ignorecase r p cs k = Some res ->
    exists p' cs', den ignorecase r p cs p' cs' /\ k p' cs' = Some res.
Proof.
  induction r as [|a| | |r1 IH1 r2 IH2|r1 IH1 r2 IH2|greedy r1 IH1|n r1 IH1];
    intros p cs k res H.
  - cbn [run den] in *. eauto.
  - cbn [run den] in *. destruct (snd p) as [|c rest] eqn:E; [discriminate H|].
    destruct (atom_matches ignorecase a c) eqn:Ea; [|discriminate H].
    exists (Some c, rest), cs. split; [|exact H]. exists c, rest. auto.
  - cbn [run den] in *. destruct (fst p) eqn:E; [discriminate H|]. eauto 6.
  - cbn [run den] in *. destruct (xorb _ _) eqn:E; [|discriminate H]. eauto 6.
  - cbn [run den] in *.
    apply IH1 in H as (q & csq & H1 & H). apply IH2 in H as (p' & cs' & H2 & H).
    eauto 8.
  - cbn [run den] in *. destruct (run ignorecase r1 p cs k) as [res1|] eqn:E.
    + injection H as <-. apply IH1 in E as (p' & cs' & H1 & E). eauto.
    + apply IH2 in H as (p' & cs' & H2 & H). eauto.
  - cbn [den].
    assert (Hfix : forall fuel p cs,
              (fix rounds (fuel : nat) (p : position) (cs : captures)
                 {struct fuel} : option captures :=
                 match fuel with
                 | O => k p cs
                 | S fuel' =>
                     let again :=
                       run ignorecase r1 p cs (fun p' cs' =>
                         if (length (snd p') <? length (snd p))%nat
                         then rounds fuel' p' cs' else None) in
                     if greedy
                     then match again with
                          | Some res => Some res | None => k p cs end
                     else match k p cs with
                          | Some res => Some res | None => again end
                 end) fuel p cs = Some res ->
              exists p' cs', iter (den ignorecase r1) p cs p' cs' /\ k p' cs' = Some res).
    { clear H p cs. induction fuel as [|fuel IHf]; intros p cs H.
      - exists p, cs. split; [apply iter_done | exact H].
      - cbn zeta in H.
        match type of H with
        | (if greedy then match ?a with _ => _ end else _) = _ =>
            assert (Hagain : a = Some res ->
                      exists p' cs',
                        iter (den ignorecase r1) p cs p' cs' /\ k p' cs' = Some res)
        end.
        { intros Hr. apply IH1 in Hr as (q & csq & H1 & Hr).
          destruct (_ <? _)%nat; [|discriminate Hr].
          apply IHf in Hr as (p' & cs' & Hi & Hk).
          exists p', cs'. split; [eapply iter_more; eassumption | exact Hk]. }
        destruct greedy.
        + match type of H with
          | match ?a with _ => _ end = _ => destruct a as [res1|] eqn:E
          end.
          * injection H as <-. apply Hagain. reflexivity.
          * exists p, cs. split; [apply iter_done | exact H].
        + destruct (k p cs) as [res1|] eqn:E.
          * injection H as <-. exists p, cs. split; [apply iter_done | exact E].
          * apply Hagain, H. }
    exact (Hfix (S (length (snd p))) p cs H).
  - cbn [run den] in *. apply IH1 in H as (p' & cs1 & H1 & H). eauto 6.
Qed.

Lemma den_consumes (r : regex) :
  forall p cs p' cs',
    den ignorecase r p cs p' cs' -> exists t, snd p = t ++ snd p'.
Proof.
  induction r as [|a| | |r1 IH1 r2 IH2|r1 IH1 r2 IH2|greedy r1 IH1|n r1 IH1];
    intros p cs p' cs' H; cbn [den] in H.
  - destruct H as [-> _]. exists []. reflexivity.
  - destruct H as (c & rest & -> & _ & -> & _). exists [c]. reflexivity.
  - destruct H as (_ & -> & _). exists []. reflexivity.
  - destruct H as (_ & -> & _). exists []. reflexivity.
  - destruct H as (q & csq & H1 & H2).
    apply IH1 in H1 as [t1 ->]. apply IH2 in H2 as [t2 ->].
    exists (t1 ++ t2). rewrite app_assoc. reflexivity.
  - destruct H as [H|H]; eauto.
  - induction H as [p cs|p cs q csq p' cs' H1 _ [t2 IH]].
    + exists []. reflexivity.
    + apply IH1 in H1 as [t1 ->]. rewrite IH.
      exists (t1 ++ t2). rewrite app_assoc. reflexivity.
  - destruct H as (cs1 & H & _). eauto.
Qed.

Lemma den_no_groups (r : regex) :
  no_groups r = true ->
  forall p cs p' cs', den ignorecase r p cs p' cs' -> cs' = cs.
Proof.
  induction r as [|a| | |r1 IH1 r2 IH2|r1 IH1 r2 IH2|greedy r1 IH1|n r1 IH1];
    intros Hn p cs p' cs' H; cbn [den no_groups] in *.
  - tauto.
  - destruct H as (c & rest & _ & _ & _ & ->). reflexivity.
  - tauto.
  - tauto.
  - apply andb_true_iff in Hn as [Hn1 Hn2]. destruct H as (q & csq & H1 & H2).
    apply (IH1 Hn1) in H1. apply (IH2 Hn2) in H2. congruence.
  - apply andb_true_iff in Hn as [Hn1 Hn2]. destruct H as [H|H]; eauto.
  - induction H as [p cs|p cs q csq p' cs' H1 _ IH]; [reflexivity|].
    apply (IH1 Hn) in H1. congruence.
  - discriminate Hn.
Qed.

Lemma den_contains (c : N) (r : regex) :
  (forall x, chr_eq ignorecase c x = true -> x = c) ->
  must_contain c r = true ->
  forall p cs p' cs',
    den ignorecase r p cs p' cs' -> In c (snd p).
Proof.
  intros Hc.
  induction r as [|a| | |r1 IH1 r2 IH2|r1 IH1 r2 IH2|greedy r1 IH1|n r1 IH1];
    intros Hm p cs p' cs' H; cbn [den must_contain] in *; try discriminate Hm.
  - destruct a as [c'| | |]; try discriminate Hm.
    apply N.eqb_eq in Hm. subst c'.
    destruct H as (x & rest & -> & Hx & _). cbn [atom_matches] in Hx.
    apply Hc in Hx. subst x. left. reflexivity.
  - destruct H as (q & csq & H1 & H2). apply orb_true_iff in Hm as [Hm|Hm].
    + eapply IH1; eassumption.
    + apply den_consumes in H1 as [t ->]. apply in_or_app. right.
      eapply IH2; eassumption.
  - apply andb_true_iff in Hm as [Hm1 Hm2]. destruct H as [H|H]; eauto.
  - destruct H as (cs1 & H & _). eauto.
Qed.

Lemma den_word (s : str) :
  forall p cs p' cs',
    den ignorecase (word s) p cs p' cs' ->
    cs' = cs
    /\ exists t, snd p = t ++ snd p'
                 /\ Forall2 (fun pc c => chr_eq ignorecase pc c = true) s t.
Proof.
  induction s as [|c s IH]; intros p cs p' cs' H.
  - cbn in H. destruct H as [-> ->]. split; [reflexivity|]. exists []. split; [reflexivity|constructor].
  - destruct s as [|c2 s].
    + cbn in H. destruct H as (x & rest & -> & Hx & -> & ->).
      split; [reflexivity|]. exists [x]. split; [reflexivity|]. repeat constructor. exact Hx.
    + change (word (c :: c2 :: s)) with (Seq (One (Lit c)) (word (c2 :: s))) in H.
      cbn [den] in H. destruct H as (q & csq & (x & rest & Hp & Hx & -> & ->) & H2).
      apply IH in H2 as (-> & t & Ht & HF). cbn [snd] in Ht.
      split; [reflexivity|]. exists (x :: t). rewrite Hp, Ht. split; [reflexivity|].
      constructor; assumption.
Qed.

Lemma den_tokens (tokens : list string) :
  tokens <> [] ->
  forall p cs p' cs',
    den ignorecase (Patterns.alts (List.map Patterns.lit tokens)) p cs p' cs' ->
    cs' = cs
    /\ exists tok t, In tok tokens /\ snd p = t ++ snd p'
                     /\ Forall2 (fun pc c => chr_eq ignorecase pc c = true) (Py.cps tok) t.
Proof.
  induction tokens as [|tok tokens IH]; intros Hne p cs p' cs' H; [congruence|].
  destruct tokens as [|tok2 tokens].
  - cbn [List.map Patterns.alts] in H. apply den_word in H as (-> & t & Ht & HF).
    split; [reflexivity|]. exists tok, t. split; [left; reflexivity|]. auto.
  - change (Patterns.alts (List.map Patterns.lit (tok :: tok2 :: tokens)))
      with (Alt (Patterns.lit tok) (Patterns.alts (List.map Patterns.lit (tok2 :: tokens)))) in H.
    cbn [den] in H. destruct H as [H|H].
    + apply den_word in H as (-> & t & Ht & HF).
      split; [reflexivity|]. exists tok, t. split; [left; reflexivity|]. auto.
    + apply IH in H as (-> & tok' & t & Hin & Ht & HF); [|discriminate].
      split; [reflexivity|]. exists tok', t. split; [right; exact Hin|]. auto.
Qed.

End Sound.

Lemma consumed_app (p p' : position) (t : str) :
  snd p = t ++ snd p' -> consumed p p' = t.
Proof.
  intros H. unfold consumed. rewrite H, length_app.
  replace (length t + length (snd p') - length (snd p'))%nat with (length t) by lia.
  apply take_app_length.
Qed.

End ReFacts.

(** ** The shapes of the scripts' patterns *)

Module PatternFacts.
Import Re ReSemantics ReFacts Patterns.

Lemma fold_colon (x : N) : chr_eq true 58 x = true -> x = 58.
Proof.
  unfold chr_eq. change (fold 58) with 58. intros H. apply N.eqb_eq in H.
  revert H. unfold fold, Py.ascii_upper, Py.latin1_upper, Py.between.
  PyFacts.cases_cp; cbn [andb orb negb]; intros; lia.
Qed.

Ltac same_groups H :=
  apply den_no_groups in H; [|reflexivity].

Lemma bullet_shape (tokens : list string) (line : str) (m : captures) :
  tokens <> [] ->
  re_match true (bullet_pattern_for tokens) line = Some m ->
  In 58 line
  /\ exists tok, In tok tokens
                 /\ Forall2 (fun pc c => chr_eq true pc c = true) (Py.cps tok) (group 2 m).
Proof.
  intros Hne H. unfold re_match in H.
  apply run_sound in H as (p' & cs' & H & [= <-]).
  split.
  - apply (den_contains true 58 _ fold_colon) in H; [exact H | reflexivity].
  - unfold bullet_pattern_for in H. cbn [cat den] in H.
    destruct H as (q1 & c1 & (_ & -> & ->) & q2 & c2 & H2 & q3 & c3 & H3 & q4 & c4 & H4
                   & q5 & c5 & H5 & q6 & c6 & H6 & q7 & c7 & (c7' & H7 & ->)
                   & q8 & c8 & H8 & q9 & c9 & H9 & q10 & c10 & H10 & q11 & c11 & H11
                   & q12 & c12 & H12 & q13 & c13 & (c13' & H13 & ->)
                   & q14 & c14 & H14 & H15).
    same_groups H15. same_groups H14. subst.
    cbn [group Nat.eqb].
    apply (den_tokens true tokens Hne) in H13 as (_ & tok & t & Hin & Ht & HF).
    exists tok. split; [exact Hin|]. rewrite (consumed_app _ _ _ Ht). exact HF.
Qed.

Lemma standalone_shape (tokens : list string) (line : str) (m : captures) :
  tokens <> [] ->
  re_match true (standalone_pattern_for tokens) line = Some m ->
  In 58 line
  /\ exists tok, In tok tokens
                 /\ Forall2 (fun pc c => chr_eq true pc c = true) (Py.cps tok) (group 2 m).
Proof.
  intros Hne H. unfold re_match in H.
  apply run_sound in H as (p' & cs' & H & [= <-]).
  split.
  - apply (den_contains true 58 _ fold_colon) in H; [exact H | reflexivity].
  - unfold standalone_pattern_for in H. cbn [cat den] in H.
    destruct H as (q1 & c1 & (_ & -> & ->) & q2 & c2 & H2 & q3 & c3 & (c3' & H3 & ->)
                   & q4 & c4 & H4 & q5 & c5 & H5 & (c6' & H6 & ->)).
    cbn [group Nat.eqb].
    apply (den_tokens true tokens Hne) in H6 as (_ & tok & t & Hin & Ht & HF).
    exists tok. split; [exact Hin|]. rewrite (consumed_app _ _ _ Ht). exact HF.
Qed.

End PatternFacts.

(** ** The values of a record *)

Module AnswersFacts.
Import Re ReSemantics ReFacts Patterns PatternFacts Answers Normalizer.

Ltac to_props :=
  repeat match goal with
  | H : _ && _ = true |- _ => apply andb_true_iff in H; destruct H
  | H : _ || _ = true |- _ => apply orb_true_iff in H
  | H : _ && _ = false |- _ => apply andb_false_iff in H
  | H : _ || _ = false |- _ => apply orb_false_iff in H; destruct H
  | H : negb _ = true |- _ => apply negb_true_iff in H
  | H : negb _ = false |- _ => apply negb_false_iff in H
  | H : (_ <=? _) = true |- _ => apply N.leb_le in H
  | H : (_ <=? _) = false |- _ => apply N.leb_gt in H
  | H : (_ =? _) = true |- _ => apply N.eqb_eq in H
  | H : (_ =? _) = false |- _ => apply N.eqb_neq in H
  | H : _ \/ _ |- _ => destruct H
  end.

(** The graph of the case folding. *)
Lemma fold_cases (c : N) :
  (65 <= c <= 90 /\ fold c = c + 32)
  \/ (192 <= c <= 222 /\ fold c = c + 32)
  \/ ((c = 304 \/ c = 305) /\ fold c = 105)
  \/ (c = 383 /\ fold c = 115)
  \/ (c = 8490 /\ fold c = 107)
  \/ ((c < 65 \/ 90 < c) /\ c <> 304 /\ c <> 8490 /\ fold c = c).
Proof.
  unfold fold, Py.ascii_upper, Py.latin1_upper, Py.between.
  destruct ((65 <=? c) && (c <=? 90)) eqn:E1; [to_props; left; lia|].
  destruct ((192 <=? c) && (c <=? 222) && negb (c =? 215)) eqn:E2;
    [to_props; right; left; lia|].
  destruct ((c =? 304) || (c =? 305)) eqn:E3; [to_props; right; right; left; lia|].
  destruct (c =? 383) eqn:E4; [to_props; right; right; right; left; lia|].
  destruct (c =? 8490) eqn:E5; [to_props; do 4 right; left; lia|].
  to_props; do 5 right; lia.
Qed.

Lemma fold_not_space (c : N) : Py.ascii_lower (fold c) = true -> Py.isspace c = false.
Proof.
  intros H. unfold Py.ascii_lower, Py.between in H. to_props.
  destruct (Py.isspace c) eqn:Es; [exfalso|reflexivity].
  unfold Py.isspace, Py.between in Es.
  to_props; destruct (fold_cases c) as [F|[F|[F|[F|[F|F]]]]]; lia.
Qed.

Lemma fold_plain (c l : N) :
  fold c = l -> Py.ascii_lower l = true -> l <> 105 -> l <> 115 -> Py.lower_cp c = [l].
Proof.
  intros <- H Hi Hs. unfold Py.ascii_lower, Py.between in H. to_props.
  unfold Py.lower_cp, Py.ascii_upper, Py.latin1_upper, Py.between.
  destruct (fold_cases c) as [F|[F|[F|[F|[F|F]]]]].
  - destruct ((65 <=? c) && (c <=? 90)) eqn:E1; [f_equal; lia | to_props; lia].
  - lia.
  - lia.
  - lia.
  - destruct F as [-> ->]. reflexivity.
  - destruct ((65 <=? c) && (c <=? 90)) eqn:E1; [to_props; lia|].
    destruct ((192 <=? c) && (c <=? 222) && negb (c =? 215)) eqn:E2; [to_props; lia|].
    destruct (c =? 304) eqn:E3; [to_props; lia|].
    destruct (c =? 8490) eqn:E4; [to_props; lia|].
    destruct (c <? 256) eqn:E5; [f_equal; lia|].
    apply N.ltb_ge in E5. lia.
Qed.

Lemma lstrip_in (c : N) (s : str) : In c (Py.lstrip s) -> In c s.
Proof.
  induction s as [|x s IH]; [tauto|]. cbn [Py.lstrip].
  destruct (Py.isspace x); [|tauto]. intros H. right. auto.
Qed.

Lemma strip_in (c : N) (s : str) : In c (Py.strip s) -> In c s.
Proof.
  unfold Py.strip, Py.rstrip. intros H.
  apply in_rev, lstrip_in in H. apply in_rev in H. apply lstrip_in, H.
Qed.

Lemma strip_no_space (t : str) :
  Forall (fun c => Py.isspace c = false) t -> Py.strip t = t.
Proof.
  intros H.
  assert (L : forall s, Forall (fun c => Py.isspace c = false) s -> Py.lstrip s = s).
  { intros s Hs. destruct Hs as [|x s Hx _]; [reflexivity|]. cbn [Py.lstrip].
    rewrite Hx. reflexivity. }
  unfold Py.strip, Py.rstrip. rewrite (L t H), L, rev_involutive; [reflexivity|].
  apply Forall_forall. intros c Hc. rewrite Forall_forall in H. apply H.
  apply list_elem_of_In. apply list_elem_of_In, in_rev in Hc. exact Hc.
Qed.

Lemma split_lines_in (c : N) (text l : str) :
  In l (Py.split_lines text) -> In c l -> In c text.
Proof.
  revert l. induction text as [|x text IH]; intros l Hl Hc.
  - destruct Hl as [<-|[]]. destruct Hc.
  - cbn [Py.split_lines] in Hl. destruct (x =? 10).
    + destruct Hl as [<-|Hl]; [destruct Hc|]. right. eauto.
    + destruct (Py.split_lines text) as [|l0 ls] eqn:E.
      * destruct Hl as [<-|[]]. destruct Hc as [<-|[]]. left. reflexivity.
      * destruct Hl as [<-|Hl].
        -- destruct Hc as [<-|Hc]; [left; reflexivity|]. right.
           apply (IH l0); [left; reflexivity | exact Hc].
        -- right. apply (IH l); [right; exact Hl | exact Hc].
Qed.

(** A matched token has the folded letters of the token and no white space. *)
Lemma token_fold (s t : str) :
  Forall2 (fun pc c => chr_eq true pc c = true) s t ->
  List.map fold t = List.map fold s.
Proof.
  induction 1 as [|p c s t Hpc _ IH]; [reflexivity|].
  cbn [List.map]. unfold chr_eq in Hpc. apply N.eqb_eq in Hpc. congruence.
Qed.

Lemma token_no_space (s t : str) :
  Forall (fun p => Py.ascii_lower (fold p) = true) s ->
  Forall2 (fun pc c => chr_eq true pc c = true) s t ->
  Forall (fun c => Py.isspace c = false) t.
Proof.
  intros Hs HF. induction HF as [|p c s t Hpc _ IH]; [constructor|].
  inversion Hs; subst. constructor; [|auto].
  apply fold_not_space. unfold chr_eq in Hpc. apply N.eqb_eq in Hpc. congruence.
Qed.

Lemma token_plain (s t : str) :
  Forall (fun p => Py.ascii_lower (fold p) = true /\ fold p <> 105 /\ fold p <> 115) s ->
  Forall2 (fun pc c => chr_eq true pc c = true) s t ->
  Py.lower t = List.map fold s.
Proof.
  intros Hs HF.
  assert (Hno : Forall (fun c => c <> 931) t).
  { clear - Hs HF. induction HF as [|p c s t Hpc _ IH]; [constructor|].
    inversion Hs as [|? ? (H1 & _) Hs']; subst. constructor; [|exact (IH Hs')].
    intros ->. unfold chr_eq in Hpc. apply N.eqb_eq in Hpc.
    rewrite Hpc in H1. discriminate H1. }
  unfold Py.lower. rewrite (PyFacts.lower_from_plain t Hno).
  clear Hno. induction HF as [|p c s t Hpc _ IH]; [reflexivity|].
  inversion Hs as [|? ? (H1 & H2 & H3) Hs']; subst.
  cbn [List.flat_map List.map]. rewrite (IH Hs').
  unfold chr_eq in Hpc. apply N.eqb_eq in Hpc.
  rewrite (fold_plain c (fold p) (eq_sym Hpc) H1 H2 H3). reflexivity.
Qed.

Ltac letters := repeat constructor; try discriminate.

(** The value stored for a token of the pre- and post-operative patterns. *)
Lemma german_value (tok : string) (t : str) :
  In tok ["Yes"; "No"; "Ja"; "Nein"]%string ->
  Forall2 (fun pc c => chr_eq true pc c = true) (Py.cps tok) t ->
  reads_as [u{"yes"}; u{"no"}; u{"nein"}] (normalize_german (Py.strip t)).
Proof.
  intros Hin HF.
  assert (Hstrip : Py.strip t = t).
  { apply strip_no_space, (token_no_space (Py.cps tok)); [|exact HF].
    destruct Hin as [<-|[<-|[<-|[<-|[]]]]]; letters. }
  rewrite Hstrip. unfold normalize_german, reads_as.
  destruct (Py.eqb (Py.lower t) u{"ja"}) eqn:Ej; [left; reflexivity|].
  destruct (Py.eqb (Py.lower t) u{"nein"}) eqn:En; [right; left; reflexivity|].
  rewrite (token_fold _ _ HF).
  destruct Hin as [<-|[<-|[<-|[<-|[]]]]].
  - left. reflexivity.
  - right. left. reflexivity.
  - exfalso.
    assert (E : Py.lower t = u{"ja"}).
    { apply (token_plain (Py.cps "Ja")); [|exact HF]. letters. }
    rewrite E in Ej. discriminate Ej.
  - right. right. left. reflexivity.
Qed.

(** The value stored for a token of the disease-course patterns. *)
Lemma discourse_value (tok : string) (t : str) :
  In tok ["Yes"; "No"; "Ja"; "Nein"; "provided"; "know"]%string ->
  Forall2 (fun pc c => chr_eq true pc c = true) (Py.cps tok) t ->
  reads_as [u{"yes"}; u{"no"}; u{"zero"}; u{"nein"}; u{"provided"}]
    (DisCourse_local.normalize_response_value (Py.strip t)).
Proof.
  intros Hin HF.
  assert (Hstrip : Py.strip t = t).
  { apply strip_no_space, (token_no_space (Py.cps tok)); [|exact HF].
    destruct Hin as [<-|[<-|[<-|[<-|[<-|[<-|[]]]]]]]; letters. }
  rewrite Hstrip. unfold DisCourse_local.normalize_response_value, reads_as.
  destruct (Py.eqb (Py.lower t) u{"ja"}) eqn:Ej; [left; reflexivity|].
  destruct (Py.eqb (Py.lower t) u{"nein"}) eqn:En; [right; left; reflexivity|].
  destruct (Py.eqb (Py.lower t) u{"provided"} || Py.eqb (Py.lower t) u{"know"}) eqn:Ep;
    [right; right; left; reflexivity|].
  rewrite (token_fold _ _ HF).
  destruct Hin as [<-|[<-|[<-|[<-|[<-|[<-|[]]]]]]].
  - left. reflexivity.
  - right. left. reflexivity.
  - exfalso.
    assert (E : Py.lower t = u{"ja"}).
    { apply (token_plain (Py.cps "Ja")); [|exact HF]. letters. }
    rewrite E in Ej. discriminate Ej.
  - do 3 right. left. reflexivity.
  - do 4 right. left. reflexivity.
  - exfalso.
    assert (E : Py.lower t = u{"know"}).
    { apply (token_plain (Py.cps "know")); [|exact HF]. letters. }
    rewrite E in Ep. discriminate Ep.
Qed.

Section Task.

Variable standardize_variable_name : str -> option str.

Abbreviation step := (Normalizer.step standardize_variable_name).

Lemma store_values (Q : str -> Prop) (nv : option str) (value : str)
    (points : gmap (list N) (list N)) :
  Q value ->
  (forall k v, points !! k = Some v -> Q v) ->
  forall k v, store nv value points !! k = Some v -> Q v.
Proof.
  intros Hv Hp k v. unfold store. destruct nv as [name|]; [|apply Hp].
  destruct (Py.truthy name); [|apply Hp].
  destruct (decide (name = k)) as [->|Hne].
  - rewrite lookup_insert_eq. intros [= <-]. exact Hv.
  - rewrite lookup_insert_ne by exact Hne. apply Hp.
Qed.

Lemma bullet_value (line : str) (m : captures) :
  re_match true bullet_point_pattern line = Some m ->
  reads_as [u{"yes"}; u{"no"}; u{"nein"}] (normalize_german (Py.strip (group 2 m))).
Proof.
  intros H. apply bullet_shape in H as (_ & tok & Hin & HF); [|discriminate].
  exact (german_value tok _ Hin HF).
Qed.

Lemma standalone_value (line : str) (m : captures) :
  re_match true standalone_answer_pattern line = Some m ->
  reads_as [u{"yes"}; u{"no"}; u{"nein"}] (normalize_german (Py.strip (group 2 m))).
Proof.
  intros H. apply standalone_shape in H as (_ & tok & Hin & HF); [|discriminate].
  exact (german_value tok _ Hin HF).
Qed.

Hypothesis names_have_upper :
  forall phrase k, standardize_variable_name phrase = Some k -> Py.has_upper k = true.

Lemma step_values (st : state) (line : str) :
  invariant st ->
  (forall k v, relevant_points st !! k = Some v ->
     reads_as [u{"yes"}; u{"no"}; u{"nein"}] v) ->
  forall k v, relevant_points (step st line) !! k = Some v ->
    reads_as [u{"yes"}; u{"no"}; u{"nein"}] v.
Proof.
  intros Hinv Hp. unfold Normalizer.step.
  destruct (is_final_answer_line _); [exact Hp|].
  destruct (Re.re_match _ _ _) as [m|] eqn:Eb.
  - cbn [relevant_points]. apply store_values; [|exact Hp].
    exact (bullet_value _ _ Eb).
  - destruct (in_final_answer_section st).
    + destruct (Re.re_match true standalone_answer_pattern _) as [m|] eqn:Es;
        [|exact Hp].
      cbn [relevant_points]. apply store_values; [|exact Hp].
      exact (standalone_value _ _ Es).
    + destruct (current_variable st) as [variable|] eqn:Ev; [|exact Hp].
      destruct (_ && _); [|exact Hp].
      cbn [relevant_points].
      rewrite NormalizerFacts.explain_absent; [exact Hp|].
      apply NormalizerFacts.invariant_variable_absent; assumption.
Qed.

Lemma record_values (text : str) :
  forall k v,
    Normalizer.extract_bullet_points standardize_variable_name text !! k = Some v ->
    reads_as [u{"yes"}; u{"no"}; u{"nein"}] v.
Proof.
  unfold Normalizer.extract_bullet_points, Normalizer.loop.
  assert (H : forall lines st,
            invariant st ->
            (forall k v, relevant_points st !! k = Some v ->
               reads_as [u{"yes"}; u{"no"}; u{"nein"}] v) ->
            forall k v,
              relevant_points (fold_left step lines st) !! k = Some v ->
              reads_as [u{"yes"}; u{"no"}; u{"nein"}] v).
  { induction lines as [|l ls IH]; intros st Hinv Hp; [exact Hp|].
    cbn [fold_left]. apply IH.
    - apply NormalizerFacts.step_invariant; assumption.
    - apply step_values; assumption. }
  apply H; [apply NormalizerFacts.invariant_initial|].
  intros k v Hk. cbn in Hk. rewrite lookup_empty in Hk. discriminate Hk.
Qed.

(** A line without a colon leaves an empty record empty. *)
Lemma step_no_colon (st : state) (line : str) :
  has_colon line = false ->
  relevant_points st = ∅ ->
  relevant_points (step st line) = ∅.
Proof.
  intros Hc Hp.
  assert (Hno : ~ In 58 (Py.strip line)).
  { intros Hin. apply strip_in in Hin.
    assert (E : has_colon line = true); [|congruence].
    apply existsb_exists. exists 58. split; [exact Hin | reflexivity]. }
  unfold Normalizer.step.
  destruct (is_final_answer_line _); [exact Hp|].
  destruct (Re.re_match true bullet_point_pattern _) as [m|] eqn:Eb.
  { exfalso. apply bullet_shape in Eb as [Hin _]; [tauto | discriminate]. }
  destruct (in_final_answer_section st).
  - destruct (Re.re_match true standalone_answer_pattern _) as [m|] eqn:Es; [|exact Hp].
    exfalso. apply standalone_shape in Es as [Hin _]; [tauto | discriminate].
  - destruct (current_variable st) as [variable|]; [|exact Hp].
    destruct (_ && _); [|exact Hp].
    cbn [relevant_points]. rewrite Hp. unfold explain. rewrite lookup_empty. reflexivity.
Qed.

End Task.

Lemma lines_no_colon (text : str) :
  has_colon text = false ->
  Forall (fun line => has_colon line = false) (Py.split_lines text).
Proof.
  intros Hc. apply List.Forall_forall. intros line Hline.
  destruct (has_colon line) eqn:E; [exfalso|reflexivity].
  apply existsb_exists in E as (c & Hin & Hc58). apply N.eqb_eq in Hc58. subst c.
  assert (E : has_colon text = true); [|congruence].
  apply existsb_exists. exists 58. split; [|reflexivity].
  exact (split_lines_in 58 text line Hline Hin).
Qed.

Lemma discourse_step_values (st : state) (line : str) :
  (forall k v, relevant_points st !! k = Some v ->
     reads_as [u{"yes"}; u{"no"}; u{"zero"}; u{"nein"}; u{"provided"}] v) ->
  forall k v, relevant_points (DisCourse_local.step st line) !! k = Some v ->
    reads_as [u{"yes"}; u{"no"}; u{"zero"}; u{"nein"}; u{"provided"}] v.
Proof.
  intros Hp. unfold DisCourse_local.step.
  destruct (is_final_answer_line _); [exact Hp|].
  destruct (Re.re_match true DisCourse_local.bullet_point_pattern _) as [m|] eqn:Eb.
  - cbn [relevant_points]. apply store_values; [|exact Hp].
    apply bullet_shape in Eb as (_ & tok & Hin & HF); [|discriminate].
    exact (discourse_value tok _ Hin HF).
  - destruct (in_final_answer_section st); [|exact Hp].
    destruct (Re.re_match true DisCourse_local.standalone_answer_pattern _) as [m|] eqn:Es;
      [|exact Hp].
    cbn [relevant_points]. apply store_values; [|exact Hp].
    apply standalone_shape in Es as (_ & tok & Hin & HF); [|discriminate].
    exact (discourse_value tok _ Hin HF).
Qed.

Lemma discourse_record_values (text : str) :
  forall k v,
    DisCourse_local.extract_bullet_points text !! k = Some v ->
    reads_as [u{"yes"}; u{"no"}; u{"zero"}; u{"nein"}; u{"provided"}] v.
Proof.
  unfold DisCourse_local.extract_bullet_points.
  assert (H : forall lines st,
            (forall k v, relevant_points st !! k = Some v ->
               reads_as [u{"yes"}; u{"no"}; u{"zero"}; u{"nein"}; u{"provided"}] v) ->
            forall k v,
              relevant_points (fold_left DisCourse_local.step lines st) !! k = Some v ->
              reads_as [u{"yes"}; u{"no"}; u{"zero"}; u{"nein"}; u{"provided"}] v).
  { induction lines as [|l ls IH]; intros st Hp; [exact Hp|].
    cbn [fold_left]. apply IH. apply discourse_step_values. exact Hp. }
  apply H. intros k v Hk. cbn in Hk. rewrite lookup_empty in Hk. discriminate Hk.
Qed.

Lemma discourse_step_no_colon (st : state) (line : str) :
  has_colon line = false ->
  relevant_points st = ∅ ->
  relevant_points (DisCourse_local.step st line) = ∅.
Proof.
  intros Hc Hp.
  assert (Hno : ~ In 58 (Py.strip line)).
  { intros Hin. apply strip_in in Hin.
    assert (E : has_colon line = true); [|congruence].
    apply existsb_exists. exists 58. split; [exact Hin | reflexivity]. }
  unfold DisCourse_local.step.
  destruct (is_final_answer_line _); [exact Hp|].
  destruct (Re.re_match true DisCourse_local.bullet_point_pattern _) as [m|] eqn:Eb.
  { exfalso. apply bullet_shape in Eb as [Hin _]; [tauto | discriminate]. }
  destruct (in_final_answer_section st); [|exact Hp].
  destruct (Re.re_match true DisCourse_local.standalone_answer_pattern _) as [m|] eqn:Es;
    [|exact Hp].
  exfalso. apply standalone_shape in Es as [Hin _]; [tauto | discriminate].
Qed.

(** X12. The values of a record.  Whatever the answer is, every value the
    normalizer stores reads, letter case set aside, as yes, no or nein in the
    pre- and post-operative scripts, and as yes, no, zero, nein or provided in
    the disease-course script: it is the matched value token, turned into
    Yes, No or Zero where [str.lower] makes it ja, nein, provided or know.
    No other text of the answer ever gets into a value. *)
Theorem values_are_answers (text k v : str) :
  (PreOP_Gemini.extract_bullet_points text !! k = Some v ->
   reads_as [u{"yes"}; u{"no"}; u{"nein"}] v)
  /\ (PostOP_Claude.extract_bullet_points text !! k = Some v ->
      reads_as [u{"yes"}; u{"no"}; u{"nein"}] v)
  /\ (DisCourse_local.extract_bullet_points text !! k = Some v ->
      reads_as [u{"yes"}; u{"no"}; u{"zero"}; u{"nein"}; u{"provided"}] v).
Proof.
  split; [|split].
  - apply (record_values _ PreOP_Gemini_Facts.canonical_has_upper).
  - apply (record_values _ PostOP_Claude_Facts.names_have_upper).
  - apply discourse_record_values.
Qed.

(** X13. An answer without a colon gives the empty record, for any taxonomy
    and in the three scripts: the bullet shape and the standalone shape both
    ask for a colon between the label and the value. *)
Theorem no_colon_no_entry (standardize_variable_name : str -> option str) (text : str) :
  has_colon text = false ->
  Normalizer.extract_bullet_points standardize_variable_name text = ∅
  /\ DisCourse_local.extract_bullet_points text = ∅.
Proof.
  intros Hc. apply lines_no_colon in Hc.
  unfold Normalizer.extract_bullet_points, Normalizer.loop,
    DisCourse_local.extract_bullet_points.
  split.
  - assert (H : forall lines st,
              Forall (fun line => has_colon line = false) lines ->
              relevant_points st = ∅ ->
              relevant_points (fold_left (Normalizer.step standardize_variable_name) lines st)
              = ∅).
    { induction lines as [|l ls IH]; intros st Hl Hp; [exact Hp|].
      inversion Hl; subst. cbn [fold_left]. apply IH; [assumption|].
      apply step_no_colon; assumption. }
    apply H; [exact Hc | reflexivity].
  - assert (H : forall lines st,
              Forall (fun line => has_colon line = false) lines ->
              relevant_points st = ∅ ->
              relevant_points (fold_left DisCourse_local.step lines st) = ∅).
    { induction lines as [|l ls IH]; intros st Hl Hp; [exact Hp|].
      inversion Hl; subst. cbn [fold_left]. apply IH; [assumption|].
      apply discourse_step_no_colon; assumption. }
    apply H; [exact Hc | reflexivity].
Qed.

Lemma no_colon_no_entry_witness :
  PostOP_Claude.extract_bullet_points u{"- Infection - Yes"} = ∅.
Proof.
  apply (no_colon_no_entry PostOP_Claude.standardize_variable_name u{"- Infection - Yes"}).
  reflexivity.
Defined.

End AnswersFacts.

(** ** The documents of a case *)

Module DocumentsFacts.
Import Documents.

Lemma starts_fold (marker : str) :
  forall s, starts marker s = true ->
    exists t rest, s = t ++ rest /\ length t = length marker
                   /\ List.map fold t = List.map fold marker.
Proof.
  induction marker as [|m marker IH]; intros s H.
  - exists [], s. auto.
  - destruct s as [|c s]; [discriminate H|]. cbn [starts] in H.
    apply andb_true_iff in H as [Hc H]. apply N.eqb_eq in Hc.
    apply IH in H as (t & rest & -> & Hlen & Hfold).
    exists (c :: t), rest. cbn [length List.map]. repeat split; congruence.
Qed.

Lemma firstn_fold (marker s : str) :
  starts marker s = true ->
  List.map fold (firstn (length marker) s) = List.map fold marker.
Proof.
  intros H. apply starts_fold in H as (t & rest & -> & Hlen & Hfold).
  rewrite <- Hlen, take_app_length. exact Hfold.
Qed.

Lemma through_shape (marker : str) :
  forall s r, through marker s = Some r ->
    exists pre t post, r = pre ++ t /\ s = r ++ post
                       /\ List.map fold t = List.map fold marker.
Proof.
  induction s as [|c s IH]; intros r H.
  - cbn [through] in H. destruct (starts marker []) eqn:E; [|discriminate H].
    injection H as <-.
    exists [], (firstn (length marker) []), (skipn (length marker) []).
    split; [reflexivity|]. split; [symmetry; apply firstn_skipn|].
    apply firstn_fold, E.
  - cbn [through] in H. destruct (starts marker (c :: s)) eqn:E.
    + injection H as <-.
      exists [], (firstn (length marker) (c :: s)), (skipn (length marker) (c :: s)).
      split; [reflexivity|]. split; [symmetry; apply firstn_skipn|].
      apply firstn_fold, E.
    + destruct (through marker s) as [t|] eqn:Et; [|discriminate H].
      injection H as <-. destruct (IH t eq_refl) as (pre & t' & post & -> & Hs & Hf).
      exists (c :: pre), t', post. split; [reflexivity|].
      split; [cbn; f_equal; exact Hs | exact Hf].
Qed.

(** What is found lies in the text, starts with the first marker and ends
    with the second. *)
Lemma search_shape (text e : str) :
  search text = Some e ->
  exists before a mid b after,
    text = before ++ e ++ after /\ e = a ++ mid ++ b
    /\ List.map fold a = List.map fold diagnos
    /\ List.map fold b = List.map fold gruesse.
Proof.
  revert e. induction text as [|c text IH]; intros e H.
  - vm_compute in H. discriminate H.
  - cbn [search] in H. destruct (match_here (c :: text)) as [e'|] eqn:E.
    + injection H as <-. unfold match_here in E.
      destruct (starts diagnos (c :: text)) eqn:Es; [|discriminate E].
      destruct (through gruesse _) as [rest|] eqn:Et; [|discriminate E].
      injection E as <-.
      apply through_shape in Et as (pre & t & post & -> & Hs & Hf).
      exists [], (firstn (length diagnos) (c :: text)), pre, t, post.
      split; [|split; [reflexivity|split; [apply firstn_fold, Es | exact Hf]]].
      pose proof (firstn_skipn (length diagnos) (c :: text)) as Hfs.
      rewrite Hs, app_assoc in Hfs. rewrite app_nil_l. symmetry. exact Hfs.
    + apply IH in H as (before & a & mid & b & after & -> & He & Ha & Hb).
      exists (c :: before), a, mid, b, after. auto.
Qed.

Lemma starts_of_fold (marker t rest : str) :
  List.map fold t = List.map fold marker -> starts marker (t ++ rest) = true.
Proof.
  revert t. induction marker as [|m marker IH]; intros t H; [reflexivity|].
  destruct t as [|c t]; [discriminate H|]. cbn [List.map] in H.
  injection H as Hc H. cbn [app starts]. rewrite Hc, N.eqb_refl. cbn [andb]. auto.
Qed.

Lemma occurs_tail (marker : str) (c : N) (s : str) :
  occurs marker (c :: s) = false -> starts marker (c :: s) = false /\ occurs marker s = false.
Proof. cbn [occurs]. intros H. apply orb_false_iff in H. exact H. Qed.

Lemma occurs_starts (marker s : str) : occurs marker s = false -> starts marker s = false.
Proof.
  destruct s as [|c s]; intros H.
  - cbn [occurs] in H. apply orb_false_iff in H. tauto.
  - apply occurs_tail in H. tauto.
Qed.

Lemma occurs_skipn (marker : str) (n : nat) :
  forall s, occurs marker s = false -> occurs marker (skipn n s) = false.
Proof.
  induction n as [|n IH]; intros s H; [exact H|].
  destruct s as [|c s]; [exact H|]. cbn [skipn]. apply IH. apply occurs_tail in H. tauto.
Qed.

Lemma through_none (marker s : str) : occurs marker s = false -> through marker s = None.
Proof.
  induction s as [|c s IH]; intros H; cbn [through].
  - rewrite (occurs_starts _ _ H). reflexivity.
  - rewrite (occurs_starts _ _ H). apply occurs_tail in H as [_ H].
    rewrite (IH H). reflexivity.
Qed.

Lemma search_none (text : str) :
  occurs diagnos text = false \/ occurs gruesse text = false -> search text = None.
Proof.
  induction text as [|c text IH]; intros H.
  - assert (E : match_here [] = None) by reflexivity. cbn [search]. rewrite E. reflexivity.
  - assert (E : match_here (c :: text) = None).
    { unfold match_here. destruct H as [H|H].
      - rewrite (occurs_starts _ _ H). reflexivity.
      - destruct (starts diagnos (c :: text)); [|reflexivity].
        rewrite through_none; [reflexivity|]. apply occurs_skipn, H. }
    cbn [search]. rewrite E. apply IH.
    destruct H as [H|H]; apply occurs_tail in H; tauto.
Qed.

(** The letters that fold to [d] and to [e]. *)
Lemma fold_first (x : N) : fold x = 100 -> x = 68 \/ x = 100.
Proof.
  unfold fold. destruct (x =? 7838) eqn:E; [discriminate|]. apply N.eqb_neq in E.
  destruct (AnswersFacts.fold_cases x) as [F|[F|[F|[F|[F|F]]]]]; lia.
Qed.

Lemma fold_last (y : N) : fold y = 101 -> y = 69 \/ y = 101.
Proof.
  unfold fold. destruct (y =? 7838) eqn:E; [discriminate|]. apply N.eqb_neq in E.
  destruct (AnswersFacts.fold_cases y) as [F|[F|[F|[F|[F|F]]]]]; lia.
Qed.

Lemma strip_ends (x y : N) (mid : str) :
  Py.isspace x = false -> Py.isspace y = false ->
  Py.strip (x :: mid ++ [y]) = x :: mid ++ [y].
Proof.
  intros Hx Hy. unfold Py.strip, Py.rstrip. cbn [Py.lstrip]. rewrite Hx.
  change (x :: mid ++ [y]) with ((x :: mid) ++ [y]).
  rewrite rev_unit. cbn [Py.lstrip]. rewrite Hy.
  rewrite <- (rev_unit (x :: mid) y). apply rev_involutive.
Qed.

Lemma collapse_last (y : N) (s : str) :
  y <> 10 -> exists r, collapse (s ++ [y]) = r ++ [y].
Proof.
  intros Hy. induction s as [|c s [r IH]].
  - exists []. cbn. apply N.eqb_neq in Hy. rewrite Hy. reflexivity.
  - cbn [app collapse]. destruct (_ && _).
    + exists r. exact IH.
    + exists (c :: r). rewrite IH. reflexivity.
Qed.

Lemma collapse_doubled (s : str) : doubled (collapse s) = false.
Proof.
  induction s as [|c s IH]; [reflexivity|]. cbn [collapse].
  destruct ((c =? 10) && _) eqn:E; [exact IH|].
  cbn [doubled]. rewrite IH, orb_false_r.
  destruct (c =? 10) eqn:Ec; [|reflexivity]. cbn [andb] in *.
  destruct s as [|c2 s]; [reflexivity|].
  cbn [collapse]. rewrite E. cbn [andb]. exact E.
Qed.

Lemma doubled_app_cons (a : str) (c : N) (b : str) :
  doubled (a ++ c :: b) = doubled (a ++ [c]) || doubled (c :: b).
Proof.
  induction a as [|x a IH].
  - cbn [app doubled]. rewrite andb_false_r. reflexivity.
  - cbn [app doubled]. rewrite IH, orb_assoc. f_equal. f_equal. f_equal.
    destruct a; reflexivity.
Qed.

Lemma tight_join (e j : str) : tight e -> tight j -> tight (e ++ 10 :: j).
Proof.
  intros (x & mid & y & -> & Hx & Hy & He) (x' & mid' & y' & -> & Hx' & Hy' & Hj).
  exists x, (mid ++ [y] ++ 10 :: x' :: mid'), y'.
  split; [cbn; rewrite <- !app_assoc; reflexivity|]. split; [exact Hx|]. split; [exact Hy'|].
  rewrite doubled_app_cons.
  apply orb_false_iff. split.
  - change (x :: mid ++ [y]) with ((x :: mid) ++ [y]). rewrite <- app_assoc.
    change ([y] ++ [10]) with (y :: [10]). rewrite doubled_app_cons.
    change ((x :: mid) ++ [y]) with (x :: mid ++ [y]). rewrite He.
    apply N.eqb_neq in Hy. cbn [doubled orb]. rewrite Hy. reflexivity.
  - change (doubled (10 :: x' :: mid' ++ [y']))
      with (((10 =? 10) && (x' =? 10)) || doubled (x' :: mid' ++ [y'])).
    rewrite Hj. apply N.eqb_neq in Hx'. rewrite Hx'. reflexivity.
Qed.

Lemma tight_join_lines (es : list str) :
  Forall tight es -> es <> [] -> tight (Normalizer.join_lines es).
Proof.
  induction 1 as [|e es He Hes IH]; intros Hne; [congruence|].
  destruct es as [|e2 es]; [exact He|].
  change (Normalizer.join_lines (e :: e2 :: es))
    with (e ++ 10 :: Normalizer.join_lines (e2 :: es)).
  apply tight_join; [exact He|]. apply IH. discriminate.
Qed.

Lemma excerpt_tight (text e : str) : excerpt text = Some e -> tight e.
Proof.
  unfold excerpt. destruct (search text) as [matched|] eqn:E; [|discriminate].
  intros [= <-].
  apply search_shape in E as (before & a & mid & b & after & _ & -> & Ha & Hb).
  destruct a as [|x a]; [discriminate Ha|]. cbn [List.map] in Ha.
  injection Ha as Hx _. change (fold 100) with 100 in Hx. apply fold_first in Hx.
  assert (Hy : exists b' y, b = b' ++ [y] /\ (y = 69 \/ y = 101)).
  { do 5 (destruct b as [|? b]; [discriminate Hb|]).
    destruct b; [|discriminate Hb].
    cbn [List.map] in Hb. injection Hb as _ _ _ _ Hy.
    change (fold 101) with 101 in Hy. apply fold_last in Hy.
    eexists [_; _; _; _], _. split; [reflexivity | exact Hy]. }
  destruct Hy as (b' & y & -> & Hy).
  replace ((x :: a) ++ mid ++ b' ++ [y]) with (x :: (a ++ mid ++ b') ++ [y])
    by (cbn; rewrite <- !app_assoc; reflexivity).
  rewrite strip_ends by (destruct Hx as [->| ->], Hy as [->| ->]; reflexivity).
  assert (Hx10 : x <> 10) by (destruct Hx as [->| ->]; discriminate).
  assert (Hy10 : y <> 10) by (destruct Hy as [->| ->]; discriminate).
  destruct (collapse_last y (a ++ mid ++ b') Hy10) as [r Hr].
  exists x, r, y. split; [|split; [exact Hx10|split; [exact Hy10|apply collapse_doubled]]].
  cbn [collapse]. apply N.eqb_neq in Hx10. rewrite Hx10. cbn [andb]. rewrite Hr. reflexivity.
Qed.

Lemma combined_tight (listing : list (list N * opened)) :
  fst (combine_word_documents listing) = [] \/ tight (fst (combine_word_documents listing)).
Proof.
  unfold combine_word_documents. cbn [fst].
  destruct (List.flat_map excerpts_of listing) as [|e es] eqn:E; [left; reflexivity|].
  right. apply tight_join_lines; [|discriminate]. rewrite <- E.
  apply List.Forall_forall. intros e' He'. apply in_flat_map in He' as (entry & _ & He').
  unfold excerpts_of in He'. destruct (endswith _ _); [|destruct He'].
  destruct (snd entry) as [err|text]; [destruct He'|].
  destruct (excerpt text) as [e0|] eqn:E0; [|destruct He'].
  destruct He' as [<-|[]]. exact (excerpt_tight text e0 E0).
Qed.

(** A tight text has no empty line. *)
Lemma tight_lines (t : str) :
  tight t -> Forall (fun line => line <> []) (Py.split_lines t).
Proof.
  intros (x & mid & y & -> & Hx & Hy & Hd).
  assert (H : forall s,
            doubled s = false -> last s <> Some 10 ->
            Forall (fun line => line <> []) (tl (Py.split_lines s))).
  { induction s as [|c s IH]; intros Hds Hl; [constructor|].
    cbn [Py.split_lines]. destruct (c =? 10) eqn:Ec.
    - cbn [tl]. cbn [doubled] in Hds. rewrite Ec in Hds. cbn [andb] in Hds.
      apply orb_false_iff in Hds as [Hh Hds].
      destruct s as [|c2 s].
      + apply N.eqb_eq in Ec. subst c. exfalso. apply Hl. reflexivity.
      + assert (Hl' : last (c2 :: s) <> Some 10) by (rewrite last_cons_cons in Hl; exact Hl).
        specialize (IH Hds Hl'). cbn [Py.split_lines] in *. rewrite Hh in *.
        destruct (Py.split_lines s) as [|l0 ls]; cbn [tl] in *;
          constructor; auto; discriminate.
    - cbn [doubled] in Hds. apply orb_false_iff in Hds as [_ Hds].
      destruct s as [|c2 s].
      + cbn. constructor.
      + assert (Hl' : last (c2 :: s) <> Some 10) by (rewrite last_cons_cons in Hl; exact Hl).
        specialize (IH Hds Hl').
        destruct (Py.split_lines (c2 :: s)) as [|l0 ls]; [constructor | exact IH]. }
  specialize (H (x :: mid ++ [y]) Hd).
  assert (Hl : last (x :: mid ++ [y]) <> Some 10).
  { change (x :: mid ++ [y]) with ((x :: mid) ++ [y]). rewrite last_snoc. congruence. }
  specialize (H Hl). cbn [Py.split_lines] in *. apply N.eqb_neq in Hx. rewrite Hx in *.
  destruct (Py.split_lines (mid ++ [y])) as [|l0 ls]; cbn [tl] in *;
    constructor; auto; discriminate.
Qed.

Lemma through_first (marker : str) :
  forall s r, through marker s = Some r ->
    forall j, (j + length marker < length r)%nat -> starts marker (skipn j s) = false.
Proof.
  induction s as [|c s IH]; intros r H j Hj.
  - cbn [through] in H. destruct (starts marker []); [|discriminate H].
    injection H as <-. rewrite firstn_nil in Hj. cbn in Hj. lia.
  - cbn [through] in H. destruct (starts marker (c :: s)) eqn:E.
    + injection H as <-. pose proof (firstn_le_length (length marker) (c :: s)). lia.
    + destruct (through marker s) as [t|] eqn:Et; [|discriminate H].
      injection H as <-. destruct j as [|j]; [exact E|].
      cbn [skipn]. apply (IH t eq_refl). cbn [length] in Hj. lia.
Qed.

Lemma through_some (marker : str) :
  forall j s, starts marker (skipn j s) = true -> through marker s <> None.
Proof.
  induction j as [|j IH]; intros s H.
  - rewrite drop_0 in H. destruct s; cbn [through]; rewrite H; discriminate.
  - destruct s as [|c s].
    + cbn [skipn] in H. cbn [through]. rewrite H. discriminate.
    + cbn [skipn] in H. cbn [through]. destruct (starts marker (c :: s)); [discriminate|].
      specialize (IH s H). destruct (through marker s); [discriminate | congruence].
Qed.

(** The place of what is found: none stands at an earlier place. *)
Lemma search_first (text e : str) :
  search text = Some e ->
  exists before after,
    text = before ++ e ++ after
    /\ match_here (skipn (length before) text) = Some e
    /\ forall k, (k < length before)%nat -> match_here (skipn k text) = None.
Proof.
  revert e. induction text as [|c text IH]; intros e H.
  - vm_compute in H. discriminate H.
  - cbn [search] in H. destruct (match_here (c :: text)) as [e'|] eqn:E.
    + injection H as <-. exists [], (skipn (length e') (c :: text)).
      split; [|split; [exact E | cbn; intros; lia]].
      cbn [app]. unfold match_here in E.
      destruct (starts diagnos (c :: text)); [|discriminate E].
      destruct (through gruesse _) as [rest|] eqn:Et; [|discriminate E].
      injection E as <-.
      apply through_shape in Et as (pre & t & post & -> & Hs & _).
      pose proof (firstn_skipn (length diagnos) (c :: text)) as Hfs.
      rewrite Hs, app_assoc in Hfs. rewrite <- Hfs at 2.
      rewrite skipn_app, Nat.sub_diag, skipn_all. cbn [skipn app].
      rewrite <- Hfs at 1. reflexivity.
    + apply IH in H as (before & after & -> & Hm & Hk).
      exists (c :: before), after. split; [reflexivity|]. split; [exact Hm|].
      intros [|k] Hlt; [exact E|]. cbn [skipn]. apply Hk. cbn [length] in Hlt. lia.
Qed.

Lemma starts_length (marker : str) :
  forall s, starts marker s = true -> (length marker <= length s)%nat.
Proof.
  induction marker as [|m marker IH]; intros s H; [cbn; lia|].
  destruct s as [|c s]; [discriminate H|]. cbn [starts] in H.
  apply andb_true_iff in H as [_ H]. apply IH in H. cbn [length]. lia.
Qed.

(** X14. What is taken from a document.  The excerpt of a raw text lies in
    the text, from the first place where [diagnos] stands to the end of the
    next [gr..e] after it, letter case set aside, with every run of line
    feeds made one: [diagnos] stands at no earlier place of the text, and
    [gr..e] at no place between the end of that [diagnos] and the last five
    letters of what is taken.  A text in which one of the two does not occur
    gives none. *)
Theorem excerpt_bounds (text : str) :
  (forall e, excerpt text = Some e ->
     exists before matched after,
       text = before ++ matched ++ after
       /\ e = collapse matched
       /\ starts diagnos matched = true
       /\ starts (List.rev gruesse) (List.rev matched) = true
       /\ doubled e = false
       /\ (forall k, (k < length before)%nat ->
             starts diagnos (skipn k text) = false)
       /\ (forall j, (length diagnos + j + length gruesse < length matched)%nat ->
             starts gruesse (skipn (length before + length diagnos + j) text) = false))
  /\ (occurs diagnos text = false -> excerpt text = None)
  /\ (occurs gruesse text = false -> excerpt text = None).
Proof.
  split; [|split].
  - intros e He. pose proof (excerpt_tight text e He) as (_ & _ & _ & _ & _ & _ & Hd).
    unfold excerpt in He. destruct (search text) as [matched|] eqn:E; [|discriminate He].
    injection He as <-.
    pose proof (search_shape text matched E)
      as (before0 & a & mid & b & after0 & _ & Hm & Ha & Hb).
    pose proof (search_first text matched E) as (before & after & Ht & Hhere & Hearlier).
    assert (Hs : Py.strip matched = matched).
    { clear E Ht Hd Hhere Hearlier. subst matched.
      destruct a as [|x a]; [discriminate Ha|]. cbn [List.map] in Ha.
      injection Ha as Hx _. change (fold 100) with 100 in Hx. apply fold_first in Hx.
      destruct b as [|b1 [|b2 [|b3 [|b4 [|y [|? ?]]]]]]; try discriminate Hb.
      cbn [List.map] in Hb. injection Hb as _ _ _ _ Hy.
      change (fold 101) with 101 in Hy. apply fold_last in Hy.
      replace ((x :: a) ++ mid ++ [b1; b2; b3; b4; y])
        with (x :: (a ++ mid ++ [b1; b2; b3; b4]) ++ [y])
        by (cbn; rewrite <- !app_assoc; reflexivity).
      apply strip_ends; [destruct Hx as [->| ->] | destruct Hy as [->| ->]]; reflexivity. }
    rewrite Hs in *.
    assert (Hdrop : skipn (length before) text = matched ++ after).
    { rewrite Ht. apply drop_app_length. }
    assert (Hla : length a = length diagnos).
    { apply (f_equal (@length N)) in Ha. rewrite !length_map in Ha. exact Ha. }
    exists before, matched, after. split; [exact Ht|]. split; [reflexivity|].
    split; [subst matched; apply starts_of_fold, Ha|].
    split.
    { subst matched. rewrite !rev_app_distr, <- app_assoc. apply starts_of_fold.
      rewrite !map_rev. f_equal. exact Hb. }
    split; [exact Hd|]. split.
    + intros k Hk. destruct (starts diagnos (skipn k text)) eqn:Ek; [exfalso|reflexivity].
      specialize (Hearlier k Hk). unfold match_here in Hearlier. rewrite Ek in Hearlier.
      destruct (through gruesse (skipn (length diagnos) (skipn k text))) eqn:Et;
        [discriminate Hearlier|].
      revert Et.
      apply (through_some gruesse (length before + length mid - k)).
      rewrite !drop_drop.
      replace (k + (length diagnos + (length before + length mid - k)))%nat
        with (length (before ++ a ++ mid)) by (rewrite !length_app; lia).
      rewrite Ht, Hm.
      replace (before ++ (a ++ mid ++ b) ++ after)
        with ((before ++ a ++ mid) ++ b ++ after) by (rewrite <- !app_assoc; reflexivity).
      rewrite drop_app_length. apply starts_of_fold, Hb.
    + intros j Hj.
      rewrite Hdrop in Hhere. unfold match_here in Hhere.
      destruct (starts diagnos (matched ++ after)) eqn:Es; [|discriminate Hhere].
      destruct (through gruesse (skipn (length diagnos) (matched ++ after)))
        as [rest|] eqn:Et; [|discriminate Hhere].
      injection Hhere as Hrest.
      replace (length before + length diagnos + j)%nat
        with (length before + (length diagnos + j))%nat by lia.
      rewrite <- !drop_drop, Hdrop.
      apply (through_first gruesse _ rest Et).
      apply starts_length in Es.
      apply (f_equal (@length N)) in Hrest.
      rewrite length_app, length_take in Hrest.
      change (length diagnos) with 7%nat in *. lia.
  - intros H. unfold excerpt. rewrite search_none; [reflexivity | left; exact H].
  - intros H. unfold excerpt. rewrite search_none; [reflexivity | right; exact H].
Qed.

(** [excerpt_bounds] for a letter in which the greeting comes twice: what is
    taken ends with the first one. *)
Lemma excerpt_bounds_witness :
  let text := u{"Brief. Diagnose: A. Gr"} ++ [252; 223] ++ u{"e B. GR"} ++ [220; 7838]
              ++ u{"E, C"} in
  let e := u{"Diagnose: A. Gr"} ++ [252; 223] ++ u{"e"} in
  excerpt text = Some e
  /\ exists before matched after,
       text = before ++ matched ++ after
       /\ e = collapse matched
       /\ starts diagnos matched = true
       /\ starts (List.rev gruesse) (List.rev matched) = true
       /\ doubled e = false
       /\ (forall k, (k < length before)%nat ->
             starts diagnos (skipn k text) = false)
       /\ (forall j, (length diagnos + j + length gruesse < length matched)%nat ->
             starts gruesse (skipn (length before + length diagnos + j) text) = false).
Proof.
  split; [vm_compute; reflexivity|].
  apply (proj1 (excerpt_bounds _)). vm_compute. reflexivity.
Defined.

(** X15. The context has no empty line.  Whatever the folder holds, the text
    [combine_word_documents] returns has no two line feeds in a row, and
    unless it is empty none of its lines is empty; with the setting
    ["all_sections"] that text is the context.  Entries that are not
    [.docx] files, files that cannot be read and texts without the two
    markers add nothing to it. *)
Theorem context_has_no_empty_line (listing : list (list N * opened)) :
  let combined_text := fst (combine_word_documents listing) in
  let context := Sections.extract_section combined_text (inl u{"all_sections"}) in
  context = combined_text
  /\ doubled context = false
  /\ (context <> [] -> Forall (fun line => line <> []) (Py.split_lines context))
  /\ (Forall (fun entry => excerpts_of entry = []) listing -> context = []).
Proof.
  intros combined_text context.
  assert (Hc : context = combined_text).
  { subst context. unfold Sections.extract_section.
    replace (Py.eqb u{"all_sections"} u{"all_sections"}) with true
      by (symmetry; apply PyFacts.eqb_eq; reflexivity).
    apply SectionsFacts.join_split. }
  assert (Hrest : doubled combined_text = false
                  /\ (combined_text <> [] ->
                      Forall (fun line => line <> []) (Py.split_lines combined_text))
                  /\ (Forall (fun entry => excerpts_of entry = []) listing ->
                      combined_text = [])).
  { clear Hc context. subst combined_text.
    split; [|split].
    - destruct (combined_tight listing) as [He|Ht].
      + rewrite He. reflexivity.
      + destruct Ht as (_ & _ & _ & _ & _ & _ & Hd). exact Hd.
    - intros Hne. destruct (combined_tight listing) as [He|Ht]; [congruence|].
      apply tight_lines, Ht.
    - intros Hall. unfold combine_word_documents. cbn [fst].
      replace (List.flat_map excerpts_of listing) with (@nil str); [reflexivity|].
      symmetry. induction Hall as [|entry l Hentry _ IH]; [reflexivity|].
      cbn [List.flat_map]. rewrite Hentry, IH. reflexivity. }
  rewrite Hc. split; [reflexivity | exact Hrest].
Qed.

End DocumentsFacts.

(** ** The final-answer marker *)

Module MarkerFacts.
Import Re ReSemantics ReFacts Patterns Marker Normalizer.

Lemma search_from_sound (r : regex) (s : str) :
  forall prev cs,
    search_from true r prev s = Some cs ->
    exists pre s',
      s = pre ++ s'
      /\ run true r (match last pre with Some c => Some c | None => prev end, s') []
           (fun _ cs => Some cs) = Some cs.
Proof.
  induction s as [|c s IH]; intros prev cs H; cbn [search_from] in H.
  - destruct (run true r (prev, []) [] _) as [cs'|] eqn:E; [|discriminate H].
    injection H as <-. exists [], []. split; [reflexivity | exact E].
  - destruct (run true r (prev, c :: s) [] _) as [cs'|] eqn:E.
    + injection H as <-. exists [], (c :: s). split; [reflexivity | exact E].
    + apply IH in H as (pre & s' & -> & H).
      exists (c :: pre), s'. split; [reflexivity|].
      destruct pre as [|c2 pre]; [exact H|].
      rewrite last_cons_cons.
      destruct (last (c2 :: pre)) eqn:El; [exact H|].
      apply last_None in El. discriminate El.
Qed.

Lemma search_from_complete (r : regex) (pre s' : str) :
  forall prev,
    is_Some (run true r (match last pre with Some c => Some c | None => prev end, s') []
               (fun _ cs => Some cs)) ->
    is_Some (search_from true r prev (pre ++ s')).
Proof.
  induction pre as [|c pre IH]; intros prev H.
  - cbn [app last] in *. destruct s' as [|c s']; cbn [search_from];
      destruct H as [cs ->]; eauto.
  - cbn [app search_from]. destruct (run true r (prev, c :: pre ++ s') [] _); [eauto|].
    apply IH. destruct pre as [|c2 pre]; [exact H|].
    rewrite last_cons_cons in H.
    destruct (last (c2 :: pre)) eqn:El; [exact H|].
    apply last_None in El. discriminate El.
Qed.

Lemma run_word_complete (s : str) :
  forall t rest prev cs k,
    Forall2 (fun pc c => chr_eq true pc c = true) s t ->
    run true (word s) (prev, t ++ rest) cs k
    = k (match last t with Some c => Some c | None => prev end, rest) cs.
Proof.
  induction s as [|c s IH]; intros t rest prev cs k HF.
  - inversion HF; subst. reflexivity.
  - inversion HF as [|? x ? t' Hx HF']; subst. destruct s as [|c2 s].
    + inversion HF'; subst. cbn [word run app snd atom_matches]. rewrite Hx. reflexivity.
    + change (word (c :: c2 :: s)) with (Seq (One (Lit c)) (word (c2 :: s))).
      cbn [run app snd atom_matches]. rewrite Hx. rewrite (IH t' rest (Some x) cs k HF').
      destruct t' as [|x2 t']; [inversion HF'|].
      rewrite last_cons_cons.
      destruct (last (x2 :: t')) eqn:El; [reflexivity|].
      apply last_None in El. discriminate El.
Qed.

Lemma den_word_position (s : str) :
  forall p cs p' cs',
    den true (word s) p cs p' cs' ->
    exists t,
      snd p = t ++ snd p'
      /\ fst p' = match last t with Some c => Some c | None => fst p end
      /\ Forall2 (fun pc c => chr_eq true pc c = true) s t.
Proof.
  induction s as [|c s IH]; intros p cs p' cs' H.
  - cbn in H. destruct H as [-> ->]. exists []. repeat split. constructor.
  - destruct s as [|c2 s].
    + cbn in H. destruct H as (x & rest & Hp & Hx & -> & ->).
      exists [x]. rewrite Hp. repeat split. repeat constructor. exact Hx.
    + change (word (c :: c2 :: s)) with (Seq (One (Lit c)) (word (c2 :: s))) in H.
      cbn [den] in H. destruct H as (q & csq & (x & rest & Hp & Hx & -> & ->) & H2).
      apply IH in H2 as (t & Ht & Hfst & HF). cbn [fst snd] in *.
      exists (x :: t). rewrite Hp, Ht. split; [reflexivity|]. split; [|constructor; assumption].
      rewrite Hfst. destruct t as [|x2 t]; [inversion HF|].
      rewrite last_cons_cons.
      destruct (last (x2 :: t)) eqn:El; [reflexivity|].
      apply last_None in El. discriminate El.
Qed.

Lemma folded_token (s t : str) :
  List.map fold s = s -> List.map fold t = s ->
  Forall2 (fun pc c => chr_eq true pc c = true) s t.
Proof.
  revert t. induction s as [|p s IH]; intros t Hs Ht.
  - destruct t; [constructor | discriminate Ht].
  - destruct t as [|c t]; [discriminate Ht|]. cbn [List.map] in *.
    injection Hs as Hp Hs. injection Ht as Hc Ht.
    constructor; [|exact (IH t Hs Ht)].
    unfold chr_eq. apply N.eqb_eq. congruence.
Qed.

(** The letters that fold to [f] and to [r] are word characters. *)
Lemma fold_f_word (c : N) : fold c = 102 -> is_word c = true.
Proof.
  intros H. assert (Hc : c = 70 \/ c = 102).
  { destruct (AnswersFacts.fold_cases c) as [F|[F|[F|[F|[F|F]]]]]; lia. }
  destruct Hc as [->| ->]; vm_compute; reflexivity.
Qed.

Lemma fold_r_word (c : N) : fold c = 114 -> is_word c = true.
Proof.
  intros H. assert (Hc : c = 82 \/ c = 114).
  { destruct (AnswersFacts.fold_cases c) as [F|[F|[F|[F|[F|F]]]]]; lia. }
  destruct Hc as [->| ->]; vm_compute; reflexivity.
Qed.

Lemma marker_complete (line : str) :
  holds_marker line -> is_final_answer_line line = true.
Proof.
  intros (pre & t & post & -> & Ht & Hb & Ha).
  unfold is_final_answer_line. apply bool_decide_eq_true.
  unfold re_search. apply search_from_complete.
  pose proof (folded_token u{"final answer"} t eq_refl Ht) as HF.
  destruct t as [|c1 t]; [discriminate Ht|].
  assert (H1 : is_word c1 = true).
  { apply fold_f_word. cbn [List.map] in Ht. injection Ht as H _. exact H. }
  assert (Hlast : exists c12, last (c1 :: t) = Some c12 /\ is_word c12 = true).
  { do 11 (destruct t as [|? t]; [discriminate Ht|]). destruct t; [|discriminate Ht].
    eexists. split; [reflexivity|]. apply fold_r_word.
    cbn [List.map] in Ht. injection Ht as _ _ _ _ _ _ _ _ _ _ _ H. exact H. }
  destruct Hlast as (c12 & Hl & H12).
  unfold final_answer_pattern, lit. cbn [cat run].
  unfold word_before at 1, word_after at 1. cbn [fst snd app].
  assert (Hwb : match (match last pre with Some c => Some c | None => None end) with
                | Some c => is_word c | None => false end = false).
  { unfold not_word_before in Hb. destruct (last pre); [exact Hb | reflexivity]. }
  rewrite Hwb, H1. cbn [xorb].
  change (c1 :: t ++ post) with ((c1 :: t) ++ post).
  rewrite (run_word_complete _ _ _ _ _ _ HF). rewrite Hl.
  unfold word_before, word_after. cbn [fst snd]. rewrite H12.
  unfold not_word_after in Ha. destruct post as [|c post]; [eauto|].
  rewrite Ha. eauto.
Qed.

Lemma marker_sound (line : str) :
  is_final_answer_line line = true -> holds_marker line.
Proof.
  unfold is_final_answer_line. intros H. apply bool_decide_eq_true in H as [cs H].
  unfold re_search in H. apply search_from_sound in H as (pre & s' & -> & H).
  apply run_sound in H as (p' & cs' & H & _).
  unfold final_answer_pattern, lit in H. cbn [cat den] in H.
  destruct H as (q & csq & (Hb & -> & ->) & q2 & cs2 & Hw & (Ha & -> & ->)).
  apply den_word_position in Hw as (t & Ht & Hfst & HF). cbn [fst snd] in *.
  exists pre, t, (snd q2). split; [rewrite Ht; reflexivity|].
  pose proof (AnswersFacts.token_fold _ _ HF) as Hfold.
  split; [exact Hfold|].
  destruct t as [|c1 t]; [discriminate Hfold|].
  assert (H1 : is_word c1 = true).
  { apply fold_f_word. cbn [List.map] in Hfold. injection Hfold as H _. exact H. }
  assert (Hlast : exists c12, last (c1 :: t) = Some c12 /\ is_word c12 = true).
  { do 11 (destruct t as [|? t]; [discriminate Hfold|]). destruct t; [|discriminate Hfold].
    eexists. split; [reflexivity|]. apply fold_r_word.
    cbn [List.map] in Hfold. injection Hfold as _ _ _ _ _ _ _ _ _ _ _ H. exact H. }
  destruct Hlast as (c12 & Hl & H12).
  split.
  - unfold not_word_before. unfold word_before, word_after in Hb. cbn [fst snd] in Hb.
    rewrite Ht in Hb. cbn [app] in Hb. rewrite H1 in Hb.
    destruct (last pre) as [c|]; [|exact I].
    destruct (is_word c); [discriminate Hb | reflexivity].
  - unfold not_word_after. unfold word_before, word_after in Ha.
    rewrite Hfst, Hl, H12 in Ha.
    destruct (snd q2) as [|c post]; [exact I|].
    destruct (is_word c); [discriminate Ha | reflexivity].
Qed.

(** White space is no word character. *)
Lemma space_not_word (c : N) : Py.isspace c = true -> is_word c = false.
Proof.
  unfold Py.isspace, Py.between. intros H.
  assert (Hc : c = 9 \/ c = 10 \/ c = 11 \/ c = 12 \/ c = 13 \/ c = 28 \/ c = 29
               \/ c = 30 \/ c = 31 \/ c = 32 \/ c = 133 \/ c = 160 \/ c = 5760
               \/ c = 8192 \/ c = 8193 \/ c = 8194 \/ c = 8195 \/ c = 8196
               \/ c = 8197 \/ c = 8198 \/ c = 8199 \/ c = 8200 \/ c = 8201
               \/ c = 8202 \/ c = 8232 \/ c = 8233 \/ c = 8239 \/ c = 8287
               \/ c = 12288).
  { PyFacts.bool_props; lia. }
  repeat (destruct Hc as [->|Hc]; [vm_compute; reflexivity|]).
  subst c. vm_compute. reflexivity.
Qed.

Lemma lstrip_decompose (s : str) :
  exists ws, LineEndings.blank ws /\ s = ws ++ Py.lstrip s.
Proof.
  induction s as [|c s (ws & Hws & IH)]; [exists []; split; [constructor | reflexivity]|].
  cbn [Py.lstrip]. destruct (Py.isspace c) eqn:Hc.
  - exists (c :: ws). split; [constructor; assumption|]. cbn [app]. congruence.
  - exists []. split; [constructor | reflexivity].
Qed.

Lemma strip_decompose (s : str) :
  exists w1 w2,
    LineEndings.blank w1 /\ LineEndings.blank w2 /\ s = w1 ++ Py.strip s ++ w2.
Proof.
  destruct (lstrip_decompose s) as (w1 & H1 & E1).
  destruct (lstrip_decompose (List.rev (Py.lstrip s))) as (w2 & H2 & E2).
  exists w1, (List.rev w2). split; [exact H1|].
  split; [apply LineEndingsFacts.blank_rev, H2|].
  unfold Py.strip, Py.rstrip. rewrite <- rev_app_distr, <- E2, rev_involutive.
  exact E1.
Qed.

Lemma lstrip_app_solid (pre : str) (c : N) (s : str) :
  Py.isspace c = false -> Py.lstrip (pre ++ c :: s) = Py.lstrip pre ++ c :: s.
Proof.
  intros Hc. induction pre as [|x pre IH]; cbn [app Py.lstrip].
  - rewrite Hc. reflexivity.
  - destruct (Py.isspace x); [exact IH | reflexivity].
Qed.

Lemma lstrip_last (pre : str) :
  Py.lstrip pre = [] \/ last (Py.lstrip pre) = last pre.
Proof.
  induction pre as [|x pre IH]; [left; reflexivity|].
  cbn [Py.lstrip]. destruct (Py.isspace x); [|right; reflexivity].
  destruct IH as [IH|IH]; [left; exact IH|].
  destruct pre as [|y pre]; [left; reflexivity|].
  right. rewrite IH, last_cons_cons. reflexivity.
Qed.

Lemma rstrip_head (post : str) :
  Py.rstrip post = [] \/ head (Py.rstrip post) = head post.
Proof.
  unfold Py.rstrip.
  destruct (lstrip_decompose (List.rev post)) as (ws & Hws & E).
  apply (f_equal (@List.rev N)) in E. rewrite rev_involutive, rev_app_distr in E.
  destruct (List.rev (Py.lstrip (List.rev post))) as [|c r]; [left; reflexivity|].
  right. rewrite E. reflexivity.
Qed.

Lemma not_word_before_app (ws pre : str) :
  LineEndings.blank ws -> not_word_before pre -> not_word_before (ws ++ pre).
Proof.
  intros Hws Hp. unfold not_word_before in *.
  destruct pre as [|c pre].
  - rewrite app_nil_r. destruct (last ws) as [c|] eqn:El; [|exact I].
    apply space_not_word.
    apply last_Some in El as (l' & ->).
    apply Forall_app in Hws as [_ Hc]. inversion Hc; assumption.
  - rewrite last_app. destruct (last (c :: pre)) eqn:El; [exact Hp|].
    apply last_None in El. discriminate El.
Qed.

Lemma not_word_after_app (post ws : str) :
  LineEndings.blank ws -> not_word_after post -> not_word_after (post ++ ws).
Proof.
  intros Hws Hp. unfold not_word_after in *.
  destruct post as [|c post]; [|exact Hp]. cbn [app].
  destruct ws as [|c ws]; [exact I|]. apply space_not_word. inversion Hws; assumption.
Qed.

(** The marker lies within the stripped line. *)
Lemma marker_strip (line : str) :
  holds_marker (Py.strip line) <-> holds_marker line.
Proof.
  split.
  - intros (pre & t & post & E & Ht & Hb & Ha).
    destruct (strip_decompose line) as (w1 & w2 & H1 & H2 & El).
    exists (w1 ++ pre), t, (post ++ w2). split.
    { rewrite El at 1. rewrite E, <- !app_assoc. reflexivity. }
    split; [exact Ht|]. split.
    + apply not_word_before_app; assumption.
    + apply not_word_after_app; assumption.
  - intros (pre & t & post & -> & Ht & Hb & Ha).
    destruct t as [|c1 t]; [discriminate Ht|].
    assert (H1 : Py.isspace c1 = false).
    { destruct (Py.isspace c1) eqn:Hs; [|reflexivity].
      apply space_not_word in Hs. rewrite fold_f_word in Hs; [discriminate Hs|].
      cbn [List.map] in Ht. injection Ht as H _. exact H. }
    assert (Hlast : exists t' c12, c1 :: t = t' ++ [c12] /\ Py.isspace c12 = false).
    { do 11 (destruct t as [|? t]; [discriminate Ht|]). destruct t; [|discriminate Ht].
      match goal with
      | |- exists t' c12, [?a; ?b; ?c; ?d; ?e; ?f; ?g; ?h; ?i; ?j; ?k; ?l] = _ /\ _ =>
          exists [a; b; c; d; e; f; g; h; i; j; k], l
      end.
      split; [reflexivity|].
      match goal with |- Py.isspace ?c = false => destruct (Py.isspace c) eqn:Hs end;
        [|reflexivity].
      apply space_not_word in Hs. rewrite fold_r_word in Hs; [discriminate Hs|].
      cbn [List.map] in Ht. injection Ht as _ _ _ _ _ _ _ _ _ _ _ H. exact H. }
    destruct Hlast as (t' & c12 & Et & H12).
    exists (Py.lstrip pre), (c1 :: t), (Py.rstrip post). split.
    { unfold Py.strip. cbn [app]. rewrite lstrip_app_solid by exact H1.
      change (c1 :: t ++ post) with ((c1 :: t) ++ post).
      change (c1 :: t ++ Py.rstrip post) with ((c1 :: t) ++ Py.rstrip post).
      rewrite Et. unfold Py.rstrip.
      rewrite !rev_app_distr. cbn [List.rev app].
      rewrite <- app_assoc. cbn [app].
      rewrite lstrip_app_solid by exact H12.
      rewrite rev_app_distr. cbn [List.rev]. rewrite rev_app_distr, !rev_involutive.
      rewrite <- !app_assoc. reflexivity. }
    split; [exact Ht|]. split.
    + unfold not_word_before in *.
      destruct (lstrip_last pre) as [-> | ->]; [exact I | exact Hb].
    + unfold not_word_after in *.
      destruct (rstrip_head post) as [E|E].
      * rewrite E. exact I.
      * destruct (Py.rstrip post) as [|c r]; [exact I|].
        destruct post as [|c' post]; [discriminate E|].
        cbn [head] in E. injection E as ->. exact Ha.
Qed.

(** [final_answer_pattern.search] finds the words on a raw line exactly when
    they stand there between two word boundaries, in any case. *)
Lemma marker_found (line : str) :
  is_marker line = true <-> holds_marker line.
Proof.
  rewrite <- marker_strip. unfold is_marker. split.
  - apply marker_sound.
  - apply marker_complete.
Qed.

(** Claim C2.  In any raw answer, the bare line [Infection: No] changes
    nothing when no earlier line contains the final-answer marker, and sets
    the entry Infection to No when an earlier line contains it; a line that
    contains the marker sets the flag and leaves the record and the current
    variable alone; once set, the flag stays set for all later lines.  A
    line contains the marker exactly when the words [final answer] stand
    somewhere on it, in any letter case, with no word character right before
    them and none right after them. *)
Theorem final_answer_gating (text : str) (before after : list str) :
  (Py.split_lines text = before ++ u{"Infection: No"} :: after ->
     (Forall (fun l => is_marker l = false) before ->
        PostOP_Claude.extract_bullet_points text
        = relevant_points
            (loop PostOP_Claude.standardize_variable_name initial (before ++ after)))
     /\ (Exists (fun l => is_marker l = true) before ->
        relevant_points
          (loop PostOP_Claude.standardize_variable_name initial
             (before ++ [u{"Infection: No"}]))
        = <[u{"Infection"} := u{"No"}]>
            (relevant_points
               (loop PostOP_Claude.standardize_variable_name initial before))
        /\ (after = [] ->
            PostOP_Claude.extract_bullet_points text !! u{"Infection"} = Some u{"No"})))
  /\ (forall st line,
        is_marker line = true ->
        step PostOP_Claude.standardize_variable_name st line
        = {| relevant_points := relevant_points st;
             current_variable := current_variable st;
             in_final_answer_section := true |})
  /\ (forall st lines,
        in_final_answer_section st = true ->
        in_final_answer_section
          (loop PostOP_Claude.standardize_variable_name st lines) = true)
  /\ (forall line, is_marker line = true <-> holds_marker line).
Proof.
  split; [|split; [|split]].
  - intros Hsplit. split.
    + intros Hclosed.
      unfold PostOP_Claude.extract_bullet_points, Normalizer.extract_bullet_points.
      rewrite Hsplit, !NormalizerFacts.loop_app. simpl.
      rewrite PostOP_Claude_Facts.step_infection_no_closed;
        [reflexivity | apply PostOP_Claude_Facts.reachable_invariant |].
      rewrite NormalizerFacts.loop_flag_unmarked by exact Hclosed. reflexivity.
    + intros Hopen.
      assert (Hstate :
        relevant_points
          (loop PostOP_Claude.standardize_variable_name initial
             (before ++ [u{"Infection: No"}]))
        = <[u{"Infection"} := u{"No"}]>
            (relevant_points
               (loop PostOP_Claude.standardize_variable_name initial before))).
      { rewrite NormalizerFacts.loop_app. simpl.
        rewrite PostOP_Claude_Facts.step_infection_no_open; [reflexivity|].
        apply NormalizerFacts.loop_flag_marked, Hopen. }
      split; [exact Hstate|].
      intros ->.
      unfold PostOP_Claude.extract_bullet_points, Normalizer.extract_bullet_points.
      rewrite Hsplit, Hstate. apply lookup_insert_eq.
  - intros st line. apply NormalizerFacts.step_marker.
  - intros st lines. apply NormalizerFacts.loop_flag.
  - exact marker_found.
Qed.

(** [final_answer_gating] at four answers: the bare line between two lines
    of prose; the bare line after the marker; the bare line after a line
    that holds the marker, in capitals, in the middle of a sentence; and the
    bare line after a line on which a Greek letter stands right before the
    words, which is no marker. *)
Lemma final_answer_gating_witness :
  PostOP_Claude.extract_bullet_points
    (join_lines [u{"Some reasoning"}; u{"Infection: No"}; u{"and more"}])
  = relevant_points
      (loop PostOP_Claude.standardize_variable_name initial
         [u{"Some reasoning"}; u{"and more"}])
  /\ PostOP_Claude.extract_bullet_points
       (join_lines [u{"Final answer:"}; u{"Infection: No"}])
       !! u{"Infection"} = Some u{"No"}
  /\ PostOP_Claude.extract_bullet_points
       (join_lines [u{"  So, here is my FINAL ANSWER, as asked:"}; u{"Infection: No"}])
       !! u{"Infection"} = Some u{"No"}
  /\ PostOP_Claude.extract_bullet_points
       (join_lines [945 :: u{"final answer"}; u{"Infection: No"}])
     = ∅.
Proof.
  split; [|split; [|split]].
  - refine (proj1 (proj1 (final_answer_gating
                              (join_lines [u{"Some reasoning"}; u{"Infection: No"}; u{"and more"}])
                              [u{"Some reasoning"}] [u{"and more"}])
                     eq_refl) _).
    constructor; [vm_compute; reflexivity | constructor].
  - refine (proj2 (proj2 (proj1 (final_answer_gating
                                     (join_lines [u{"Final answer:"}; u{"Infection: No"}])
                                     [u{"Final answer:"}] [])
                            eq_refl) _) eq_refl).
    constructor. vm_compute. reflexivity.
  - refine (proj2 (proj2 (proj1 (final_answer_gating
                                     (join_lines [u{"  So, here is my FINAL ANSWER, as asked:"};
                                                  u{"Infection: No"}])
                                     [u{"  So, here is my FINAL ANSWER, as asked:"}] [])
                            eq_refl) _) eq_refl).
    constructor.
    apply (proj2 (proj2 (proj2 (proj2 (final_answer_gating [] [] []))) _)).
    exists u{"  So, here is my "}, u{"FINAL ANSWER"}, u{", as asked:"}.
    repeat split; vm_compute; reflexivity.
  - refine (eq_trans (proj1 (proj1 (final_answer_gating
                              (join_lines [945 :: u{"final answer"}; u{"Infection: No"}])
                              [945 :: u{"final answer"}] [])
                     eq_refl) _) _).
    + constructor; [vm_compute; reflexivity | constructor].
    + vm_compute. reflexivity.
Defined.

End MarkerFacts.
